(** * Rogue access point scanner: the RSN decoder, the access-point registry
      and the alert ledger of [scan.py]

    The development embeds [parse_rsn] and [packet_handler] of [scan.py] and
    proves properties of the decoder, of the per-BSSID records and of the
    alert ledger.

    Conventions of the embedding.
    - Python [int] is [Z]; [bytes] is [list Byte.byte]; [str] is [string].
    - A Python exception is a value [Raise e] of the [result] type; a
      [try ... except Exception] block is [try_except].
    - The dictionary returned by [parse_rsn] is a [gmap string pyval].
    - [ap_data] is a Python dictionary, which iterates in insertion order: it
      is an association list in insertion order.
    - The [pwr] and [channel] lists of a record are Python list objects. A
      [dict.copy()] is shallow, so a copied dictionary refers to the same list
      objects: lists live in a [heap] and a record holds their locations.
    - Console output ([print]) is not part of the model; the flags [verbose]
      and [live_alerts_only] only select what is printed. *)

From Stdlib Require Import ZArith QArith Lia Bool.
From Stdlib.Strings Require Import Byte Ascii String.
From stdpp Require Import base option list strings gmap.

Open Scope string_scope.
Open Scope list_scope.
Open Scope Z_scope.

(** ** Exceptions *)

Inductive exn : Type :=
| StructError   (* struct.error: unpack needs a buffer of the exact size *)
| IndexError    (* index out of range, or a layer that the packet lacks *)
| KeyError      (* missing dictionary key *)
| AttributeError.   (* an attribute that the object lacks *)

Inductive result (A : Type) : Type :=
| Ok (a : A)
| Raise (e : exn).
Arguments Ok {A} a.
Arguments Raise {A} e.

#[global] Instance result_bind : MBind result := fun A B k r =>
  match r with
  | Ok a => k a
  | Raise e => Raise e
  end.

(** [try: body except Exception: return handler] *)
Definition try_except {A : Type} (body : result A) (handler : A) : result A :=
  match body with
  | Ok a => Ok a
  | Raise _ => Ok handler
  end.

(** ** Bytes *)

(** The integer a byte stands for, as indexing a [bytes] object gives it. *)
Definition byte_val (b : Byte.byte) : Z := Z.of_N (Byte.to_N b).

(** [bytes(l)] for a list of integers in 0..255, used to write inputs down. *)
Definition bytes_of (l : list Z) : list Byte.byte :=
  map (fun z => default Byte.x00 (Byte.of_N (Z.to_N z))) l.

(** [s[a:b]] for [0 <= a]: never raises, and is shorter than [b - a] when
    the sequence ends early. *)
Definition py_slice {A : Type} (s : list A) (a b : Z) : list A :=
  take (Z.to_nat (b - a)) (drop (Z.to_nat a) s).

(** [s[i]] for [0 <= i]. *)
Definition py_index {A : Type} (s : list A) (i : Z) : result A :=
  match s !! Z.to_nat i with
  | Some x => Ok x
  | None => Raise IndexError
  end.

(** [len(s)] *)
Definition len {A : Type} (s : list A) : Z := Z.of_nat (length s).

(** [struct.unpack("<H", buf)[0]]: [buf] must hold exactly two bytes. *)
Definition unpack_H (buf : list Byte.byte) : result Z :=
  match buf with
  | [b0; b1] => Ok (byte_val b0 + 256 * byte_val b1)
  | _ => Raise StructError
  end.

(** ** Python values stored in the decoder's dictionary *)

Inductive pyval : Type :=
| VStr (s : string)
| VBool (b : bool).

#[global] Instance pyval_eq_dec : EqDecision pyval.
Proof. solve_decision. Defined.

(** Truth value of [d.get(k)]: [None] when the key is missing. *)
Definition truthy (v : option pyval) : bool :=
  match v with
  | None => false
  | Some (VBool b) => b
  | Some (VStr s) => negb (String.eqb s "")
  end.

(** [d.get(k, dflt)] *)
Definition dict_get {K V : Type} `{Countable K} (d : gmap K V) (k : K) (dflt : V) : V :=
  default dflt (d !! k).

(** ** parse_rsn *)

Definition cipher_map : gmap Z string :=
  {[ 1 := "WEP-40"; 2 := "TKIP"; 4 := "CCMP"; 5 := "WEP-104" ]}.

Definition akm_map : gmap Z string :=
  {[ 1 := "802.1X"; 2 := "PSK" ]}.

(** The dictionary literal returned on success. *)
Definition rsn_dict (enc cipher auth : string) (pmf_capable pmf_required : bool)
  : gmap string pyval :=
  {[ "enc" := VStr enc; "cipher" := VStr cipher; "auth" := VStr auth;
     "pmf_capable" := VBool pmf_capable; "pmf_required" := VBool pmf_required ]}.

(** The body of the [try] block. *)
Definition parse_rsn_try (rsn_ie : list Byte.byte) : result (gmap string pyval) :=
  version ← unpack_H (py_slice rsn_ie 0 2);
  if negb (version =? 1) then Ok ∅ else
  let group_cipher := py_slice rsn_ie 2 6 in
  pairwise_count ← unpack_H (py_slice rsn_ie 6 8);
  let pairwise_list_length := pairwise_count * 4 in
  let pairwise_cipher := py_slice rsn_ie 8 12 in
  let akm_count_offset := 8 + pairwise_list_length in
  akm_count ← unpack_H (py_slice rsn_ie akm_count_offset (akm_count_offset + 2));
  let akm_list_length := akm_count * 4 in
  let akm_suite := py_slice rsn_ie (akm_count_offset + 2) (akm_count_offset + 6) in
  let expected_length_without_cap := akm_count_offset + 2 + akm_list_length in
  rsn_capabilities ←
    (if expected_length_without_cap + 2 <=? len rsn_ie
     then c ← unpack_H (py_slice rsn_ie expected_length_without_cap
                                  (expected_length_without_cap + 2));
          Ok (Some c)
     else Ok None);
  let pmf_capable :=
    match rsn_capabilities with
    | Some c => negb (Z.land c 0x0040 =? 0)
    | None => false
    end in
  let pmf_required :=
    match rsn_capabilities with
    | Some c => negb (Z.land c 0x0080 =? 0)
    | None => false
    end in
  let enc := "WPA2" in
  pc3 ← py_index pairwise_cipher 3;
  let cipher := dict_get cipher_map (byte_val pc3) "Unknown" in
  as3 ← py_index akm_suite 3;
  let auth := dict_get akm_map (byte_val as3) "Unknown" in
  Ok (rsn_dict enc cipher auth pmf_capable pmf_required).

Definition parse_rsn (rsn_ie : list Byte.byte) : result (gmap string pyval) :=
  try_except (parse_rsn_try rsn_ie) ∅.

(** *** Reading an input, to state what the decoder does *)

(** The integer at index [i], when the input has one. *)
Definition byte_at (s : list Byte.byte) (i : Z) : option Z :=
  byte_val <$> s !! Z.to_nat i.

(** The little-endian 16-bit integer at indices [i] and [i + 1]. *)
Definition u16_at (s : list Byte.byte) (i : Z) : option Z :=
  match byte_at s i, byte_at s (i + 1) with
  | Some b0, Some b1 => Some (b0 + 256 * b1)
  | _, _ => None
  end.

(** The capabilities field, read only when two bytes remain after the
    [A] AKM suites that follow the [P] pairwise suites. *)
Definition capabilities_at (s : list Byte.byte) (P A : Z) : option Z :=
  if 8 + 4 * P + 2 + 4 * A + 2 <=? len s then u16_at s (8 + 4 * P + 2 + 4 * A) else None.

(** The PMF string the handler derives from the capabilities. *)
Definition pmf_of_capabilities (caps : option Z) : string :=
  match caps with
  | Some c =>
      if negb (Z.land c 0x0080 =? 0) then "Required"
      else if negb (Z.land c 0x0040 =? 0) then "Capable"
      else "No"
  | None => "No"
  end.

(** The input ends before a step that needs bytes: the version (2 bytes),
    the pairwise count (bytes 6..7), the AKM count (2 bytes at [8 + 4 * P]),
    the type byte of the first pairwise suite (index 11) or the type byte of
    the first AKM suite (index [8 + 4 * P + 5]). *)
Definition truncated (s : list Byte.byte) : bool :=
  (len s <? 2) || (len s <? 8) ||
  match u16_at s 6 with
  | Some P => (len s <? 8 + 4 * P + 2) || (len s <? 12) || (len s <? 8 + 4 * P + 6)
  | None => true
  end.

(** The decoder's [try] body, step by step, in terms of what the input holds. *)
Definition parse_rsn_steps (s : list Byte.byte) : result (gmap string pyval) :=
  match u16_at s 0 with
  | None => Raise StructError
  | Some version =>
      if negb (version =? 1) then Ok ∅ else
      match u16_at s 6 with
      | None => Raise StructError
      | Some P =>
          match u16_at s (8 + 4 * P) with
          | None => Raise StructError
          | Some A =>
              match byte_at s 11 with
              | None => Raise IndexError
              | Some pc =>
                  match byte_at s (8 + 4 * P + 5) with
                  | None => Raise IndexError
                  | Some ak =>
                      let caps := capabilities_at s P A in
                      Ok (rsn_dict "WPA2"
                            (dict_get cipher_map pc "Unknown")
                            (dict_get akm_map ak "Unknown")
                            (match caps with
                             | Some c => negb (Z.land c 0x0040 =? 0)
                             | None => false
                             end)
                            (match caps with
                             | Some c => negb (Z.land c 0x0080 =? 0)
                             | None => false
                             end))
                  end
              end
          end
      end
  end.

(** ** Frames handed to [packet_handler]

    A frame is what scapy gives for a sniffed packet. Of a beacon the handler
    reads [pkt[Dot11].addr2], [pkt.dBm_AntSignal] ([None] when absent) and
    the chain of [Dot11Elt] layers. Of a data frame (type 2) it reads
    [pkt[Dot11].addr3].

    Of an element the handler reads [elt.ID] and [elt.info]. The field
    [info] is what [elt.info] evaluates to, and [None] when the layer has no
    such attribute and the read raises [AttributeError], as it does for a
    dissected element of length zero whose class has no [info] field.

    [ssid_text] is the text that [.decode(errors="ignore").strip()] makes of
    the [info] of the first element. No layer of a sniffed beacon without a
    DS Parameter Set has a [channel] field, so that [pkt[Dot11Elt].channel],
    which the handler evaluates only when its loop read no DS Parameter Set,
    raises [AttributeError]. *)

Record Dot11Elt : Type := {
  ID : Z;
  info : option (list Byte.byte)
}.

Record beacon : Type := {
  addr2 : string;
  ssid_text : string;
  dBm_AntSignal : option Z;
  elts : list Dot11Elt
}.

Inductive packet : Type :=
| Beacon (b : beacon)          (* pkt.haslayer(Dot11Beacon) *)
| DataFrame (addr3 : string)   (* pkt.haslayer(Dot11) and pkt[Dot11].type == 2 *)
| OtherFrame.

(** ** The registry, the heap of list objects and the alert ledger *)

Definition loc := nat.

(** [mb] is a float or the string ["N/A"]. A rate is a byte and [rate * 0.5]
    is exact, so the float is the rational it denotes. *)
Inductive mbval : Type :=
| MbFloat (q : Q)
| MbStr (s : string).

(** The dictionary stored under a BSSID. [pwr] and [channel] refer to list
    objects of the heap. *)
Record ap_record : Type := {
  essid : string;
  bssid : string;
  pwr : loc;
  beacons : Z;
  data : Z;
  channel : loc;
  mb : mbval;
  enc : pyval;
  cipher : pyval;
  auth : pyval;
  pmf : string
}.

(** An entry of [alerts]: [ap_data[bssid].copy()] with the key
    ["alert_type"] added. The copy is shallow: [alert_data] has the
    locations of the record it was copied from. *)
Record alert : Type := {
  alert_data : ap_record;
  alert_type : string
}.

Record state : Type := {
  heap : list (list Z);
  ap_data : list (string * ap_record);
  alerts : list alert
}.

(** The module's globals at start: [ap_data = {}], [alerts = []]. *)
Definition init_state : state := {| heap := []; ap_data := []; alerts := [] |}.

(** A new list object. *)
Definition alloc (h : list (list Z)) (l : list Z) : loc * list (list Z) :=
  (length h, h ++ [l]).

(** The contents of a list object. *)
Definition deref (h : list (list Z)) (l : loc) : list Z := default [] (h !! l).

(** [lst.append(x)] on the list object at [l]. *)
Definition append_at (h : list (list Z)) (l : loc) (x : Z) : list (list Z) :=
  <[ l := deref h l ++ [x] ]> h.

(** [ap_data.get(k)], and [k in ap_data] when the result is [Some]. *)
Fixpoint ap_get (d : list (string * ap_record)) (k : string) : option ap_record :=
  match d with
  | [] => None
  | (k', r) :: d' => if bool_decide (k' = k) then Some r else ap_get d' k
  end.

(** [ap_data[k]] *)
Definition ap_index (d : list (string * ap_record)) (k : string) : result ap_record :=
  match ap_get d k with
  | Some r => Ok r
  | None => Raise KeyError
  end.

(** [ap_data[k] = r]: an existing key keeps its position, a new key goes last. *)
Fixpoint ap_set (d : list (string * ap_record)) (k : string) (r : ap_record)
  : list (string * ap_record) :=
  match d with
  | [] => [(k, r)]
  | (k', r') :: d' =>
      if bool_decide (k' = k) then (k', r) :: d' else (k', r') :: ap_set d' k r
  end.

Definition set_beacons (r : ap_record) (n : Z) : ap_record :=
  {| essid := essid r; bssid := bssid r; pwr := pwr r; beacons := n; data := data r;
     channel := channel r; mb := mb r; enc := enc r; cipher := cipher r;
     auth := auth r; pmf := pmf r |}.

Definition set_data (r : ap_record) (n : Z) : ap_record :=
  {| essid := essid r; bssid := bssid r; pwr := pwr r; beacons := beacons r; data := n;
     channel := channel r; mb := mb r; enc := enc r; cipher := cipher r;
     auth := auth r; pmf := pmf r |}.

(** ** The element loop of [packet_handler] *)

Record ies : Type := {
  supported_rates : list Z;
  extended_rates : list Z;
  ie_channel : option Z;
  rsn_ie : option (list Byte.byte)
}.

Definition init_ies : ies :=
  {| supported_rates := []; extended_rates := []; ie_channel := None; rsn_ie := None |}.

(** [elt.info] *)
Definition get_info (elt : Dot11Elt) : result (list Byte.byte) :=
  match info elt with
  | Some i => Ok i
  | None => Raise AttributeError
  end.

(** One turn of the [while elt:] loop. [elt.info[0]] raises on an empty
    DS Parameter Set. *)
Definition scan_elt (acc : ies) (elt : Dot11Elt) : result ies :=
  if ID elt =? 0 then Ok acc
  else if ID elt =? 1 then
    i ← get_info elt;
    Ok {| supported_rates := supported_rates acc ++ map byte_val i;
          extended_rates := extended_rates acc;
          ie_channel := ie_channel acc; rsn_ie := rsn_ie acc |}
  else if ID elt =? 50 then
    i ← get_info elt;
    Ok {| supported_rates := supported_rates acc;
          extended_rates := extended_rates acc ++ map byte_val i;
          ie_channel := ie_channel acc; rsn_ie := rsn_ie acc |}
  else if ID elt =? 3 then
    i ← get_info elt;
    c ← py_index i 0;
    Ok {| supported_rates := supported_rates acc;
          extended_rates := extended_rates acc;
          ie_channel := Some (byte_val c); rsn_ie := rsn_ie acc |}
  else if ID elt =? 48 then
    i ← get_info elt;
    Ok {| supported_rates := supported_rates acc;
          extended_rates := extended_rates acc;
          ie_channel := ie_channel acc; rsn_ie := Some i |}
  else Ok acc.

Fixpoint scan_elts (acc : ies) (l : list Dot11Elt) : result ies :=
  match l with
  | [] => Ok acc
  | elt :: rest => acc' ← scan_elt acc elt; scan_elts acc' rest
  end.

(** Lines 86-116: what the handler reads off a beacon before it computes
    anything. [pkt[Dot11Elt]] raises [IndexError] when the beacon has no
    element; the loop goes over all elements; and when it has read no
    channel, [pkt[Dot11Elt].channel] raises [AttributeError]. The result is
    what the loop read and the channel. *)
Definition read_beacon (bc : beacon) : result (ies * Z) :=
  first ← match elts bc with
          | [] => Raise IndexError
          | elt :: _ => Ok elt
          end;
  _ ← get_info first;
  e ← scan_elts init_ies (elts bc);
  channel ← match ie_channel e with
            | Some c => Ok c
            | None => Raise AttributeError
            end;
  Ok (e, channel).

(** [max(xs)] of a non-empty list [x :: xs]: the first largest item. *)
Definition py_max (x : Q) (xs : list Q) : Q :=
  fold_left (fun m y => if Qle_bool y m then m else y) xs x.

(** Lines 118-124: the maximum bit rate. *)
Definition max_bit_rate (all_rates : list Z) : mbval :=
  match map (fun rate => inject_Z rate * (1 # 2))%Q all_rates with
  | [] => MbStr "N/A"
  | r :: rates_mbps => MbFloat (py_max r rates_mbps)
  end.

(** Lines 126-147: encryption, cipher, auth and PMF of a beacon. An RSN
    element that is [None] or empty is false in [if rsn_ie:]. *)
Definition security (rsn : option (list Byte.byte))
  : result (pyval * pyval * pyval * string) :=
  match rsn with
  | Some (b :: bs) =>
      rsn_info ← parse_rsn (b :: bs);
      if negb (bool_decide (rsn_info = ∅)) then
        let encryption := dict_get rsn_info "enc" (VStr "WPA2") in
        let cipher := dict_get rsn_info "cipher" (VStr "CCMP") in
        let auth := dict_get rsn_info "auth" (VStr "PSK") in
        let pmf_str :=
          if truthy (rsn_info !! "pmf_required") then "Required"
          else if truthy (rsn_info !! "pmf_capable") then "Capable"
          else "No" in
        Ok (encryption, cipher, auth, pmf_str)
      else Ok (VStr "WPA2", VStr "CCMP", VStr "PSK", "No")
  | _ => Ok (VStr "OPN", VStr "", VStr "", "No")
  end.

(** ** The whitelist check *)

(** [s.split(sep)] for a one-character separator. *)
Fixpoint py_split (sep : ascii) (s : string) : list string :=
  match s with
  | EmptyString => [""]
  | String c s' =>
      if Ascii.eqb c sep then "" :: py_split sep s'
      else match py_split sep s' with
           | w :: ws => String c w :: ws
           | [] => [String c ""]
           end
  end.

(** Lines 172-181. The whitelist is a set of strings; the list is the order
    in which the [for] loop visits it. An entry that does not split in
    exactly two raises [ValueError] on unpacking and is skipped. *)
Fixpoint whitelist_check (whitelist : list string) (ssid bssid : string) : bool :=
  match whitelist with
  | [] => false
  | entry :: rest =>
      match py_split ","%char entry with
      | [entry_essid; entry_bssid] =>
          if bool_decide (ssid = entry_essid) && bool_decide (bssid = entry_bssid)
          then true
          else whitelist_check rest ssid bssid
      | _ => whitelist_check rest ssid bssid
      end
  end.

(** ** The alert rules *)

(** [any(alert.get('bssid') == bssid for alert in alerts)] *)
Definition has_alert (al : list alert) (b : string) : bool :=
  existsb (fun a => bool_decide (bssid (alert_data a) = b)) al.

Definition mk_alert (r : ap_record) (ty : string) : alert :=
  {| alert_data := r; alert_type := ty |}.

(** Lines 187-195: the loop over [ap_data.items()]. *)
Fixpoint evil_twin_scan (items : list (string * ap_record))
    (d : list (string * ap_record)) (display_essid b : string) (al : list alert)
  : result (list alert) :=
  match items with
  | [] => Ok al
  | (known_bssid, known_data) :: rest =>
      al' ← (if bool_decide (essid known_data = display_essid)
                && negb (bool_decide (known_bssid = b))
             then if negb (has_alert al b)
                  then r ← ap_index d b; Ok (al ++ [mk_alert r "Evil Twin Detected"])
                  else Ok al
             else Ok al);
      evil_twin_scan rest d display_essid b al'
  end.

(** Lines 150-169: create the record on first sight, update it otherwise. *)
Definition upsert (b display_essid : string) (signal_strength chan : option Z)
    (m : mbval) (encryption ciph au : pyval) (pmf_str : string)
    (h : list (list Z)) (d : list (string * ap_record))
  : list (list Z) * list (string * ap_record) :=
  match ap_get d b with
  | None =>
      let '(lp, h1) := alloc h (match signal_strength with Some s => [s] | None => [] end) in
      let '(lc, h2) := alloc h1 (match chan with Some c => [c] | None => [] end) in
      (h2, ap_set d b {| essid := display_essid; bssid := b; pwr := lp; beacons := 1;
                         data := 0; channel := lc; mb := m; enc := encryption;
                         cipher := ciph; auth := au; pmf := pmf_str |})
  | Some r =>
      let r1 := set_beacons r (beacons r + 1) in
      let h1 :=
        match signal_strength with
        | Some s => if bool_decide (s ∈ deref h (pwr r1)) then h else append_at h (pwr r1) s
        | None => h
        end in
      let h2 :=
        match chan with
        | Some c => if bool_decide (c ∈ deref h1 (channel r1)) then h1
                    else append_at h1 (channel r1) c
        | None => h1
        end in
      (h2, ap_set d b r1)
  end.

(** ** packet_handler *)

Definition packet_handler (pkt : packet) (verbose : bool) (whitelist : list string)
    (live_alerts_only : bool) (st : state) : result state :=
  match pkt with
  | Beacon bc =>
      let b := addr2 bc in
      let raw_ssid := ssid_text bc in
      let ssid := if bool_decide (raw_ssid = "") then "<Hidden>" else raw_ssid in
      let display_essid := ssid in
      let signal_strength := dBm_AntSignal bc in
      rd ← read_beacon bc;
      let '(e, channel) := rd in
      let chan := Some channel in
      let all_rates := supported_rates e ++ extended_rates e in
      let m := max_bit_rate all_rates in
      sec ← security (rsn_ie e);
      let '(encryption, ciph, au, pmf_str) := sec in
      let '(h, d) := upsert b display_essid signal_strength chan m encryption ciph au
                            pmf_str (heap st) (ap_data st) in
      let whitelisted := whitelist_check whitelist ssid b in
      if negb whitelisted then
        al1 ← (if negb (bool_decide (ssid = "<Hidden>"))
               then evil_twin_scan d d display_essid b (alerts st)
               else Ok (alerts st));
        al2 ← (if negb (has_alert al1 b)
               then r ← ap_index d b; Ok (al1 ++ [mk_alert r "Not Whitelisted"])
               else Ok al1);
        Ok {| heap := h; ap_data := d; alerts := al2 |}
      else Ok {| heap := h; ap_data := d; alerts := alerts st |}
  | DataFrame bssid_data =>
      match ap_get (ap_data st) bssid_data with
      | Some r =>
          Ok {| heap := heap st;
                ap_data := ap_set (ap_data st) bssid_data (set_data r (data r + 1));
                alerts := alerts st |}
      | None => Ok st
      end
  | OtherFrame => Ok st
  end.

(** ** A run of the handler

    [sniff] calls the handler once per packet. An exception that leaves the
    handler ends the run; the state is the one reached before that packet
    (the handler raises only before it touches [ap_data] or [alerts]). *)

Record call : Type := {
  c_pkt : packet;
  c_verbose : bool;
  c_whitelist : list string;
  c_live_alerts_only : bool
}.

Fixpoint run (cs : list call) (st : state) : state :=
  match cs with
  | [] => st
  | c :: cs' =>
      match packet_handler (c_pkt c) (c_verbose c) (c_whitelist c)
                           (c_live_alerts_only c) st with
      | Ok st' => run cs' st'
      | Raise _ => st
      end
  end.

(** The loop of [main]: every packet is handled with the same arguments. *)
Definition sniff (pkts : list packet) (verbose : bool) (whitelist : list string)
    (live_alerts_only : bool) (st : state) : state :=
  run (map (fun p => {| c_pkt := p; c_verbose := verbose; c_whitelist := whitelist;
                        c_live_alerts_only := live_alerts_only |}) pkts) st.

(** ** What the tables read *)

(** Lines 224-227: [sum(pwr) / len(pwr)], or [None] for an empty list. The
    quotient is the rational that the float approximates. *)
Definition avg_pwr (samples : list Z) : option Q :=
  match samples with
  | [] => None
  | _ => Some (Qmake (fold_right Z.add 0 samples) (Pos.of_nat (length samples)))
  end.

(** The lists an alert shows when it is read in heap [h]. *)
Definition alert_pwr (h : list (list Z)) (a : alert) : list Z := deref h (pwr (alert_data a)).
Definition alert_channel (h : list (list Z)) (a : alert) : list Z :=
  deref h (channel (alert_data a)).

(** A beacon with the given BSSID, name, signal and DS Parameter Set channel. *)
Definition plain_beacon (b s : string) (sig : option Z) (ch : Z) : beacon :=
  {| addr2 := b; ssid_text := s; dBm_AntSignal := sig;
     elts := [ {| ID := 0; info := Some (list_byte_of_string s) |};
               {| ID := 3; info := Some (bytes_of [ch]) |} ] |}.

Definition mk_beacon (b s : string) (sig : option Z) (ch : Z) : packet :=
  Beacon (plain_beacon b s sig ch).

(** ** Vocabulary for the statements *)

(** The name under which a beacon is handled: [ssid] of the handler. *)
Definition ssid_of (bc : beacon) : string :=
  if bool_decide (ssid_text bc = "") then "<Hidden>" else ssid_text bc.

(** The test of the evil-twin loop on one item of [ap_data]. *)
Definition twin (ssid b : string) (item : string * ap_record) : bool :=
  bool_decide (essid item.2 = ssid) && negb (bool_decide (item.1 = b)).

(** The BSSID an alert is for. *)
Definition alert_bssid (a : alert) : string := bssid (alert_data a).

(** The registry and heap after lines 150-169, for a beacon whose elements
    were read as [e], on channel [c], and whose security was computed as
    [sec]. *)
Definition beacon_upsert (bc : beacon) (e : ies) (c : Z)
    (sec : pyval * pyval * pyval * string)
    (st : state) : list (list Z) * list (string * ap_record) :=
  let '(encryption, ciph, au, pmf_str) := sec in
  upsert (addr2 bc) (ssid_of bc) (dBm_AntSignal bc) (Some c)
         (max_bit_rate (supported_rates e ++ extended_rates e))
         encryption ciph au pmf_str (heap st) (ap_data st).

(** What lines 183-200 append to the ledger [al] for BSSID [b] handled under
    the name [ssid], the registry being [d]. *)
Definition new_alerts (d : list (string * ap_record)) (whitelist : list string)
    (ssid b : string) (al : list alert) : list alert :=
  if whitelist_check whitelist ssid b then []
  else if has_alert al b then []
  else match ap_get d b with
       | Some r =>
           [mk_alert r (if negb (bool_decide (ssid = "<Hidden>")) && existsb (twin ssid b) d
                        then "Evil Twin Detected" else "Not Whitelisted")]
       | None => []
       end.

(** Every record is stored under its own BSSID. *)
Definition keys_ok (d : list (string * ap_record)) : Prop :=
  forall k r, ap_get d k = Some r -> bssid r = k.

(** The two lists of every record are distinct objects of the heap. *)
Definition locs_ok (h : list (list Z)) (d : list (string * ap_record)) : Prop :=
  forall k r, ap_get d k = Some r ->
    (pwr r < length h)%nat /\ (channel r < length h)%nat /\ pwr r <> channel r.

Definition wf_state (st : state) : Prop :=
  keys_ok (ap_data st) /\ locs_ok (heap st) (ap_data st) /\
  NoDup (map alert_bssid (alerts st)).

(** [lst.append(x)] unless [x] is [None] or already in the list. *)
Definition add_once (x : option Z) (l : list Z) : list Z :=
  match x with
  | Some s => if bool_decide (s ∈ l) then l else l ++ [s]
  | None => l
  end.

(** A beacon on channel 1 with an RSN element of the given payload. *)
Definition rsn_beacon (b s : string) (payload : list Z) : beacon :=
  {| addr2 := b; ssid_text := s; dBm_AntSignal := None;
     elts := [ {| ID := 0; info := Some (list_byte_of_string s) |};
               {| ID := 3; info := Some (bytes_of [1]) |};
               {| ID := 48; info := Some (bytes_of payload) |} ] |}.

(** A beacon named "Net" from BSSID [a] or [b]. *)
Definition net_beacon_of (a b : string) (p : packet) : Prop :=
  exists bc, p = Beacon bc /\ ssid_text bc = "Net" /\ (addr2 bc = a \/ addr2 bc = b).

(** The first packet of the run is a beacon from [a]. *)
Definition first_from (a : string) (pkts : list packet) : bool :=
  match pkts with
  | Beacon bc :: _ => bool_decide (addr2 bc = a)
  | _ => false
  end.

(** In a run that began with a beacon of [a]: [a] is recorded and [b] is not alerted, or is alerted as an evil twin. *)
Definition a_seen_first (a b : string) (st : state) : Prop :=
  keys_ok (ap_data st) /\
  (exists r, ap_get (ap_data st) a = Some r /\ essid r = "Net") /\
  (alerts st = [] \/
   exists rb, alerts st = [mk_alert rb "Evil Twin Detected"] /\ bssid rb = b).

(** In a run that began with a beacon of [b]: [b] was alerted as not whitelisted. *)
Definition b_seen_first (b : string) (st : state) : Prop :=
  keys_ok (ap_data st) /\
  exists rb, alerts st = [mk_alert rb "Not Whitelisted"] /\ bssid rb = b.

(** ** Vocabulary for the further properties *)

(** The names [cipher_map] and [akm_map] give to a suite type, with the
    default of [dict.get]. *)
Definition cipher_name (t : Z) : string :=
  if t =? 1 then "WEP-40" else if t =? 2 then "TKIP"
  else if t =? 4 then "CCMP" else if t =? 5 then "WEP-104" else "Unknown".

Definition akm_name (t : Z) : string :=
  if t =? 1 then "802.1X" else if t =? 2 then "PSK" else "Unknown".

(** The payloads of the elements with a given ID, in the order of the frame. *)
Definition infos_of (id : Z) (l : list Dot11Elt) : list (list Byte.byte) :=
  omap info (filter (fun elt => ID elt = id) l).

(** An element on which the loop raises: one of the four kinds it reads
    that has no [info], or a DS Parameter Set with no payload, where
    [elt.info[0]] has nothing to read. *)
Definition unreadable_elt (elt : Dot11Elt) : Prop :=
  ((ID elt = 1 \/ ID elt = 50 \/ ID elt = 3 \/ ID elt = 48) /\ info elt = None) \/
  (ID elt = 3 /\ info elt = Some []).

#[global] Instance byte_eq_dec : EqDecision Byte.byte := Byte.byte_eq_dec.

#[global] Instance unreadable_elt_dec elt : Decision (unreadable_elt elt).
Proof. unfold unreadable_elt. apply _. Defined.

(** A beacon that the handler reads to the end: it has a first element
    with an [info], the loop raises on none of its elements, and one of them
    is a DS Parameter Set. *)
Definition readable_beacon (bc : beacon) : Prop :=
  (exists elt rest i, elts bc = elt :: rest /\ info elt = Some i) /\
  ~ Exists unreadable_elt (elts bc) /\
  Exists (fun elt => ID elt = 3) (elts bc).

(** [sep in s] for a one-character [sep]. *)
Fixpoint contains (sep : ascii) (s : string) : bool :=
  match s with
  | EmptyString => false
  | String c s' => Ascii.eqb c sep || contains sep s'
  end.

(** ** Loading the whitelist

    A [string] stands for a [str] whose characters have code points below
    256. [str.isspace] holds of the characters 9 to 13, 28 to 32, 133 and
    160 among them. *)
Definition isspace (c : ascii) : bool :=
  let n := nat_of_ascii c in
  ((9 <=? n)%nat && (n <=? 13)%nat) || ((28 <=? n)%nat && (n <=? 32)%nat)
  || (n =? 133)%nat || (n =? 160)%nat.

Fixpoint lstrip (s : string) : string :=
  match s with
  | EmptyString => EmptyString
  | String c s' => if isspace c then lstrip s' else s
  end.

Fixpoint rstrip (s : string) : string :=
  match s with
  | EmptyString => EmptyString
  | String c s' =>
      match rstrip s' with
      | EmptyString => if isspace c then EmptyString else String c EmptyString
      | t => String c t
      end
  end.

(** [s.strip()] *)
Definition py_strip (s : string) : string := rstrip (lstrip s).

(** Lines 19-31. [file] is [None] when [os.path.exists] is false, and
    otherwise the lines that iterating over the open file yields. The result
    is a Python set. *)
Definition load_whitelist (file : option (list string)) : gset string :=
  match file with
  | Some f =>
      list_to_set (omap (fun line => if bool_decide (py_strip line = "") then None
                                     else Some (py_strip line)) f)
  | None => ∅
  end.

(** Lines 280-288 of [main]: the whitelist of the run, from [args.whitelist]
    ([None] when the option is not given) and from the file of that name. *)
Definition main_whitelist (arg : option string) (file : option (list string))
  : gset string :=
  match arg with
  | Some w =>
      if bool_decide (w = "") then ∅
      else match file with
           | Some f => load_whitelist (Some f)
           | None => list_to_set (py_split "," w)
           end
  | None => ∅
  end.

(** ** Invariants of the registry, the heap and the ledger *)

(** The list objects of two records are four distinct objects. *)
Definition locs_apart (d : list (string * ap_record)) : Prop :=
  forall k1 k2 r1 r2, k1 <> k2 -> ap_get d k1 = Some r1 -> ap_get d k2 = Some r2 ->
    pwr r1 <> pwr r2 /\ pwr r1 <> channel r2 /\
    channel r1 <> pwr r2 /\ channel r1 <> channel r2.

(** No list object holds a value twice. *)
Definition heap_nodup (h : list (list Z)) : Prop :=
  forall l xs, h !! l = Some xs -> NoDup xs.

Definition counters_ok (d : list (string * ap_record)) : Prop :=
  forall k r, ap_get d k = Some r -> 1 <= beacons r /\ 0 <= data r.

(** An alert is the copy of an earlier state of the record [r]: it has the
    fields of [r], and the very list objects of [r], with counters that [r]
    has reached or passed. *)
Definition copy_of (a : alert) (r : ap_record) : Prop :=
  essid (alert_data a) = essid r /\ bssid (alert_data a) = bssid r /\
  pwr (alert_data a) = pwr r /\ channel (alert_data a) = channel r /\
  mb (alert_data a) = mb r /\ enc (alert_data a) = enc r /\
  cipher (alert_data a) = cipher r /\ auth (alert_data a) = auth r /\
  pmf (alert_data a) = pmf r /\
  beacons (alert_data a) <= beacons r /\ data (alert_data a) <= data r.

Definition alerts_follow (d : list (string * ap_record)) (al : list alert) : Prop :=
  forall a, a ∈ al ->
    (exists r, ap_get d (alert_bssid a) = Some r /\ copy_of a r) /\
    (alert_type a = "Evil Twin Detected" \/ alert_type a = "Not Whitelisted").

Definition reg_inv (st : state) : Prop :=
  wf_state st /\ NoDup (map fst (ap_data st)) /\ locs_apart (ap_data st) /\
  heap_nodup (heap st) /\ counters_ok (ap_data st) /\
  alerts_follow (ap_data st) (alerts st).

(** ** Vocabulary for whole runs *)

(** A packet that the handler reads without an exception. *)
Definition readable (p : packet) : Prop :=
  match p with
  | Beacon bc => readable_beacon bc
  | _ => True
  end.

(** The beacons of BSSID [b] among the packets, in order. *)
Definition beacons_of (b : string) (pkts : list packet) : list beacon :=
  omap (fun p => match p with
                 | Beacon bc => if bool_decide (addr2 bc = b) then Some bc else None
                 | _ => None
                 end) pkts.

(** The data frames addressed to [b] that come after a beacon of [b];
    [seen] tells whether a beacon of [b] came before the packets. *)
Fixpoint data_frames_counted (b : string) (seen : bool) (pkts : list packet) : Z :=
  match pkts with
  | [] => 0
  | Beacon bc :: rest => data_frames_counted b (seen || bool_decide (addr2 bc = b)) rest
  | DataFrame k :: rest =>
      (if seen && bool_decide (k = b) then 1 else 0) + data_frames_counted b seen rest
  | OtherFrame :: rest => data_frames_counted b seen rest
  end.

(** * Properties *)

(** ** The decoder *)

Example parse_rsn_wpa2_psk :
  parse_rsn (bytes_of [1;0; 0;15;172;4; 1;0; 0;15;172;4; 1;0; 0;15;172;2; 128;0])
  = Ok (rsn_dict "WPA2" "CCMP" "PSK" false true).
Proof. vm_compute. reflexivity. Qed.

Example parse_rsn_short_input : parse_rsn (bytes_of [1; 0; 0; 15; 172]) = Ok ∅.
Proof. vm_compute. reflexivity. Qed.

Example parse_rsn_zero_akm_count :
  parse_rsn (bytes_of [1;0; 0;15;172;4; 1;0; 0;15;172;4; 0;0; 12;0]) = Ok ∅.
Proof. vm_compute. reflexivity. Qed.

Example py_split_commas : py_split "," "a,b,,c" = ["a"; "b"; ""; "c"].
Proof. reflexivity. Qed.

Example whitelist_skips_malformed :
  whitelist_check ["Net"; "Net,A,x"; "Net,A"] "Net" "A" = true /\
  whitelist_check ["Net"; "Net,A,x"] "Net" "A" = false.
Proof. split; reflexivity. Qed.

Example max_bit_rate_raw_bytes :
  max_bit_rate [130; 132; 139; 150; 12; 18; 24; 108] = MbFloat (150 # 2) /\
  max_bit_rate [] = MbStr "N/A".
Proof. split; vm_compute; reflexivity. Qed.

Example empty_ds_parameter_set_raises :
  packet_handler
    (Beacon {| addr2 := "A"; ssid_text := "Net"; dBm_AntSignal := None;
               elts := [ {| ID := 0; info := Some (list_byte_of_string "Net") |};
                         {| ID := 3; info := Some [] |} ] |})
    false [] false init_state = Raise IndexError.
Proof. reflexivity. Qed.

Example no_ds_parameter_set_raises :
  packet_handler
    (Beacon {| addr2 := "A"; ssid_text := "Net"; dBm_AntSignal := None;
               elts := [ {| ID := 0; info := Some (list_byte_of_string "Net") |};
                         {| ID := 48; info := Some (bytes_of [2; 0]) |} ] |})
    false [] false init_state = Raise AttributeError.
Proof. reflexivity. Qed.

Lemma byte_val_nonneg b : 0 <= byte_val b.
Proof. unfold byte_val. lia. Qed.

Lemma byte_at_Some s i v : byte_at s i = Some v -> 0 <= i -> i < len s.
Proof.
  unfold byte_at, len. intros Hv Hi.
  destruct (s !! Z.to_nat i) eqn:E; [|discriminate].
  apply lookup_lt_Some in E. lia.
Qed.

Lemma byte_at_None s i : 0 <= i -> byte_at s i = None <-> len s <= i.
Proof.
  unfold byte_at, len. intros Hi. rewrite fmap_None, lookup_ge_None. lia.
Qed.

Lemma u16_at_nonneg s i v : u16_at s i = Some v -> 0 <= v.
Proof.
  unfold u16_at, byte_at. intros Hv.
  destruct (s !! Z.to_nat i) as [x|]; [|discriminate].
  destruct (s !! Z.to_nat (i + 1)) as [y|]; [|discriminate].
  simpl in Hv. injection Hv as <-.
  pose proof (byte_val_nonneg x). pose proof (byte_val_nonneg y). lia.
Qed.

Lemma u16_at_None s i : 0 <= i -> u16_at s i = None <-> len s < i + 2.
Proof.
  intros Hi. unfold u16_at.
  destruct (byte_at s i) as [x|] eqn:E0.
  - apply byte_at_Some in E0; [|lia].
    destruct (byte_at s (i + 1)) as [y|] eqn:E1.
    + apply byte_at_Some in E1; [|lia]. split; [discriminate | lia].
    + apply byte_at_None in E1; [|lia]. split; [lia | reflexivity].
  - apply byte_at_None in E0; [|lia]. split; [lia | reflexivity].
Qed.

Lemma slice_lookup {A} (s : list A) (a b : Z) (k : nat) :
  0 <= a ->
  py_slice s a b !! k = if decide (Z.of_nat k < b - a) then s !! (Z.to_nat a + k)%nat else None.
Proof.
  intros Ha. unfold py_slice. destruct (decide (Z.of_nat k < b - a)).
  - rewrite lookup_take_lt by lia. apply lookup_drop.
  - apply lookup_take_ge. lia.
Qed.

(** Unpacking a two-byte slice reads the 16-bit integer there, and raises
    when the input ends before it. *)
Lemma unpack_H_slice s i j :
  0 <= i -> j = i + 2 ->
  unpack_H (py_slice s i j) =
  match u16_at s i with Some v => Ok v | None => Raise StructError end.
Proof.
  intros Hi ->. unfold u16_at, byte_at, py_slice.
  replace (i + 2 - i) with 2 by lia.
  replace (Z.to_nat (i + 1)) with (Z.to_nat i + 1)%nat by lia.
  rewrite <- (Nat.add_0_r (Z.to_nat i)) at 2.
  rewrite <- !lookup_drop.
  destruct (drop (Z.to_nat i) s) as [|x [|y l]]; reflexivity.
Qed.

Lemma py_index_slice_eq {A} (s : list A) a b k :
  0 <= a -> 0 <= k < b - a -> py_index (py_slice s a b) k = py_index s (a + k).
Proof.
  intros Ha Hk. unfold py_index.
  rewrite slice_lookup by lia. rewrite decide_True by lia.
  replace (Z.to_nat a + Z.to_nat k)%nat with (Z.to_nat (a + k)) by lia.
  reflexivity.
Qed.

Lemma py_index_byte_at s i :
  py_index s i = match s !! Z.to_nat i with Some x => Ok x | None => Raise IndexError end
  /\ byte_at s i = byte_val <$> s !! Z.to_nat i.
Proof. split; reflexivity. Qed.

Lemma parse_rsn_try_steps s : parse_rsn_try s = parse_rsn_steps s.
Proof.
  unfold parse_rsn_try, parse_rsn_steps.
  rewrite (unpack_H_slice s 0 2) by lia.
  destruct (u16_at s 0) as [version|]; [|reflexivity]. simpl.
  destruct (negb (version =? 1)); [reflexivity|].
  rewrite (unpack_H_slice s 6 8) by lia.
  destruct (u16_at s 6) as [P|] eqn:EP; [|reflexivity]. simpl.
  pose proof (u16_at_nonneg _ _ _ EP) as HP.
  replace (8 + P * 4) with (8 + 4 * P) by lia.
  rewrite (unpack_H_slice s (8 + 4 * P) (8 + 4 * P + 2)) by lia.
  destruct (u16_at s (8 + 4 * P)) as [A|] eqn:EA; [|reflexivity]. simpl.
  pose proof (u16_at_nonneg _ _ _ EA) as HA.
  replace (8 + 4 * P + 2 + A * 4) with (8 + 4 * P + 2 + 4 * A) by lia.
  rewrite (py_index_slice_eq s 8 12 3) by lia.
  rewrite (py_index_slice_eq s (8 + 4 * P + 2) (8 + 4 * P + 6) 3) by lia.
  replace (8 + 4 * P + 2 + 3) with (8 + 4 * P + 5) by lia.
  change (8 + 3) with 11.
  unfold capabilities_at.
  rewrite (unpack_H_slice s (8 + 4 * P + 2 + 4 * A) (8 + 4 * P + 2 + 4 * A + 2)) by lia.
  assert (Hcap : (if 8 + 4 * P + 2 + 4 * A + 2 <=? len s
                  then c ← match u16_at s (8 + 4 * P + 2 + 4 * A) with
                           | Some v => Ok v | None => Raise StructError end; Ok (Some c)
                  else Ok None)
                 = Ok (if 8 + 4 * P + 2 + 4 * A + 2 <=? len s
                       then u16_at s (8 + 4 * P + 2 + 4 * A) else None)).
  { destruct (Z.leb_spec (8 + 4 * P + 2 + 4 * A + 2) (len s)) as [Hl|Hl]; [|reflexivity].
    destruct (u16_at s (8 + 4 * P + 2 + 4 * A)) eqn:EC; [reflexivity|].
    apply u16_at_None in EC; lia. }
  rewrite Hcap. simpl.
  unfold py_index, byte_at.
  destruct (s !! Z.to_nat 11); [|reflexivity]. simpl.
  destruct (s !! Z.to_nat (8 + 4 * P + 5)); reflexivity.
Qed.

Lemma rsn_dict_lookups e c a p r :
  rsn_dict e c a p r !! "enc" = Some (VStr e) /\
  rsn_dict e c a p r !! "cipher" = Some (VStr c) /\
  rsn_dict e c a p r !! "auth" = Some (VStr a) /\
  rsn_dict e c a p r !! "pmf_capable" = Some (VBool p) /\
  rsn_dict e c a p r !! "pmf_required" = Some (VBool r).
Proof. unfold rsn_dict. repeat split; by simplify_map_eq. Qed.

Lemma rsn_dict_non_empty e c a p r : rsn_dict e c a p r ≠ ∅.
Proof. unfold rsn_dict. apply insert_non_empty. Qed.

(** What the handler makes of a decoded dictionary. *)
Lemma security_of_rsn_dict s e c a p r :
  s ≠ [] ->
  parse_rsn s = Ok (rsn_dict e c a p r) ->
  security (Some s) =
  Ok (VStr e, VStr c, VStr a, if r then "Required" else if p then "Capable" else "No").
Proof.
  intros Hs Hp. destruct s as [|b bs]; [done|].
  unfold security. rewrite Hp. simpl.
  rewrite bool_decide_eq_false_2 by apply rsn_dict_non_empty. simpl.
  destruct (rsn_dict_lookups e c a p r) as (He & Hc & Ha & Hcap & Hreq).
  unfold dict_get. rewrite He, Hc, Ha, Hcap, Hreq. simpl. reflexivity.
Qed.

(** What the handler makes of a failed decode of a non-empty element. *)
Lemma security_of_failed_decode s :
  s ≠ [] -> parse_rsn s = Ok ∅ ->
  security (Some s) = Ok (VStr "WPA2", VStr "CCMP", VStr "PSK", "No").
Proof.
  intros Hs Hp. destruct s as [|b bs]; [done|].
  unfold security. rewrite Hp. simpl.
  rewrite bool_decide_eq_true_2 by reflexivity. reflexivity.
Qed.

(** C5. An input with version 1, pairwise count [P], AKM count [A], type
    byte 4 in the first pairwise suite (index 11) and type byte 2 in the
    first AKM suite (index [8 + 4 * P + 5]), long enough for each of these
    reads, decodes to WPA2 / CCMP / PSK; the PMF string of the record is
    Required when bit 0x0080 of the capabilities is set, else Capable when
    bit 0x0040 is set, else No, the capabilities being the two bytes at
    [8 + 4 * P + 2 + 4 * A] when the input has them (No otherwise). *)
Theorem rsn_wpa2_ccmp_psk (s : list Byte.byte) (P A : Z) :
  u16_at s 0 = Some 1 ->
  u16_at s 6 = Some P ->
  byte_at s 11 = Some 4 ->
  u16_at s (8 + 4 * P) = Some A ->
  byte_at s (8 + 4 * P + 5) = Some 2 ->
  (exists cap, parse_rsn s =
     Ok (rsn_dict "WPA2" "CCMP" "PSK" cap
           (match capabilities_at s P A with
            | Some c => negb (Z.land c 0x0080 =? 0)
            | None => false
            end))) /\
  security (Some s) =
    Ok (VStr "WPA2", VStr "CCMP", VStr "PSK",
        pmf_of_capabilities (capabilities_at s P A)).
Proof.
  intros Hv HP Hpc HA Hak.
  assert (Hparse : parse_rsn s =
     Ok (rsn_dict "WPA2" "CCMP" "PSK"
           (match capabilities_at s P A with
            | Some c => negb (Z.land c 0x0040 =? 0) | None => false end)
           (match capabilities_at s P A with
            | Some c => negb (Z.land c 0x0080 =? 0) | None => false end))).
  { unfold parse_rsn. rewrite parse_rsn_try_steps. unfold parse_rsn_steps.
    rewrite Hv. simpl. rewrite HP, HA, Hpc, Hak. reflexivity. }
  split; [eexists; exact Hparse|].
  assert (Hs : s ≠ []) by (intros ->; discriminate Hv).
  rewrite (security_of_rsn_dict _ _ _ _ _ _ Hs Hparse).
  unfold pmf_of_capabilities.
  destruct (capabilities_at s P A) as [c|]; [|reflexivity].
  destruct (negb (Z.land c 128 =? 0)); reflexivity.
Qed.

Lemma rsn_wpa2_ccmp_psk_witness :
  security (Some (bytes_of [1;0; 0;15;172;4; 1;0; 0;15;172;4; 1;0; 0;15;172;2; 192;0]))
  = Ok (VStr "WPA2", VStr "CCMP", VStr "PSK", "Required").
Proof.
  exact (proj2 (rsn_wpa2_ccmp_psk
    (bytes_of [1;0; 0;15;172;4; 1;0; 0;15;172;4; 1;0; 0;15;172;2; 192;0]) 1 1
    eq_refl eq_refl eq_refl eq_refl eq_refl)).
Defined.

(** C6. The decoder returns a dictionary for every input, whatever its
    contents and length, and never raises. For an input that ends before a
    step that needs bytes, or whose version is not 1, the dictionary is
    empty; for every other input it is the complete five-key dictionary:
    there is no partial result. *)
Theorem parse_rsn_never_raises_no_partial (s : list Byte.byte) :
  exists d, parse_rsn s = Ok d /\
    if truncated s || negb (bool_decide (u16_at s 0 = Some 1))
    then d = ∅
    else exists c a cap req, d = rsn_dict "WPA2" c a cap req.
Proof.
  unfold parse_rsn. rewrite parse_rsn_try_steps. unfold parse_rsn_steps, truncated.
  destruct (u16_at s 0) as [v|] eqn:Ev.
  2:{ apply u16_at_None in Ev; [|lia]. exists ∅. split; [reflexivity|].
      replace (len s <? 2) with true by (symmetry; apply Z.ltb_lt; lia).
      reflexivity. }
  destruct (Z.eqb_spec v 1) as [->|Hne]; simpl.
  2:{ exists ∅. split; [reflexivity|].
      rewrite bool_decide_eq_false_2 by congruence.
      simpl. rewrite orb_true_r. reflexivity. }
  rewrite orb_false_r.
  assert (H2 : 2 <= len s).
  { destruct (Z.le_gt_cases 2 (len s)) as [|Hlt]; [done|].
    assert (u16_at s 0 = None) by (apply u16_at_None; lia). congruence. }
  replace (len s <? 2) with false by (symmetry; apply Z.ltb_ge; lia). simpl.
  destruct (u16_at s 6) as [P|] eqn:EP.
  2:{ exists ∅. split; [reflexivity|]. rewrite orb_true_r. reflexivity. }
  pose proof (u16_at_nonneg _ _ _ EP) as HP.
  assert (H8 : 8 <= len s).
  { destruct (Z.le_gt_cases 8 (len s)) as [|Hlt]; [done|].
    assert (u16_at s 6 = None) by (apply u16_at_None; lia). congruence. }
  replace (len s <? 8) with false by (symmetry; apply Z.ltb_ge; lia). simpl.
  destruct (u16_at s (8 + 4 * P)) as [A|] eqn:EA.
  2:{ apply u16_at_None in EA; [|lia]. exists ∅. split; [reflexivity|].
      replace (len s <? 8 + 4 * P + 2) with true by (symmetry; apply Z.ltb_lt; lia).
      reflexivity. }
  assert (HA : 8 + 4 * P + 2 <= len s).
  { destruct (Z.le_gt_cases (8 + 4 * P + 2) (len s)) as [|Hlt]; [done|].
    assert (u16_at s (8 + 4 * P) = None) by (apply u16_at_None; lia). congruence. }
  replace (len s <? 8 + 4 * P + 2) with false by (symmetry; apply Z.ltb_ge; lia). simpl.
  destruct (byte_at s 11) as [pc|] eqn:Epc.
  2:{ apply byte_at_None in Epc; [|lia]. exists ∅. split; [reflexivity|].
      replace (len s <? 12) with true by (symmetry; apply Z.ltb_lt; lia).
      reflexivity. }
  apply byte_at_Some in Epc; [|lia].
  replace (len s <? 12) with false by (symmetry; apply Z.ltb_ge; lia). simpl.
  destruct (byte_at s (8 + 4 * P + 5)) as [ak|] eqn:Eak.
  2:{ apply byte_at_None in Eak; [|lia]. exists ∅. split; [reflexivity|].
      replace (len s <? 8 + 4 * P + 6) with true by (symmetry; apply Z.ltb_lt; lia).
      reflexivity. }
  apply byte_at_Some in Eak; [|lia].
  replace (len s <? 8 + 4 * P + 6) with false by (symmetry; apply Z.ltb_ge; lia).
  eexists. split; [reflexivity|]. eauto.
Qed.

(** ** The registry *)

Lemma ap_get_set_eq d k r : ap_get (ap_set d k r) k = Some r.
Proof.
  induction d as [|[k' r'] d IH]; simpl.
  - by rewrite bool_decide_eq_true_2.
  - case_bool_decide as Hk; simpl.
    + by rewrite bool_decide_eq_true_2.
    + by rewrite bool_decide_eq_false_2.
Qed.

Lemma ap_get_set_ne d k k' r : k <> k' -> ap_get (ap_set d k r) k' = ap_get d k'.
Proof.
  intros Hne. induction d as [|[k0 r0] d IH]; simpl.
  - by rewrite bool_decide_eq_false_2.
  - case_bool_decide as Hk; simpl.
    + subst k0. by rewrite !bool_decide_eq_false_2.
    + case_bool_decide; [done | exact IH].
Qed.

Lemma ap_set_keys d k r :
  map fst (ap_set d k r) =
  match ap_get d k with Some _ => map fst d | None => map fst d ++ [k] end.
Proof.
  induction d as [|[k0 r0] d IH]; simpl; [done|].
  case_bool_decide as Hk; simpl; [done|].
  rewrite IH. by destruct (ap_get d k).
Qed.

Lemma existsb_twin_ap_set ssid b d r :
  existsb (twin ssid b) (ap_set d b r) = existsb (twin ssid b) d.
Proof.
  induction d as [|[k0 r0] d IH]; simpl.
  - unfold twin. simpl. rewrite (bool_decide_eq_true_2 (b = b)) by done.
    simpl. by rewrite andb_false_r.
  - case_bool_decide as Hk; simpl.
    + subst k0. unfold twin at 1 3. simpl.
      rewrite (bool_decide_eq_true_2 (b = b)) by done. simpl.
      by rewrite !andb_false_r.
    + by rewrite IH.
Qed.

Lemma ap_get_elem_of d k r : ap_get d k = Some r -> (k, r) ∈ d.
Proof.
  induction d as [|[k0 r0] d IH]; simpl; [done|].
  case_bool_decide as Hk.
  - intros [= ->]. subst. left.
  - intros H. right. by apply IH.
Qed.

Lemma existsb_twin_intro ssid b d k r :
  ap_get d k = Some r -> k <> b -> essid r = ssid -> existsb (twin ssid b) d = true.
Proof.
  intros Hg Hk He. apply existsb_exists. exists (k, r). split.
  - apply list_elem_of_In. by apply ap_get_elem_of.
  - unfold twin. simpl. rewrite bool_decide_eq_true_2 by done.
    by rewrite bool_decide_eq_false_2.
Qed.

(** ** The alert rules *)

Lemma has_alert_app al1 al2 b : has_alert (al1 ++ al2) b = has_alert al1 b || has_alert al2 b.
Proof. unfold has_alert. apply existsb_app. Qed.

Lemma has_alert_false al b : has_alert al b = false <-> b ∉ map alert_bssid al.
Proof.
  unfold has_alert. induction al as [|a al IH]; simpl.
  - split; [intros _; apply not_elem_of_nil | done].
  - rewrite not_elem_of_cons, orb_false_iff, IH. unfold alert_bssid.
    rewrite bool_decide_eq_false. split; intros [H1 H2]; split; auto.
Qed.

(** The loop appends one evil-twin alert when the ledger has no entry for
    the BSSID and some other BSSID has the name, and nothing otherwise. *)
Lemma evil_twin_scan_ok items d ssid b al r :
  ap_get d b = Some r -> bssid r = b ->
  evil_twin_scan items d ssid b al =
  Ok (if has_alert al b then al
      else if existsb (twin ssid b) items then al ++ [mk_alert r "Evil Twin Detected"]
      else al).
Proof.
  intros Hg Hb. revert al.
  induction items as [|[k0 r0] items IH]; intros al; simpl.
  - by destruct (has_alert al b).
  - unfold twin at 1. simpl.
    destruct (bool_decide (essid r0 = ssid) && negb (bool_decide (k0 = b))); simpl.
    + destruct (has_alert al b) eqn:Hal; simpl.
      * rewrite IH, Hal. done.
      * unfold ap_index. rewrite Hg. simpl. rewrite IH.
        rewrite has_alert_app, Hal. simpl. by rewrite bool_decide_eq_true_2.
    + rewrite IH. done.
Qed.

Lemma parse_rsn_ok s : exists d, parse_rsn s = Ok d.
Proof. unfold parse_rsn, try_except. destruct (parse_rsn_try s); eauto. Qed.

Lemma security_ok rsn : exists sec, security rsn = Ok sec.
Proof.
  destruct rsn as [[|b bs]|]; simpl; eauto.
  destruct (parse_rsn_ok (b :: bs)) as [d ->]. simpl.
  destruct (negb (bool_decide (d = ∅))); eauto.
Qed.

(** After lines 150-169 the registry has a record under the beacon's BSSID,
    and that record carries this BSSID. *)
Lemma upsert_get b ssid sig ch m en ci au pm h d :
  (forall r, ap_get d b = Some r -> bssid r = b) ->
  exists r', ap_get (upsert b ssid sig ch m en ci au pm h d).2 b = Some r' /\ bssid r' = b.
Proof.
  intros Hk. unfold upsert. destruct (ap_get d b) as [r|] eqn:Hg; simpl.
  - rewrite ap_get_set_eq. eexists. split; [reflexivity|]. simpl. by apply Hk.
  - rewrite ap_get_set_eq. eexists. split; [reflexivity|]. reflexivity.
Qed.

(** A beacon whose elements can be read is handled without an exception:
    the registry is updated and the ledger grows by [new_alerts]. *)
Lemma packet_handler_beacon bc v wl la st e c sec :
  read_beacon bc = Ok (e, c) ->
  security (rsn_ie e) = Ok sec ->
  (forall r, ap_get (ap_data st) (addr2 bc) = Some r -> bssid r = addr2 bc) ->
  packet_handler (Beacon bc) v wl la st =
  Ok {| heap := (beacon_upsert bc e c sec st).1;
        ap_data := (beacon_upsert bc e c sec st).2;
        alerts := alerts st ++ new_alerts (beacon_upsert bc e c sec st).2 wl
                                           (ssid_of bc) (addr2 bc) (alerts st) |}.
Proof.
  intros Hread Hsec Hk. unfold packet_handler. rewrite Hread. simpl. rewrite Hsec. simpl.
  destruct sec as [[[en ci] au] pm]. unfold beacon_upsert.
  change (if bool_decide (ssid_text bc = "") then "<Hidden>" else ssid_text bc)
    with (ssid_of bc).
  destruct (upsert_get (addr2 bc) (ssid_of bc) (dBm_AntSignal bc) (Some c)
              (max_bit_rate (supported_rates e ++ extended_rates e)) en ci au pm
              (heap st) (ap_data st) Hk) as (r' & Hg & Hb).
  destruct (upsert (addr2 bc) (ssid_of bc) (dBm_AntSignal bc) (Some c)
              (max_bit_rate (supported_rates e ++ extended_rates e)) en ci au pm
              (heap st) (ap_data st)) as [h d]. simpl in *.
  unfold new_alerts.
  destruct (whitelist_check wl (ssid_of bc) (addr2 bc)); simpl.
  { by rewrite app_nil_r. }
  rewrite Hg.
  destruct (bool_decide (ssid_of bc = "<Hidden>")); simpl.
  - destruct (has_alert (alerts st) (addr2 bc)); simpl.
    + by rewrite app_nil_r.
    + unfold ap_index. rewrite Hg. reflexivity.
  - rewrite (evil_twin_scan_ok d d (ssid_of bc) (addr2 bc) (alerts st) r' Hg Hb). simpl.
    destruct (has_alert (alerts st) (addr2 bc)) eqn:Hal; simpl.
    + rewrite Hal. simpl. by rewrite app_nil_r.
    + destruct (existsb (twin (ssid_of bc) (addr2 bc)) d); simpl.
      * rewrite has_alert_app, Hal. simpl. rewrite Hb.
        by rewrite bool_decide_eq_true_2.
      * rewrite Hal. simpl. unfold ap_index. rewrite Hg. reflexivity.
Qed.

(** ** Invariants of a run *)

Lemma length_append_at h l x : length (append_at h l x) = length h.
Proof. unfold append_at. apply length_insert. Qed.

Lemma deref_append_at_eq h l x :
  (l < length h)%nat -> deref (append_at h l x) l = deref h l ++ [x].
Proof. intros Hl. unfold deref at 1, append_at. by rewrite list_lookup_insert_eq. Qed.

Lemma deref_append_at_ne h l l' x : l <> l' -> deref (append_at h l x) l' = deref h l'.
Proof. intros Hl. unfold deref at 1, append_at. by rewrite list_lookup_insert_ne. Qed.

Lemma upsert_length b ssid sig ch m en ci au pm h d :
  (length h <= length (upsert b ssid sig ch m en ci au pm h d).1)%nat.
Proof.
  unfold upsert. destruct (ap_get d b) as [r|]; simpl.
  - destruct sig as [s|], ch as [c|]; repeat case_bool_decide;
      rewrite ?length_append_at; lia.
  - rewrite !length_app. simpl. lia.
Qed.

Lemma upsert_keys_ok b ssid sig ch m en ci au pm h d :
  keys_ok d -> keys_ok (upsert b ssid sig ch m en ci au pm h d).2.
Proof.
  intros Hk k r. unfold upsert.
  destruct (ap_get d b) as [r0|] eqn:Hg; simpl.
  - destruct (decide (b = k)) as [->|Hne].
    + rewrite ap_get_set_eq. intros [= <-]. simpl. by apply Hk.
    + rewrite ap_get_set_ne by done. apply Hk.
  - destruct (decide (b = k)) as [->|Hne].
    + rewrite ap_get_set_eq. by intros [= <-].
    + rewrite ap_get_set_ne by done. apply Hk.
Qed.

Lemma upsert_locs_ok b ssid sig ch m en ci au pm h d :
  locs_ok h d ->
  locs_ok (upsert b ssid sig ch m en ci au pm h d).1 (upsert b ssid sig ch m en ci au pm h d).2.
Proof.
  intros Hl k r Hr.
  pose proof (upsert_length b ssid sig ch m en ci au pm h d) as Hlen.
  revert Hr Hlen. unfold upsert.
  destruct (ap_get d b) as [r0|] eqn:Hg; simpl.
  - destruct (decide (b = k)) as [->|Hne].
    + rewrite ap_get_set_eq. intros [= <-] Hlen. simpl.
      destruct (Hl _ _ Hg) as (H1 & H2 & H3). repeat split; [lia | lia | done].
    + rewrite ap_get_set_ne by done. intros Hr Hlen.
      destruct (Hl _ _ Hr) as (H1 & H2 & H3). repeat split; [lia | lia | done].
  - rewrite !length_app. simpl.
    destruct (decide (b = k)) as [->|Hne].
    + rewrite ap_get_set_eq. intros [= <-] _. simpl. repeat split; lia.
    + rewrite ap_get_set_ne by done. intros Hr _.
      destruct (Hl _ _ Hr) as (H1 & H2 & H3). repeat split; [lia | lia | done].
Qed.

Lemma new_alerts_cases d wl ssid b al :
  new_alerts d wl ssid b al = [] \/
  exists r ty, new_alerts d wl ssid b al = [mk_alert r ty] /\
    ap_get d b = Some r /\ has_alert al b = false /\ whitelist_check wl ssid b = false.
Proof.
  unfold new_alerts.
  destruct (whitelist_check wl ssid b); [by left|].
  destruct (has_alert al b); [by left|].
  destruct (ap_get d b) as [r|]; [|by left].
  right. eexists _, _. repeat split; reflexivity.
Qed.

Lemma new_alerts_nodup d wl ssid b al :
  keys_ok d -> NoDup (map alert_bssid al) ->
  NoDup (map alert_bssid (al ++ new_alerts d wl ssid b al)).
Proof.
  intros Hk Hn.
  destruct (new_alerts_cases d wl ssid b al) as [->|(r & ty & -> & Hg & Hal & _)].
  - by rewrite app_nil_r.
  - rewrite map_app. simpl. apply NoDup_app. split; [done|]. split.
    + intros x Hx Hx'. apply list_elem_of_singleton in Hx'. subst x.
      apply has_alert_false in Hal. apply Hal.
      unfold alert_bssid at 1 in Hx. simpl in Hx. by rewrite (Hk _ _ Hg) in Hx.
    + apply NoDup_singleton.
Qed.

(** A beacon is handled only when the handler can read it. *)
Lemma packet_handler_beacon_inv bc v wl la st st' :
  packet_handler (Beacon bc) v wl la st = Ok st' ->
  exists e c, read_beacon bc = Ok (e, c).
Proof.
  unfold packet_handler. destruct (read_beacon bc) as [[e c]|]; [eauto | discriminate].
Qed.

Lemma packet_handler_wf pkt v wl la st st' :
  wf_state st -> packet_handler pkt v wl la st = Ok st' -> wf_state st'.
Proof.
  intros (Hk & Hl & Hn) Hstep. destruct pkt as [bc|k|].
  - destruct (packet_handler_beacon_inv _ _ _ _ _ _ Hstep) as (e & c & He).
    destruct (security_ok (rsn_ie e)) as [sec Hsec].
    rewrite (packet_handler_beacon bc v wl la st e c sec He Hsec) in Hstep
      by (intros r; apply Hk).
    injection Hstep as <-. unfold wf_state, beacon_upsert. simpl.
    destruct sec as [[[en ci] au] pm].
    split; [by apply upsert_keys_ok|]. split; [by apply upsert_locs_ok|].
    apply new_alerts_nodup; [by apply upsert_keys_ok | done].
  - simpl in Hstep. destruct (ap_get (ap_data st) k) as [r|] eqn:Hg.
    + injection Hstep as <-. unfold wf_state. simpl. split; [|split; [|done]].
      * intros k' r'. destruct (decide (k = k')) as [->|Hne].
        -- rewrite ap_get_set_eq. intros [= <-]. simpl. by apply Hk.
        -- rewrite ap_get_set_ne by done. apply Hk.
      * intros k' r'. destruct (decide (k = k')) as [->|Hne].
        -- rewrite ap_get_set_eq. intros [= <-]. simpl. by apply (Hl _ _ Hg).
        -- rewrite ap_get_set_ne by done. apply Hl.
    + by injection Hstep as <-.
  - by injection Hstep as <-.
Qed.

(** A property that holds at the start and that every handled packet
    keeps holds at the end of a run. *)
Lemma run_invariant (I : state -> Prop) cs st :
  I st ->
  (forall c s s', I s ->
     packet_handler (c_pkt c) (c_verbose c) (c_whitelist c) (c_live_alerts_only c) s = Ok s' ->
     I s') ->
  I (run cs st).
Proof.
  intros H0 Hstep. revert st H0.
  induction cs as [|c cs IH]; intros st H0; simpl; [done|].
  destruct (packet_handler _ _ _ _ st) as [s'|x] eqn:E; [|done].
  apply IH. eapply Hstep; eauto.
Qed.

Lemma init_state_wf : wf_state init_state.
Proof.
  unfold wf_state. simpl. split; [|split].
  - intros k r. discriminate.
  - intros k r. discriminate.
  - apply NoDup_nil_2.
Qed.

Lemma run_wf cs : wf_state (run cs init_state).
Proof.
  apply run_invariant; [apply init_state_wf|].
  intros c s s' Hs Hstep. eapply packet_handler_wf; eauto.
Qed.

(** The ledger only grows: what a packet finds in it stays, in place. *)
Lemma packet_handler_alerts_prefix pkt v wl la st st' :
  packet_handler pkt v wl la st = Ok st' -> alerts st `prefix_of` alerts st'.
Proof.
  intros Hstep. destruct pkt as [bc|k|].
  - revert Hstep. unfold packet_handler.
    destruct (read_beacon bc) as [[e c]|]; [|discriminate]. simpl.
    destruct (security (rsn_ie e)) as [[[[en ci] au] pm]|]; [|discriminate]. simpl.
    destruct (upsert _ _ _ _ _ _ _ _ _ _ _) as [h d].
    destruct (whitelist_check _ _ _); simpl; [by intros [= <-]|].
    assert (Hscan : forall items al al', evil_twin_scan items d (ssid_of bc) (addr2 bc) al = Ok al' ->
                      al `prefix_of` al').
    { induction items as [|[k0 r0] items IH]; intros al al'; simpl.
      - by intros [= <-].
      - destruct (_ && _); simpl; [|apply IH].
        destruct (has_alert al (addr2 bc)); simpl; [apply IH|].
        destruct (ap_index d (addr2 bc)) as [r|]; simpl; [|discriminate].
        intros H. apply IH in H. etrans; [|exact H]. by apply prefix_app_r. }
    change (if bool_decide (ssid_text bc = "") then "<Hidden>" else ssid_text bc)
      with (ssid_of bc).
    destruct (match negb (bool_decide (ssid_of bc = "<Hidden>")) with
              | true => evil_twin_scan d d (ssid_of bc) (addr2 bc) (alerts st)
              | false => Ok (alerts st) end) as [al1|] eqn:E1; simpl; [|discriminate].
    assert (H1 : alerts st `prefix_of` al1).
    { destruct (negb _); [by eapply Hscan | by injection E1 as <-]. }
    destruct (has_alert al1 (addr2 bc)); simpl.
    + by intros [= <-].
    + destruct (ap_index d (addr2 bc)) as [r|]; simpl; [|discriminate].
      intros [= <-]. simpl. etrans; [exact H1|]. by apply prefix_app_r.
  - simpl in Hstep. destruct (ap_get (ap_data st) k); by injection Hstep as <-.
  - by injection Hstep as <-.
Qed.

Lemma run_alerts_prefix cs st : alerts st `prefix_of` alerts (run cs st).
Proof.
  revert st. induction cs as [|c cs IH]; intros st; simpl; [done|].
  destruct (packet_handler _ _ _ _ st) as [s'|x] eqn:E; [|done].
  etrans; [|apply IH]. by eapply packet_handler_alerts_prefix.
Qed.

Lemma run_app_alerts_prefix cs cs' st :
  alerts (run cs st) `prefix_of` alerts (run (cs ++ cs') st).
Proof.
  revert st. induction cs as [|c cs IH]; intros st; simpl.
  - apply run_alerts_prefix.
  - destruct (packet_handler _ _ _ _ st) as [s'|x] eqn:E; [apply IH | done].
Qed.

(** ** Data frames *)

(** C9. A data frame never raises, never touches the heap or the ledger and
    never adds a key to the registry. When its BSSID has a record, only that
    record changes, and only in [data], which grows by one; when its BSSID
    has no record the whole state is unchanged. *)
Theorem data_frame_counts_known_bssid_only (k : string) (v la : bool) (wl : list string)
    (st : state) :
  exists st', packet_handler (DataFrame k) v wl la st = Ok st' /\
    heap st' = heap st /\ alerts st' = alerts st /\
    map fst (ap_data st') = map fst (ap_data st) /\
    (forall k', k' <> k -> ap_get (ap_data st') k' = ap_get (ap_data st) k') /\
    match ap_get (ap_data st) k with
    | Some r =>
        exists r', ap_get (ap_data st') k = Some r' /\
          data r' = data r + 1 /\ beacons r' = beacons r /\
          essid r' = essid r /\ bssid r' = bssid r /\
          pwr r' = pwr r /\ channel r' = channel r /\ mb r' = mb r /\
          enc r' = enc r /\ cipher r' = cipher r /\ auth r' = auth r /\ pmf r' = pmf r
    | None => st' = st
    end.
Proof.
  simpl. destruct (ap_get (ap_data st) k) as [r|] eqn:Hg.
  - eexists. split; [reflexivity|]. simpl. repeat split.
    + rewrite ap_set_keys, Hg. reflexivity.
    + intros k' Hne. apply ap_get_set_ne. congruence.
    + eexists. split; [apply ap_get_set_eq|]. simpl. repeat split.
  - exists st. repeat split.
Qed.

Lemma data_frame_counts_known_bssid_only_witness :
  let st := sniff [mk_beacon "A" "Net" None 1; DataFrame "A"] false [] false init_state in
  (exists st' r', packet_handler (DataFrame "A") false [] false st = Ok st' /\
     ap_get (ap_data st') "A" = Some r' /\ data r' = 2 /\ beacons r' = 1) /\
  packet_handler (DataFrame "B") false [] false st = Ok st.
Proof.
  intros st. split.
  - destruct (data_frame_counts_known_bssid_only "A" false false [] st)
      as (st' & Hs & _ & _ & _ & _ & r' & Hg & Hd & Hb & _).
    exists st', r'. split; [exact Hs|]. split; [exact Hg|]. split; [exact Hd | exact Hb].
  - destruct (data_frame_counts_known_bssid_only "B" false false [] st)
      as (st' & Hs & _ & _ & _ & _ & Hm).
    simpl in Hm. rewrite Hm in Hs. exact Hs.
Defined.

(** ** Security of a new record *)

Lemma ssid_of_named bc s : ssid_text bc = s -> s <> "" -> ssid_of bc = s.
Proof. intros <- Hs. unfold ssid_of. by rewrite bool_decide_eq_false_2. Qed.

(** The record made by a first beacon has the security computed from the
    beacon's elements. *)
Lemma first_beacon_record bc v wl la st e c sec :
  ap_get (ap_data st) (addr2 bc) = None ->
  read_beacon bc = Ok (e, c) ->
  security (rsn_ie e) = Ok sec ->
  exists st' r, packet_handler (Beacon bc) v wl la st = Ok st' /\
    ap_get (ap_data st') (addr2 bc) = Some r /\
    (enc r, cipher r, auth r, pmf r) = sec /\
    essid r = ssid_of bc /\ bssid r = addr2 bc /\ beacons r = 1 /\ data r = 0.
Proof.
  intros Hnew He Hsec.
  rewrite (packet_handler_beacon bc v wl la st e c sec He Hsec)
    by (intros r Hr; congruence).
  destruct sec as [[[en ci] au] pm].
  eexists _, _. split; [reflexivity|]. simpl.
  unfold beacon_upsert, upsert. rewrite Hnew. simpl.
  rewrite ap_get_set_eq. split; [reflexivity|]. simpl. repeat split.
Qed.

(** C2, as the code has it: a first beacon that the handler reads to the
    end and whose RSN element is not empty and fails to decode makes a
    record with WPA2 / CCMP / PSK and PMF "No"; the OPN / empty defaults are
    those of a beacon with no RSN element or with an empty one. *)
Theorem failed_decode_assumes_wpa2 (bc : beacon) (v la : bool) (wl : list string)
    (st : state) (e : ies) (c : Z) :
  ap_get (ap_data st) (addr2 bc) = None ->
  read_beacon bc = Ok (e, c) ->
  exists st' r, packet_handler (Beacon bc) v wl la st = Ok st' /\
    ap_get (ap_data st') (addr2 bc) = Some r /\
    (forall s, rsn_ie e = Some s -> s <> [] -> parse_rsn s = Ok ∅ ->
       enc r = VStr "WPA2" /\ cipher r = VStr "CCMP" /\ auth r = VStr "PSK" /\ pmf r = "No") /\
    (rsn_ie e = None \/ rsn_ie e = Some [] ->
       enc r = VStr "OPN" /\ cipher r = VStr "" /\ auth r = VStr "" /\ pmf r = "No").
Proof.
  intros Hnew He.
  destruct (security_ok (rsn_ie e)) as [sec Hsec].
  destruct (first_beacon_record bc v wl la st e c sec Hnew He Hsec)
    as (st' & r & Hstep & Hg & Hr & _).
  exists st', r. split; [done|]. split; [done|]. split.
  - intros s Hs Hne Hfail. rewrite Hs in Hsec.
    rewrite (security_of_failed_decode s Hne Hfail) in Hsec.
    injection Hsec as <-. by injection Hr as -> -> -> ->.
  - intros Hno. assert (Hopn : security (rsn_ie e) = Ok (VStr "OPN", VStr "", VStr "", "No"))
      by (destruct Hno as [-> | ->]; reflexivity).
    rewrite Hopn in Hsec. injection Hsec as <-. by injection Hr as -> -> -> ->.
Qed.

Lemma failed_decode_assumes_wpa2_witness :
  exists st' r,
    packet_handler (Beacon (rsn_beacon "A" "Net" [2; 0])) false [] false init_state = Ok st' /\
    ap_get (ap_data st') "A" = Some r /\ enc r = VStr "WPA2".
Proof.
  destruct (failed_decode_assumes_wpa2 (rsn_beacon "A" "Net" [2; 0]) false false []
              init_state _ _ eq_refl eq_refl) as (st' & r & Hstep & Hg & Hfail & _).
  exists st', r. split; [exact Hstep|]. split; [exact Hg|].
  apply (Hfail (bytes_of [2; 0]) eq_refl); [discriminate | reflexivity].
Defined.

(** C2, as stated, fails: version 2 does not decode, and the record made for
    the beacon says WPA2 / CCMP / PSK, not OPN. *)
Lemma failed_decode_is_not_opn :
  parse_rsn (bytes_of [2; 0]) = Ok ∅ /\
  exists st' r,
    packet_handler (Beacon (rsn_beacon "A" "Net" [2; 0])) false [] false init_state = Ok st' /\
    ap_get (ap_data st') "A" = Some r /\
    enc r = VStr "WPA2" /\ cipher r = VStr "CCMP" /\ auth r = VStr "PSK" /\
    enc r <> VStr "OPN".
Proof.
  split; [reflexivity|]. eexists _, _. split; [reflexivity|].
  split; [reflexivity|]. repeat split. discriminate.
Qed.

(** ** Repeat beacons *)

(** The update branch of lines 164-169 on a record whose two lists are
    distinct objects of the heap. *)
Lemma upsert_known b ssid sig ch m en ci au pm h d r :
  ap_get d b = Some r ->
  (pwr r < length h)%nat -> (channel r < length h)%nat -> pwr r <> channel r ->
  let h' := (upsert b ssid sig ch m en ci au pm h d).1 in
  let d' := (upsert b ssid sig ch m en ci au pm h d).2 in
  ap_get d' b = Some (set_beacons r (beacons r + 1)) /\
  deref h' (pwr r) = add_once sig (deref h (pwr r)) /\
  deref h' (channel r) = add_once ch (deref h (channel r)).
Proof.
  intros Hg Hp Hc Hne. unfold upsert. rewrite Hg. simpl.
  split; [apply ap_get_set_eq|].
  set (h1 := match sig with
             | Some s => if bool_decide (s ∈ deref h (pwr r)) then h
                         else append_at h (pwr r) s
             | None => h
             end).
  assert (H1p : deref h1 (pwr r) = add_once sig (deref h (pwr r))).
  { unfold h1, add_once. destruct sig as [s|]; [|done].
    case_bool_decide; [done|]. by apply deref_append_at_eq. }
  assert (H1c : deref h1 (channel r) = deref h (channel r)).
  { unfold h1. destruct sig as [s|]; [|done].
    case_bool_decide; [done|]. by apply deref_append_at_ne. }
  assert (H1l : length h1 = length h).
  { unfold h1. destruct sig as [s|]; [|done].
    case_bool_decide; [done|]. apply length_append_at. }
  unfold add_once at 2. destruct ch as [c|]; [|by rewrite H1c].
  rewrite H1c. case_bool_decide.
  - by rewrite H1c.
  - rewrite deref_append_at_ne by done. rewrite deref_append_at_eq by lia.
    by rewrite H1c.
Qed.



(** ** The ledger *)

Lemma upsert_get_ne b ssid sig ch m en ci au pm h d k :
  b <> k -> ap_get (upsert b ssid sig ch m en ci au pm h d).2 k = ap_get d k.
Proof.
  intros Hne. unfold upsert. destruct (ap_get d b); simpl; by apply ap_get_set_ne.
Qed.

Lemma upsert_twin b ssid sig ch m en ci au pm h d s :
  existsb (twin s b) (upsert b ssid sig ch m en ci au pm h d).2 = existsb (twin s b) d.
Proof.
  unfold upsert. destruct (ap_get d b); simpl; apply existsb_twin_ap_set.
Qed.

Lemma has_alert_true al b :
  has_alert al b = true <-> exists a, a ∈ al /\ alert_bssid a = b.
Proof.
  unfold has_alert. rewrite existsb_exists. split.
  - intros (a & Ha & Hb). exists a. split; [by apply list_elem_of_In|].
    by apply bool_decide_eq_true in Hb.
  - intros (a & Ha & Hb). exists a. split; [by apply list_elem_of_In|].
    by apply bool_decide_eq_true.
Qed.


(** C1. Over any run, with any whitelist at each packet: the ledger never
    has two alerts for one BSSID; a beacon that the handler reads to the
    end, of a BSSID with no ledger entry, that is not whitelisted, is not
    hidden and shares its name with another recorded BSSID appends one
    alert, for its BSSID and of type evil twin; and an alert found later for
    a BSSID that already had an entry is that same entry. *)
Theorem one_alert_per_bssid_evil_twin_first (cs : list call) :
  let st := run cs init_state in
  NoDup (map (fun a => bssid (alert_data a)) (alerts st)) /\
  (forall (bc : beacon) (v la : bool) (wl : list string) (e : ies) (c : Z) (k : string)
          (r : ap_record),
     read_beacon bc = Ok (e, c) ->
     has_alert (alerts st) (addr2 bc) = false ->
     whitelist_check wl (ssid_of bc) (addr2 bc) = false ->
     ssid_of bc <> "<Hidden>" ->
     ap_get (ap_data st) k = Some r -> k <> addr2 bc -> essid r = ssid_of bc ->
     exists st' a,
       packet_handler (Beacon bc) v wl la st = Ok st' /\
       alerts st' = alerts st ++ [a] /\
       alert_type a = "Evil Twin Detected" /\
       bssid (alert_data a) = addr2 bc /\
       ap_get (ap_data st') (addr2 bc) = Some (alert_data a)) /\
  (forall (cs' : list call) (a : alert),
     a ∈ alerts (run (cs ++ cs') init_state) ->
     (exists a0, a0 ∈ alerts st /\ bssid (alert_data a0) = bssid (alert_data a)) ->
     a ∈ alerts st).
Proof.
  intros st. destruct (run_wf cs) as (Hk & Hl & Hn). fold st in Hk, Hl, Hn.
  split; [exact Hn|]. split.
  - intros bc v la wl e c k r He Hal Hwl Hhid Hg Hne Hes.
    destruct (security_ok (rsn_ie e)) as [sec Hsec].
    rewrite (packet_handler_beacon bc v wl la st e c sec He Hsec)
      by (intros r0; apply Hk).
    destruct sec as [[[en ci] au] pm]. unfold beacon_upsert.
    destruct (upsert_get (addr2 bc) (ssid_of bc) (dBm_AntSignal bc) (Some c)
                (max_bit_rate (supported_rates e ++ extended_rates e)) en ci au pm
                (heap st) (ap_data st)) as (rb & Hgb & Hb); [intros r0; apply Hk|].
    eexists _, (mk_alert rb "Evil Twin Detected"). split; [reflexivity|]. simpl.
    split; [|split; [reflexivity|split; [exact Hb | exact Hgb]]].
    unfold new_alerts. rewrite Hwl, Hal, Hgb.
    rewrite bool_decide_eq_false_2 by done. simpl.
    rewrite upsert_twin.
    by rewrite (existsb_twin_intro (ssid_of bc) (addr2 bc) (ap_data st) k r).
  - intros cs' a Ha (a0 & Ha0 & Hb0).
    destruct (run_app_alerts_prefix cs cs' init_state) as [tl Htl]. fold st in Htl.
    destruct (run_wf (cs ++ cs')) as (_ & _ & Hn'). rewrite Htl in Ha, Hn'.
    apply elem_of_app in Ha. destruct Ha as [Ha|Ha]; [exact Ha|].
    exfalso. rewrite map_app in Hn'. apply NoDup_app in Hn'.
    destruct Hn' as (_ & Hdis & _).
    apply (Hdis (alert_bssid a)).
    + unfold alert_bssid at 1. rewrite <- Hb0. apply list_elem_of_fmap. by exists a0.
    + apply list_elem_of_fmap. by exists a.
Qed.

Lemma one_alert_per_bssid_evil_twin_first_witness :
  exists st' a,
    packet_handler (mk_beacon "B" "Net" None 1) false [] false
      (run [ {| c_pkt := mk_beacon "A" "Net" None 1; c_verbose := false;
                c_whitelist := ["Net,A"]; c_live_alerts_only := false |} ] init_state)
      = Ok st' /\
    alerts st' = [] ++ [a] /\ alert_type a = "Evil Twin Detected" /\
    bssid (alert_data a) = "B".
Proof.
  destruct (proj1 (proj2 (one_alert_per_bssid_evil_twin_first
      [ {| c_pkt := mk_beacon "A" "Net" None 1; c_verbose := false;
           c_whitelist := ["Net,A"]; c_live_alerts_only := false |} ]))
    (plain_beacon "B" "Net" None 1)
    false false [] _ _ "A" _ eq_refl eq_refl eq_refl
    ltac:(discriminate) eq_refl ltac:(discriminate) eq_refl)
    as (st' & a & Hs & Hal & Hty & Hb & _).
  exists st', a. split; [exact Hs|]. split; [exact Hal|]. split; [exact Hty | exact Hb].
Defined.



(** What a readable beacon does to the record of its BSSID and to the
    ledger, in terms of the state before it. *)
Lemma beacon_alerts bc v wl la st e c :
  keys_ok (ap_data st) ->
  read_beacon bc = Ok (e, c) ->
  exists st' r',
    packet_handler (Beacon bc) v wl la st = Ok st' /\
    keys_ok (ap_data st') /\
    ap_get (ap_data st') (addr2 bc) = Some r' /\
    bssid r' = addr2 bc /\
    essid r' = match ap_get (ap_data st) (addr2 bc) with
               | Some r => essid r
               | None => ssid_of bc
               end /\
    (forall k, addr2 bc <> k -> ap_get (ap_data st') k = ap_get (ap_data st) k) /\
    alerts st' = alerts st ++
      (if whitelist_check wl (ssid_of bc) (addr2 bc) then []
       else if has_alert (alerts st) (addr2 bc) then []
       else [mk_alert r'
               (if negb (bool_decide (ssid_of bc = "<Hidden>"))
                   && existsb (twin (ssid_of bc) (addr2 bc)) (ap_data st)
                then "Evil Twin Detected" else "Not Whitelisted")]).
Proof.
  intros Hk He.
  destruct (security_ok (rsn_ie e)) as [sec Hsec].
  rewrite (packet_handler_beacon bc v wl la st e c sec He Hsec)
    by (intros r0; apply Hk).
  destruct sec as [[[en ci] au] pm]. unfold beacon_upsert.
  destruct (upsert_get (addr2 bc) (ssid_of bc) (dBm_AntSignal bc) (Some c)
              (max_bit_rate (supported_rates e ++ extended_rates e)) en ci au pm
              (heap st) (ap_data st)) as (r' & Hg' & Hb'); [intros r0; apply Hk|].
  eexists _, r'. split; [reflexivity|]. simpl.
  split; [by apply upsert_keys_ok|]. split; [exact Hg'|]. split; [exact Hb'|].
  split; [|split].
  - revert Hg'. unfold upsert. destruct (ap_get (ap_data st) (addr2 bc)); simpl;
      rewrite ap_get_set_eq; by intros [= <-].
  - intros k Hne. by apply upsert_get_ne.
  - unfold new_alerts. by rewrite Hg', upsert_twin.
Qed.

(** ** Two access points with one name *)

(** C3, as the code has it: of two beacons with the name "Net" and distinct
    BSSIDs, neither whitelisted, both read to the end by the handler and
    handled in the order A, B from the empty state, the first is alerted as
    not whitelisted and the second as an evil twin: the ledger has these two
    alerts, in this order. *)
Theorem first_not_whitelisted_second_evil_twin (bcA bcB : beacon) (v la : bool)
    (wl : list string) (eA eB : ies) (cA cB : Z) :
  ssid_text bcA = "Net" -> ssid_text bcB = "Net" ->
  addr2 bcA <> addr2 bcB ->
  whitelist_check wl "Net" (addr2 bcA) = false ->
  whitelist_check wl "Net" (addr2 bcB) = false ->
  read_beacon bcA = Ok (eA, cA) ->
  read_beacon bcB = Ok (eB, cB) ->
  exists a1 a2,
    alerts (sniff [Beacon bcA; Beacon bcB] v wl la init_state) = [a1; a2] /\
    bssid (alert_data a1) = addr2 bcA /\ alert_type a1 = "Not Whitelisted" /\
    bssid (alert_data a2) = addr2 bcB /\ alert_type a2 = "Evil Twin Detected" /\
    essid (alert_data a1) = "Net" /\ essid (alert_data a2) = "Net".
Proof.
  intros HsA HsB Hne HwA HwB HeA HeB.
  assert (HnA : ssid_of bcA = "Net") by (by apply ssid_of_named).
  assert (HnB : ssid_of bcB = "Net") by (by apply ssid_of_named).
  destruct init_state_wf as (Hk0 & _ & _).
  destruct (beacon_alerts bcA v wl la init_state eA cA Hk0 HeA)
    as (st1 & rA & Hs1 & Hk1 & Hg1 & Hb1 & He1 & Hf1 & Ha1).
  rewrite HnA, HwA in Ha1. simpl in Ha1, He1. rewrite HnA in He1.
  destruct (beacon_alerts bcB v wl la st1 eB cB Hk1 HeB)
    as (st2 & rB & Hs2 & Hk2 & Hg2 & Hb2 & He2 & Hf2 & Ha2).
  rewrite HnB, HwB, Ha1 in Ha2. simpl in Ha2.
  rewrite Hb1, (bool_decide_eq_false_2 _ Hne) in Ha2. simpl in Ha2.
  rewrite (existsb_twin_intro "Net" (addr2 bcB) (ap_data st1) (addr2 bcA) rA Hg1 Hne He1)
    in Ha2.
  assert (Hnone : ap_get (ap_data st1) (addr2 bcB) = None) by (by rewrite Hf1).
  rewrite Hnone, HnB in He2.
  exists (mk_alert rA "Not Whitelisted"), (mk_alert rB "Evil Twin Detected").
  split; [|simpl; done].
  unfold sniff. cbn [map run c_pkt c_verbose c_whitelist c_live_alerts_only].
  rewrite Hs1, Hs2. exact Ha2.
Qed.

Lemma first_not_whitelisted_second_evil_twin_witness :
  exists a1 a2,
    alerts (sniff [mk_beacon "A" "Net" None 1; mk_beacon "B" "Net" None 6]
                  false [] false init_state) = [a1; a2] /\
    bssid (alert_data a1) = "A" /\ alert_type a1 = "Not Whitelisted" /\
    bssid (alert_data a2) = "B" /\ alert_type a2 = "Evil Twin Detected" /\
    essid (alert_data a1) = "Net" /\ essid (alert_data a2) = "Net".
Proof.
  exact (first_not_whitelisted_second_evil_twin
    (plain_beacon "A" "Net" None 1)
    (plain_beacon "B" "Net" None 6)
    false false [] _ _ _ _ eq_refl eq_refl ltac:(discriminate) eq_refl eq_refl
    eq_refl eq_refl).
Defined.

(** C3, as stated, fails: the order A, B gives two alerts, and the first is
    for A. *)
Lemma first_beacon_is_alerted_too :
  let st := sniff [mk_beacon "A" "Net" None 1; mk_beacon "B" "Net" None 6]
                  false [] false init_state in
  map (fun a => (alert_bssid a, alert_type a)) (alerts st) =
    [("A", "Not Whitelisted"); ("B", "Evil Twin Detected")] /\
  length (alerts st) <> 1%nat /\
  has_alert (alerts st) "A" = true.
Proof. vm_compute. repeat split; discriminate. Qed.

(** ** The whitelist *)

Lemma py_split_not_nil sep s : py_split sep s <> [].
Proof.
  destruct s as [|c s]; simpl; [done|].
  destruct (Ascii.eqb c sep); [done|]. by destruct (py_split sep s).
Qed.

Lemma py_split_one sep s y : py_split sep s = [y] -> s = y.
Proof.
  revert y. induction s as [|c s IH]; intros y; simpl.
  - by intros [= <-].
  - destruct (Ascii.eqb c sep).
    + intros [= <- H]. by apply py_split_not_nil in H.
    + destruct (py_split sep s) as [|w ws] eqn:E; [by apply py_split_not_nil in E|].
      intros [= <- ->]. by rewrite (IH w).
Qed.

Lemma py_split_two sep s x y :
  py_split sep s = [x; y] -> s = (x ++ String sep y)%string.
Proof.
  revert x. induction s as [|c s IH]; intros x; simpl; [done|].
  destruct (Ascii.eqb_spec c sep) as [->|Hc].
  - intros [= <- H]. apply py_split_one in H. by subst.
  - destruct (py_split sep s) as [|w ws]; [done|].
    intros [= <- ->]. simpl. by rewrite (IH w).
Qed.

(** A pair passes the check only when the whitelist has the very entry
    [ESSID,BSSID]. *)
Lemma whitelist_check_exact wl ssid b :
  whitelist_check wl ssid b = true -> (ssid ++ String "," b)%string ∈ wl.
Proof.
  induction wl as [|entry wl IH]; simpl; [done|].
  destruct (py_split "," entry) as [|x [|y [|z l]]] eqn:Hsp;
    try (intros H; right; by apply IH).
  destruct (bool_decide (ssid = x) && bool_decide (b = y)) eqn:Hm.
  - intros _. apply andb_true_iff in Hm. destruct Hm as [Hx Hy].
    apply bool_decide_eq_true in Hx, Hy. subst x y.
    apply py_split_two in Hsp. subst entry. left.
  - intros H. right. by apply IH.
Qed.

(** ** A whitelisted access point and its twin *)

(** ** The element loop *)

Lemma scan_elt_ok_iff acc elt :
  (exists acc', scan_elt acc elt = Ok acc') <-> ~ unreadable_elt elt.
Proof.
  unfold scan_elt, get_info, unreadable_elt, py_index.
  destruct (Z.eqb_spec (ID elt) 0) as [H0|H0]; [split; [lia | eauto]|].
  destruct (Z.eqb_spec (ID elt) 1) as [H1|H1].
  { destruct (info elt) as [i|]; simpl.
    - split; [intros _ [[_ ?]|[? _]]; [done | lia] | eauto].
    - split; [intros [? ?]; discriminate | intros H; exfalso; apply H; left; auto]. }
  destruct (Z.eqb_spec (ID elt) 50) as [H50|H50].
  { destruct (info elt) as [i|]; simpl.
    - split; [intros _ [[_ ?]|[? _]]; [done | lia] | eauto].
    - split; [intros [? ?]; discriminate | intros H; exfalso; apply H; left; auto]. }
  destruct (Z.eqb_spec (ID elt) 3) as [H3|H3].
  { destruct (info elt) as [[|c cs]|]; simpl.
    - split; [intros [? ?]; discriminate | intros H; exfalso; apply H; right; auto].
    - split; [intros _ [[_ ?]|[_ ?]]; done | eauto].
    - split; [intros [? ?]; discriminate | intros H; exfalso; apply H; left; auto]. }
  destruct (Z.eqb_spec (ID elt) 48) as [H48|H48].
  { destruct (info elt) as [i|]; simpl.
    - split; [intros _ [[_ ?]|[? _]]; [done | lia] | eauto].
    - split; [intros [? ?]; discriminate | intros H; exfalso; apply H; left; auto]. }
  split; [intros _ [[? _]|[? _]]; lia | eauto].
Qed.

Lemma scan_elt_raises acc elt x :
  scan_elt acc elt = Raise x -> x = IndexError \/ x = AttributeError.
Proof.
  unfold scan_elt, get_info, py_index.
  repeat (destruct (_ =? _); [try discriminate|]); try discriminate;
    destruct (info elt) as [i|]; simpl; try discriminate;
    try (intros [= <-]; by right).
  destruct (i !! Z.to_nat 0); simpl; [discriminate | intros [= <-]; by left].
Qed.

(** The loop reads every element unless it raises on one of them. *)
Lemma scan_elts_ok_iff acc l :
  (exists e, scan_elts acc l = Ok e) <-> ~ Exists unreadable_elt l.
Proof.
  revert acc. induction l as [|elt l IH]; intros acc; cbn [scan_elts].
  - split; [intros _ H; by apply Exists_nil in H | eauto].
  - rewrite Exists_cons. destruct (scan_elt acc elt) as [acc'|x] eqn:E.
    + assert (Hn : ~ unreadable_elt elt) by (apply (scan_elt_ok_iff acc); eauto).
      change (acc'0 ← Ok acc'; scan_elts acc'0 l) with (scan_elts acc' l).
      rewrite (IH acc'). tauto.
    + split; [intros [? ?]; discriminate|]. intros Hn. exfalso.
      assert (Hy : ~ unreadable_elt elt) by tauto.
      apply (scan_elt_ok_iff acc) in Hy. destruct Hy as [? Hy]. congruence.
Qed.

Lemma scan_elts_raises acc l x :
  scan_elts acc l = Raise x -> x = IndexError \/ x = AttributeError.
Proof.
  revert acc. induction l as [|elt l IH]; intros acc; cbn [scan_elts]; [discriminate|].
  destruct (scan_elt acc elt) as [acc'|y] eqn:E.
  - apply IH.
  - intros [= <-]. by eapply scan_elt_raises.
Qed.

(** The loop leaves no channel exactly when it began with none and met no
    DS Parameter Set. *)
Lemma scan_elts_no_channel acc l e :
  scan_elts acc l = Ok e ->
  ie_channel e = None <-> ie_channel acc = None /\ ~ Exists (fun elt => ID elt = 3) l.
Proof.
  revert acc. induction l as [|elt l IH]; intros acc; cbn [scan_elts].
  - intros [= <-]. split; [intros H; split; [done | by intros ?%Exists_nil] | tauto].
  - destruct (scan_elt acc elt) as [acc'|y] eqn:E; [|discriminate].
    intros H. apply IH in H. rewrite H, Exists_cons. clear H IH.
    revert E. unfold scan_elt, get_info, py_index.
    destruct (Z.eqb_spec (ID elt) 0) as [H0|H0]; [intros [= <-]; assert (ID elt <> 3) by lia; tauto|].
    destruct (Z.eqb_spec (ID elt) 1) as [H1|H1].
    { destruct (info elt); simpl; [|discriminate]. intros [= <-]; simpl.
      assert (ID elt <> 3) by lia. tauto. }
    destruct (Z.eqb_spec (ID elt) 50) as [H50|H50].
    { destruct (info elt); simpl; [|discriminate]. intros [= <-]; simpl.
      assert (ID elt <> 3) by lia. tauto. }
    destruct (Z.eqb_spec (ID elt) 3) as [H3|H3].
    { destruct (info elt) as [i|]; simpl; [|discriminate].
      destruct (i !! Z.to_nat 0); simpl; [|discriminate]. intros [= <-]; simpl.
      split; [intros []; discriminate | intros [_ Hn]; exfalso; apply Hn; by left]. }
    destruct (Z.eqb_spec (ID elt) 48) as [H48|H48].
    { destruct (info elt); simpl; [|discriminate]. intros [= <-]; simpl.
      assert (ID elt <> 3) by lia. tauto. }
    intros [= <-]. tauto.
Qed.

(** The handler reads a beacon to the end exactly when the beacon is
    readable. *)
Lemma read_beacon_ok_iff bc :
  (exists e c, read_beacon bc = Ok (e, c)) <-> readable_beacon bc.
Proof.
  unfold read_beacon, readable_beacon, get_info. split.
  - intros (e & c & H).
    destruct (elts bc) as [|elt rest] eqn:El; [discriminate|]. simpl in H.
    destruct (info elt) as [i|] eqn:Ei; [|discriminate]. simpl in H.
    destruct (scan_elt init_ies elt) as [acc'|] eqn:E1; [|discriminate]. simpl in H.
    destruct (scan_elts acc' rest) as [e'|] eqn:E2; [|discriminate]. simpl in H.
    assert (Hs : scan_elts init_ies (elt :: rest) = Ok e').
    { cbn [scan_elts]. by rewrite E1. }
    destruct (ie_channel e') as [c'|] eqn:Ec; [|discriminate].
    split; [by exists elt, rest, i|]. split.
    + apply (scan_elts_ok_iff init_ies). eauto.
    + destruct (decide (Exists (fun elt0 => ID elt0 = 3) (elt :: rest))) as [|Hn]; [done|].
      assert (ie_channel e' = None) by (by apply (scan_elts_no_channel _ _ _ Hs)).
      congruence.
  - intros ((elt & rest & i & El & Ei) & Hn & H3). rewrite El in *. simpl. rewrite Ei. simpl.
    apply (scan_elts_ok_iff init_ies) in Hn. destruct Hn as [e He].
    pose proof He as He'. cbn [scan_elts] in He'. rewrite He'. simpl.
    destruct (ie_channel e) as [c|] eqn:Ec; [by exists e, c|].
    apply (scan_elts_no_channel _ _ _ He) in Ec. tauto.
Qed.

Lemma read_beacon_raises bc x :
  read_beacon bc = Raise x -> x = IndexError \/ x = AttributeError.
Proof.
  unfold read_beacon, get_info.
  destruct (elts bc) as [|elt rest]; simpl; [intros [= <-]; by left|].
  destruct (info elt); simpl; [|intros [= <-]; by right].
  destruct (scan_elt init_ies elt) as [acc'|y] eqn:E1; simpl.
  - destruct (scan_elts acc' rest) as [e|y] eqn:E2; simpl.
    + destruct (ie_channel e); simpl; [discriminate | intros [= <-]; by right].
    + intros [= <-]. by eapply scan_elts_raises.
  - intros [= <-]. by eapply scan_elt_raises.
Qed.

Lemma readable_handled p v wl la st :
  keys_ok (ap_data st) -> readable p ->
  exists st', packet_handler p v wl la st = Ok st'.
Proof.
  intros Hk Hr. destruct p as [bc|k|]; simpl in Hr.
  - apply read_beacon_ok_iff in Hr. destruct Hr as (e & c & He).
    destruct (beacon_alerts bc v wl la st e c Hk He) as (st' & ? & H & _). eauto.
  - simpl. destruct (ap_get (ap_data st) k); eauto.
  - simpl. eauto.
Qed.

Lemma readable_mk_beacon b s sig ch : readable (mk_beacon b s sig ch).
Proof. apply read_beacon_ok_iff. eexists _, _. reflexivity. Qed.

Lemma readable_rsn_beacon b s payload : readable (Beacon (rsn_beacon b s payload)).
Proof. apply read_beacon_ok_iff. eexists _, _. reflexivity. Qed.

Section Twin.
Variables (a b : string) (wl : list string) (v la : bool).
Hypothesis a_b : a <> b.
Hypothesis a_whitelisted : whitelist_check wl "Net" a = true.
Hypothesis b_not_whitelisted : whitelist_check wl "Net" b = false.

Lemma sniff_invariant (I : state -> Prop) pkts st :
  I st -> Forall (net_beacon_of a b) pkts ->
  (forall p s s', net_beacon_of a b p -> I s -> packet_handler p v wl la s = Ok s' -> I s') ->
  I (sniff pkts v wl la st).
Proof.
  intros H0 Hall Hstep. revert st H0. unfold sniff.
  induction Hall as [|p pkts Hp Hall IH]; intros st H0; [done|].
  cbn [map run c_pkt c_verbose c_whitelist c_live_alerts_only].
  destruct (packet_handler p v wl la st) as [s'|x] eqn:E; [|done].
  apply IH. eapply Hstep; eauto.
Qed.

Lemma a_seen_first_step p s s' :
  net_beacon_of a b p -> a_seen_first a b s -> packet_handler p v wl la s = Ok s' ->
  a_seen_first a b s'.
Proof.
  intros (bc & -> & Hn & Hab) (Hk & (r & Hg & He) & Hal) Hstep.
  destruct (packet_handler_beacon_inv _ _ _ _ _ _ Hstep) as (e & c & Hscan).
  destruct (beacon_alerts bc v wl la s e c Hk Hscan)
    as (s1 & r' & Hs1 & Hk1 & Hg1 & Hb1 & He1 & Hf1 & Ha1).
  rewrite Hs1 in Hstep. injection Hstep as <-.
  rewrite (ssid_of_named bc "Net" Hn) in Ha1, He1 by done.
  split; [exact Hk1|]. destruct Hab as [Ha|Hb].
  - rewrite Ha in *. rewrite a_whitelisted, app_nil_r in Ha1. rewrite Ha1.
    split; [|exact Hal]. exists r'. split; [exact Hg1|]. by rewrite He1, Hg.
  - rewrite Hb in *. rewrite b_not_whitelisted in Ha1.
    split; [exists r; split; [|exact He]; rewrite Hf1; by auto|].
    destruct Hal as [Hnil|(rb & Hrb & Hbb)].
    + rewrite Hnil in Ha1. simpl in Ha1.
      rewrite (existsb_twin_intro "Net" b (ap_data s) a r Hg a_b He) in Ha1.
      right. exists r'. by split.
    + rewrite Hrb in Ha1. simpl in Ha1. rewrite Hbb in Ha1.
      rewrite (bool_decide_eq_true_2 (b = b)) in Ha1 by done. simpl in Ha1.
      right. exists rb. by split.
Qed.

Lemma b_seen_first_step p s s' :
  net_beacon_of a b p -> b_seen_first b s -> packet_handler p v wl la s = Ok s' ->
  b_seen_first b s'.
Proof.
  intros (bc & -> & Hn & Hab) (Hk & rb & Hrb & Hbb) Hstep.
  destruct (packet_handler_beacon_inv _ _ _ _ _ _ Hstep) as (e & c & Hscan).
  destruct (beacon_alerts bc v wl la s e c Hk Hscan)
    as (s1 & r' & Hs1 & Hk1 & Hg1 & Hb1 & He1 & Hf1 & Ha1).
  rewrite Hs1 in Hstep. injection Hstep as <-.
  rewrite (ssid_of_named bc "Net" Hn) in Ha1 by done.
  split; [exact Hk1|]. exists rb. split; [|exact Hbb].
  destruct Hab as [Ha|Hb].
  - rewrite Ha in Ha1. rewrite a_whitelisted, app_nil_r in Ha1. by rewrite Ha1.
  - rewrite Hb in Ha1. rewrite b_not_whitelisted, Hrb in Ha1. simpl in Ha1.
    rewrite Hbb in Ha1. rewrite (bool_decide_eq_true_2 (b = b)) in Ha1 by done.
    by rewrite Ha1.
Qed.

(** The ledger at the end of a run of such beacons. *)
Lemma twin_run_alerts pkts :
  Forall (net_beacon_of a b) pkts ->
  let st := sniff pkts v wl la init_state in
  alerts st = [] \/
  exists rb, bssid rb = b /\
    alerts st = [mk_alert rb (if first_from a pkts then "Evil Twin Detected"
                              else "Not Whitelisted")].
Proof.
  intros Hall st. subst st. destruct Hall as [|p pkts Hp Hall]; [by left|].
  unfold sniff. cbn [map run c_pkt c_verbose c_whitelist c_live_alerts_only].
  destruct (packet_handler p v wl la init_state) as [s1|x] eqn:Hstep; [|by left].
  fold (sniff pkts v wl la s1).
  destruct Hp as (bc & -> & Hn & Hab).
  destruct (packet_handler_beacon_inv _ _ _ _ _ _ Hstep) as (e & c & Hscan).
  destruct init_state_wf as (Hk0 & _ & _).
  destruct (beacon_alerts bc v wl la init_state e c Hk0 Hscan)
    as (s1' & r' & Hs1 & Hk1 & Hg1 & Hb1 & He1 & Hf1 & Ha1).
  rewrite Hs1 in Hstep. injection Hstep as ->.
  rewrite (ssid_of_named bc "Net" Hn) in Ha1, He1 by done.
  simpl in Ha1, He1. simpl. destruct Hab as [Ha|Hb].
  - rewrite Ha in *. rewrite a_whitelisted in Ha1.
    rewrite (bool_decide_eq_true_2 (a = a)) by done.
    assert (H1 : a_seen_first a b s1).
    { split; [exact Hk1|]. split; [by exists r'|]. by left. }
    destruct (sniff_invariant (a_seen_first a b) pkts s1 H1 Hall a_seen_first_step)
      as (_ & _ & [Hnil|(rb & Hrb & Hbb)]); [by left|].
    right. by exists rb.
  - rewrite Hb in *. rewrite b_not_whitelisted in Ha1.
    rewrite (bool_decide_eq_false_2 (b = a)) by congruence.
    assert (H1 : b_seen_first b s1).
    { split; [exact Hk1|]. by exists r'. }
    destruct (sniff_invariant (b_seen_first b) pkts s1 H1 Hall b_seen_first_step)
      as (_ & rb & Hrb & Hbb).
    right. by exists rb.
Qed.
(** Once a beacon of [b] has been handled, [b] is on the ledger. *)
Lemma twin_b_alerted pkts st :
  keys_ok (ap_data st) ->
  Forall (net_beacon_of a b) pkts -> Forall readable pkts ->
  has_alert (alerts st) b = true \/ (exists bc, Beacon bc ∈ pkts /\ addr2 bc = b) ->
  has_alert (alerts (sniff pkts v wl la st)) b = true.
Proof.
  intros Hk Hall. revert st Hk.
  induction Hall as [|p pkts Hp Hall IH]; intros st Hk Hr Hb.
  - destruct Hb as [Hb|(bc & Hin & _)]; [exact Hb|]. by apply elem_of_nil in Hin.
  - apply Forall_cons in Hr. destruct Hr as [Hr1 Hr].
    destruct Hp as (bc & -> & Hn & Hab). simpl in Hr1.
    apply read_beacon_ok_iff in Hr1. destruct Hr1 as (e & c & Hscan).
    destruct (beacon_alerts bc v wl la st e c Hk Hscan)
      as (s1 & r' & Hs1 & Hk1 & Hg1 & Hb1 & He1 & Hf1 & Ha1).
    unfold sniff. cbn [map run c_pkt c_verbose c_whitelist c_live_alerts_only].
    rewrite Hs1. fold (sniff pkts v wl la s1).
    apply IH; [exact Hk1 | exact Hr |].
    rewrite (ssid_of_named bc "Net" Hn) in Ha1 by done.
    destruct Hb as [Hb|(bc' & Hin & Hb')].
    + left. by rewrite Ha1, has_alert_app, Hb.
    + apply elem_of_cons in Hin. destruct Hin as [[= ->]|Hin]; [|right; eauto].
      left. rewrite Hb' in *. rewrite b_not_whitelisted in Ha1.
      rewrite Ha1, has_alert_app.
      destruct (has_alert (alerts st) b); [done|]. simpl.
      rewrite Hb1. by rewrite (bool_decide_eq_true_2 (b = b)).
Qed.

(** Beacons of [a] alone leave the ledger as it was. *)
Lemma twin_no_b pkts st :
  keys_ok (ap_data st) ->
  Forall (net_beacon_of a b) pkts -> Forall readable pkts ->
  (forall bc, Beacon bc ∈ pkts -> addr2 bc <> b) ->
  alerts (sniff pkts v wl la st) = alerts st.
Proof.
  intros Hk Hall. revert st Hk.
  induction Hall as [|p pkts Hp Hall IH]; intros st Hk Hr Hb; [done|].
  apply Forall_cons in Hr. destruct Hr as [Hr1 Hr].
  destruct Hp as (bc & -> & Hn & Hab). simpl in Hr1.
  apply read_beacon_ok_iff in Hr1. destruct Hr1 as (e & c & Hscan).
  destruct (beacon_alerts bc v wl la st e c Hk Hscan)
    as (s1 & r' & Hs1 & Hk1 & Hg1 & Hb1 & He1 & Hf1 & Ha1).
  unfold sniff. cbn [map run c_pkt c_verbose c_whitelist c_live_alerts_only].
  rewrite Hs1. fold (sniff pkts v wl la s1).
  rewrite IH; [| exact Hk1 | exact Hr | intros bc' Hin; apply Hb; by right].
  rewrite (ssid_of_named bc "Net" Hn) in Ha1 by done.
  destruct Hab as [Ha|Hb']; [|exfalso; apply (Hb bc); [by left | exact Hb']].
  rewrite Ha in Ha1. by rewrite a_whitelisted, app_nil_r in Ha1.
Qed.
End Twin.

(** C4, as the code has it: with BSSID [a] whitelisted under the name "Net"
    and BSSID [b] not, over every sequence of readable "Net" beacons from
    the two, [a] is never alerted; when a beacon of [b] is among them, the
    ledger holds exactly one alert, which is of [b], and it is an evil twin
    when the run starts with a beacon from [a] and not whitelisted when it
    starts with a beacon from [b]; when no beacon of [b] is among them the
    ledger is empty. A pair passes the whitelist only when the very entry
    [ESSID,BSSID] is in it. *)
Theorem whitelisted_never_alerts_twin_alerts_once (a b : string) (wl : list string)
    (v la : bool) (pkts : list packet) :
  a <> b ->
  whitelist_check wl "Net" a = true ->
  whitelist_check wl "Net" b = false ->
  Forall (net_beacon_of a b) pkts ->
  Forall readable pkts ->
  let st := sniff pkts v wl la init_state in
  (forall al, al ∈ alerts st -> bssid (alert_data al) <> a) /\
  ((exists bc, Beacon bc ∈ pkts /\ addr2 bc = b) ->
   exists al, alerts st = [al] /\ bssid (alert_data al) = b /\
     alert_type al = if first_from a pkts then "Evil Twin Detected"
                     else "Not Whitelisted") /\
  ((forall bc, Beacon bc ∈ pkts -> addr2 bc <> b) -> alerts st = []) /\
  (forall ssid k, whitelist_check wl ssid k = true -> (ssid ++ String "," k)%string ∈ wl).
Proof.
  intros Hab Ha Hb Hall Hread st.
  pose proof (twin_run_alerts a b wl v la Hab Ha Hb pkts Hall) as Hrun.
  fold st in Hrun. destruct init_state_wf as (Hk0 & _ & _).
  split; [|split; [|split]].
  - intros al Hin. destruct Hrun as [Hnil | (rb & Hbb & Hrun)].
    + rewrite Hnil in Hin. by apply elem_of_nil in Hin.
    + rewrite Hrun in Hin. apply list_elem_of_singleton in Hin. subst al.
      simpl. congruence.
  - intros Hex.
    pose proof (twin_b_alerted a b wl v la Hb pkts init_state Hk0 Hall Hread
                  (or_intror Hex)) as Hal.
    fold st in Hal. destruct Hrun as [Hnil | (rb & Hbb & Hrun)].
    + rewrite Hnil in Hal. discriminate.
    + eexists. split; [exact Hrun|]. by split.
  - intros Hno. subst st.
    by rewrite (twin_no_b a b wl v la Ha pkts init_state Hk0 Hall Hread Hno).
  - intros ssid k. apply whitelist_check_exact.
Qed.

Lemma whitelisted_never_alerts_twin_alerts_once_witness :
  let st := sniff [mk_beacon "A" "Net" None 1; mk_beacon "B" "Net" None 1;
                   mk_beacon "A" "Net" None 1] false ["Net,A"] false init_state in
  (forall al, al ∈ alerts st -> bssid (alert_data al) <> "A") /\
  exists al, alerts st = [al] /\ bssid (alert_data al) = "B" /\
    alert_type al = "Evil Twin Detected".
Proof.
  assert (Hall : Forall (net_beacon_of "A" "B")
            [mk_beacon "A" "Net" None 1; mk_beacon "B" "Net" None 1;
             mk_beacon "A" "Net" None 1]).
  { repeat constructor; eexists; (split; [reflexivity|]); split;
      first [reflexivity | by left | by right]. }
  assert (Hread : Forall readable
            [mk_beacon "A" "Net" None 1; mk_beacon "B" "Net" None 1;
             mk_beacon "A" "Net" None 1]).
  { repeat first [apply Forall_nil_2 | apply Forall_cons_2]; apply readable_mk_beacon. }
  destruct (whitelisted_never_alerts_twin_alerts_once "A" "B" ["Net,A"] false false
              [mk_beacon "A" "Net" None 1; mk_beacon "B" "Net" None 1;
               mk_beacon "A" "Net" None 1]
              ltac:(discriminate) eq_refl eq_refl Hall Hread) as (H1 & H2 & _).
  split; [exact H1|]. apply H2.
  exists (plain_beacon "B" "Net" None 1). split; [|reflexivity].
  apply list_elem_of_further, list_elem_of_here.
Defined.

(** C4, as stated, fails: when the beacon of B comes first, B is alerted as
    not whitelisted, and stays so after the beacon of A. *)
Lemma twin_seen_first_is_not_evil_twin :
  whitelist_check ["Net,A"] "Net" "A" = true /\
  whitelist_check ["Net,A"] "Net" "B" = false /\
  let st := sniff [mk_beacon "B" "Net" None 1; mk_beacon "A" "Net" None 1;
                   mk_beacon "B" "Net" None 1] false ["Net,A"] false init_state in
  map (fun a => (alert_bssid a, alert_type a)) (alerts st) = [("B", "Not Whitelisted")].
Proof. vm_compute. repeat split. Qed.

(** ** Alerts and the lists of the live record *)

(** C7 fails on the code: the alert made by the first beacon of A shows the
    signal -45 and the channel 1, and after a second beacon of A, with signal
    -46 on channel 6, the same, unchanged ledger entry shows both signals and
    both channels: the copy shares the two list objects of the live record.
    Its [beacons] count stays at the value copied. *)
Theorem alert_lists_follow_live_record :
  let st1 := sniff [mk_beacon "A" "Net" (Some (-45)) 1] false [] false init_state in
  let st2 := sniff [mk_beacon "A" "Net" (Some (-45)) 1; mk_beacon "A" "Net" (Some (-46)) 6]
                   false [] false init_state in
  alerts st2 = alerts st1 /\
  map (fun a => (alert_bssid a, alert_type a, beacons (alert_data a))) (alerts st1)
    = [("A", "Not Whitelisted", 1)] /\
  map (alert_pwr (heap st1)) (alerts st1) = [[-45]] /\
  map (alert_pwr (heap st2)) (alerts st2) = [[-45; -46]] /\
  map (alert_channel (heap st1)) (alerts st1) = [[1]] /\
  map (alert_channel (heap st2)) (alerts st2) = [[1; 6]].
Proof. vm_compute. repeat split. Qed.

(** * Further properties *)

(** ** The decoder on every suite type *)

Lemma cipher_map_get t : dict_get cipher_map t "Unknown" = cipher_name t.
Proof.
  unfold dict_get, cipher_map, cipher_name.
  destruct (Z.eqb_spec t 1) as [->|H1]; [reflexivity|].
  destruct (Z.eqb_spec t 2) as [->|H2]; [reflexivity|].
  destruct (Z.eqb_spec t 4) as [->|H4]; [reflexivity|].
  destruct (Z.eqb_spec t 5) as [->|H5]; [reflexivity|].
  rewrite !lookup_insert_ne by congruence.
  by rewrite lookup_singleton_ne by congruence.
Qed.

Lemma akm_map_get t : dict_get akm_map t "Unknown" = akm_name t.
Proof.
  unfold dict_get, akm_map, akm_name.
  destruct (Z.eqb_spec t 1) as [->|H1]; [reflexivity|].
  destruct (Z.eqb_spec t 2) as [->|H2]; [reflexivity|].
  rewrite !lookup_insert_ne by congruence.
  by rewrite lookup_singleton_ne by congruence.
Qed.

(** X1. An RSN element with version 1 whose reads are all in range gives the
    record WPA2, the cipher named by the type byte at index 11, the
    authentication named by the type byte at index [8 + 4 * P + 5] (Unknown
    for a type that the tables do not list) and the PMF of its capabilities. *)
Theorem decode_names_suite_types (s : list Byte.byte) (P A pc ak : Z) :
  u16_at s 0 = Some 1 ->
  u16_at s 6 = Some P ->
  u16_at s (8 + 4 * P) = Some A ->
  byte_at s 11 = Some pc ->
  byte_at s (8 + 4 * P + 5) = Some ak ->
  security (Some s) =
    Ok (VStr "WPA2", VStr (cipher_name pc), VStr (akm_name ak),
        pmf_of_capabilities (capabilities_at s P A)).
Proof.
  intros Hv HP HA Hpc Hak.
  assert (Hparse : parse_rsn s =
     Ok (rsn_dict "WPA2" (cipher_name pc) (akm_name ak)
           (match capabilities_at s P A with
            | Some c => negb (Z.land c 0x0040 =? 0) | None => false end)
           (match capabilities_at s P A with
            | Some c => negb (Z.land c 0x0080 =? 0) | None => false end))).
  { unfold parse_rsn. rewrite parse_rsn_try_steps. unfold parse_rsn_steps.
    rewrite Hv. simpl. rewrite HP, HA, Hpc, Hak. simpl.
    by rewrite cipher_map_get, akm_map_get. }
  assert (Hs : s ≠ []) by (intros ->; discriminate Hv).
  rewrite (security_of_rsn_dict _ _ _ _ _ _ Hs Hparse).
  unfold pmf_of_capabilities.
  destruct (capabilities_at s P A) as [c|]; [|reflexivity].
  destruct (negb (Z.land c 128 =? 0)); reflexivity.
Qed.

Lemma decode_names_suite_types_witness :
  security (Some (bytes_of [1;0; 0;15;172;2; 1;0; 0;15;172;2; 1;0; 0;15;172;8; 64;0]))
  = Ok (VStr "WPA2", VStr "TKIP", VStr "Unknown", "Capable").
Proof.
  exact (decode_names_suite_types
    (bytes_of [1;0; 0;15;172;2; 1;0; 0;15;172;2; 1;0; 0;15;172;8; 64;0]) 1 1 2 8
    eq_refl eq_refl eq_refl eq_refl eq_refl).
Defined.

(** X2. A dictionary that is not empty was decoded from an input with version 1
    that holds the whole pairwise list and the first AKM suite: at least
    [8 + 4 * P + 6] bytes, so never fewer than 14. *)
Theorem decoded_input_is_long_enough (s : list Byte.byte) (d : gmap string pyval) :
  parse_rsn s = Ok d -> d <> ∅ ->
  u16_at s 0 = Some 1 /\
  exists P, u16_at s 6 = Some P /\ 8 + 4 * P + 6 <= len s /\ 14 <= len s.
Proof.
  unfold parse_rsn. rewrite parse_rsn_try_steps. unfold parse_rsn_steps.
  destruct (u16_at s 0) as [ver|] eqn:Ev; [|by intros [= <-]].
  destruct (Z.eqb_spec ver 1) as [->|Hne]; simpl; [|by intros [= <-]].
  destruct (u16_at s 6) as [P|] eqn:EP; [|by intros [= <-]].
  pose proof (u16_at_nonneg _ _ _ EP) as HP.
  destruct (u16_at s (8 + 4 * P)) as [A|]; [|by intros [= <-]].
  destruct (byte_at s 11) as [pc|]; [|by intros [= <-]].
  destruct (byte_at s (8 + 4 * P + 5)) as [ak|] eqn:Eak; [|by intros [= <-]].
  intros _ _. split; [reflexivity|]. exists P. split; [reflexivity|].
  apply byte_at_Some in Eak; lia.
Qed.

Lemma decoded_input_is_long_enough_witness :
  exists P, u16_at (bytes_of [1;0; 0;15;172;4; 0;0; 1;0; 0;15;172;2]) 6 = Some P /\
    8 + 4 * P + 6 <= 14.
Proof.
  destruct (decoded_input_is_long_enough
              (bytes_of [1;0; 0;15;172;4; 0;0; 1;0; 0;15;172;2])
              (rsn_dict "WPA2" "Unknown" "PSK" false false) eq_refl
              (rsn_dict_non_empty _ _ _ _ _)) as (_ & P & HP & Hlen & _).
  exists P. split; [exact HP | exact Hlen].
Defined.

Lemma u16_at_ext s s' i :
  s !! Z.to_nat i = s' !! Z.to_nat i ->
  s !! Z.to_nat (i + 1) = s' !! Z.to_nat (i + 1) ->
  u16_at s i = u16_at s' i.
Proof. intros H0 H1. unfold u16_at, byte_at. by rewrite H0, H1. Qed.

(** X3. The group cipher suite (bytes 2 to 5) is sliced and never looked at:
    two inputs of one length that differ only there decode alike. *)
Theorem group_cipher_is_ignored (s s' : list Byte.byte) :
  length s = length s' ->
  (forall i : nat, (i < 2 \/ 6 <= i)%nat -> s !! i = s' !! i) ->
  parse_rsn s = parse_rsn s'.
Proof.
  intros Hlen Hsame.
  assert (Hb : forall i, 6 <= i -> byte_at s i = byte_at s' i).
  { intros i Hi. unfold byte_at. rewrite Hsame; [done | lia]. }
  assert (Hu : forall i, 6 <= i -> u16_at s i = u16_at s' i).
  { intros i Hi. apply u16_at_ext; apply Hsame; lia. }
  assert (Hl : len s = len s') by (unfold len; by rewrite Hlen).
  unfold parse_rsn. rewrite !parse_rsn_try_steps. unfold parse_rsn_steps.
  rewrite <- (u16_at_ext s s' 0) by (apply Hsame; simpl; lia).
  destruct (u16_at s 0) as [ver|]; [|done].
  destruct (negb (ver =? 1)); [done|].
  rewrite <- (Hu 6) by lia.
  destruct (u16_at s 6) as [P|] eqn:EP; [|done].
  pose proof (u16_at_nonneg _ _ _ EP) as HP.
  rewrite <- (Hu (8 + 4 * P)) by lia.
  destruct (u16_at s (8 + 4 * P)) as [A|] eqn:EA; [|done].
  pose proof (u16_at_nonneg _ _ _ EA) as HA.
  rewrite <- (Hb 11) by lia. rewrite <- (Hb (8 + 4 * P + 5)) by lia.
  unfold capabilities_at. rewrite <- Hl.
  rewrite <- (Hu (8 + 4 * P + 2 + 4 * A)) by lia. reflexivity.
Qed.

Lemma group_cipher_is_ignored_witness :
  parse_rsn (bytes_of [1;0; 0;15;172;4; 1;0; 0;15;172;4; 1;0; 0;15;172;2]) =
  parse_rsn (bytes_of [1;0; 9;9;9;9; 1;0; 0;15;172;4; 1;0; 0;15;172;2]).
Proof.
  apply group_cipher_is_ignored; [reflexivity|].
  intros i [Hi|Hi].
  - destruct i as [|[|i]]; [reflexivity | reflexivity | lia].
  - do 6 (destruct i as [|i]; [lia|]). reflexivity.
Defined.

(** ** Reading a beacon *)

Lemma evil_twin_scan_never_raises items d ssid b al r :
  ap_get d b = Some r -> exists al', evil_twin_scan items d ssid b al = Ok al'.
Proof.
  intros Hg. revert al. induction items as [|[k0 r0] items IH]; intros al; simpl; [eauto|].
  destruct (_ && _); simpl; [|apply IH].
  destruct (has_alert al b); simpl; [apply IH|].
  unfold ap_index. rewrite Hg. simpl. apply IH.
Qed.

Lemma read_beacon_handled bc v wl la st e c :
  read_beacon bc = Ok (e, c) -> exists st', packet_handler (Beacon bc) v wl la st = Ok st'.
Proof.
  intros He. unfold packet_handler. rewrite He. simpl.
  destruct (security_ok (rsn_ie e)) as [[[[en ci] au] pm] ->]. simpl.
  destruct (upsert (addr2 bc) _ _ _ _ en ci au pm (heap st) (ap_data st))
    as [h d] eqn:Hu.
  assert (Hg : exists r, ap_get d (addr2 bc) = Some r).
  { replace d with (h, d).2 by done. rewrite <- Hu. unfold upsert.
    destruct (ap_get (ap_data st) (addr2 bc)); simpl; rewrite ap_get_set_eq; eauto. }
  destruct Hg as [r Hg].
  destruct (negb (whitelist_check wl _ (addr2 bc))); [|eauto].
  assert (H1 : exists al1,
            (if negb (bool_decide
                        ((if bool_decide (ssid_text bc = "") then "<Hidden>"
                          else ssid_text bc) = "<Hidden>"))
             then evil_twin_scan d d
                    (if bool_decide (ssid_text bc = "") then "<Hidden>" else ssid_text bc)
                    (addr2 bc) (alerts st)
             else Ok (alerts st)) = Ok al1).
  { destruct (negb _); [|eauto]. by eapply evil_twin_scan_never_raises. }
  destruct H1 as [al1 ->]. simpl.
  destruct (negb (has_alert al1 (addr2 bc))); simpl; [|eauto].
  unfold ap_index. rewrite Hg. simpl. eauto.
Qed.

Lemma packet_handler_beacon_raises bc v wl la st x :
  packet_handler (Beacon bc) v wl la st = Raise x -> read_beacon bc = Raise x.
Proof.
  intros H. destruct (read_beacon bc) as [[e c]|y] eqn:He.
  - destruct (read_beacon_handled bc v wl la st e c He) as [st' Hs]. congruence.
  - unfold packet_handler in H. rewrite He in H. simpl in H. congruence.
Qed.

(** X5. Whatever the state, the handler returns on a beacon exactly when the
    beacon is readable: it has a first element with an [info], the loop
    raises on none of its elements, and one of them is a DS Parameter Set.
    On any other beacon the handler raises [IndexError] or [AttributeError],
    and a run stops in the state it had reached. *)
Theorem beacon_raises_only_when_unreadable (bc : beacon) (v la : bool) (wl : list string)
    (st : state) :
  ((exists st', packet_handler (Beacon bc) v wl la st = Ok st') <-> readable_beacon bc) /\
  (~ readable_beacon bc ->
   (packet_handler (Beacon bc) v wl la st = Raise IndexError \/
    packet_handler (Beacon bc) v wl la st = Raise AttributeError) /\
   forall cs, run ({| c_pkt := Beacon bc; c_verbose := v; c_whitelist := wl;
                      c_live_alerts_only := la |} :: cs) st = st).
Proof.
  split.
  - rewrite <- read_beacon_ok_iff. split.
    + intros [st' Hs]. by eapply packet_handler_beacon_inv.
    + intros (e & c & He). by eapply read_beacon_handled.
  - intros Hn. rewrite <- read_beacon_ok_iff in Hn.
    destruct (packet_handler (Beacon bc) v wl la st) as [st'|x] eqn:Hs.
    + exfalso. apply Hn. by eapply packet_handler_beacon_inv.
    + pose proof (packet_handler_beacon_raises _ _ _ _ _ _ Hs) as Hr.
      apply read_beacon_raises in Hr.
      split; [destruct Hr as [-> | ->]; auto|].
      intros cs. cbn [run c_pkt c_verbose c_whitelist c_live_alerts_only].
      by rewrite Hs.
Qed.

Lemma beacon_raises_only_when_unreadable_witness :
  let bc := {| addr2 := "B"; ssid_text := "Net"; dBm_AntSignal := None;
               elts := [ {| ID := 0; info := Some (list_byte_of_string "Net") |} ] |} in
  (packet_handler (Beacon bc) false [] false init_state = Raise IndexError \/
   packet_handler (Beacon bc) false [] false init_state = Raise AttributeError) /\
  forall cs, run ({| c_pkt := Beacon bc; c_verbose := false; c_whitelist := [];
                     c_live_alerts_only := false |} :: cs) init_state = init_state.
Proof.
  intros bc.
  apply (proj2 (beacon_raises_only_when_unreadable bc false false [] init_state)).
  intros (_ & _ & H3). apply Exists_cons in H3. destruct H3 as [H3|H3].
  - discriminate H3.
  - by apply Exists_nil in H3.
Defined.

Lemma infos_of_cons (id : Z) (elt : Dot11Elt) (l : list Dot11Elt) :
  infos_of id (elt :: l) =
  if decide (ID elt = id)
  then match info elt with Some i => i :: infos_of id l | None => infos_of id l end
  else infos_of id l.
Proof.
  unfold infos_of. rewrite filter_cons.
  destruct (decide (ID elt = id)); [|done]. simpl. by destruct (info elt).
Qed.

Lemma scan_elts_reads_from acc l e :
  scan_elts acc l = Ok e ->
  rsn_ie e = match last (infos_of 48 l) with Some x => Some x | None => rsn_ie acc end /\
  ie_channel e =
    match last (infos_of 3 l) with
    | Some x => byte_val <$> head x
    | None => ie_channel acc
    end /\
  supported_rates e = supported_rates acc ++ (byte_val <$> concat (infos_of 1 l)) /\
  extended_rates e = extended_rates acc ++ (byte_val <$> concat (infos_of 50 l)).
Proof.
  revert acc. induction l as [|elt l IH]; intros acc; simpl.
  - intros [= <-]. by rewrite !app_nil_r.
  - destruct (scan_elt acc elt) as [acc'|] eqn:E; [|discriminate]. simpl.
    intros H. destruct (IH _ H) as (Hr & Hc & Hs & Hx). clear IH H.
    rewrite !infos_of_cons. rewrite Hr, Hc, Hs, Hx.
    revert E. unfold scan_elt, get_info.
    destruct (Z.eqb_spec (ID elt) 0) as [H0|H0].
    { intros [= <-]. rewrite !decide_False by lia. done. }
    destruct (Z.eqb_spec (ID elt) 1) as [H1|H1].
    { destruct (info elt) as [i|]; simpl; [|discriminate].
      intros [= <-]. simpl. rewrite (decide_True _ _ H1), !decide_False by lia.
      repeat split; try done.
      simpl. by rewrite fmap_app, app_assoc. }
    destruct (Z.eqb_spec (ID elt) 50) as [H50|H50].
    { destruct (info elt) as [i|]; simpl; [|discriminate].
      intros [= <-]. simpl. rewrite (decide_True _ _ H50), !decide_False by lia.
      repeat split; try done.
      simpl. by rewrite fmap_app, app_assoc. }
    destruct (Z.eqb_spec (ID elt) 3) as [H3|H3].
    { unfold py_index. destruct (info elt) as [[|c cs]|] eqn:Ei; simpl; try discriminate.
      intros [= <-]. simpl. rewrite (decide_True _ _ H3), !decide_False by lia.
      rewrite last_cons. repeat split; by repeat case_match. }
    destruct (Z.eqb_spec (ID elt) 48) as [H48|H48].
    { destruct (info elt) as [i|]; simpl; [|discriminate].
      intros [= <-]. simpl. rewrite (decide_True _ _ H48), !decide_False by lia.
      rewrite last_cons. repeat split; by repeat case_match. }
    intros [= <-]. rewrite !decide_False by lia. done.
Qed.

(** X6. What the loop hands on: the payload of the last RSN element, the first
    byte of the last DS Parameter Set, and the bytes of all Supported Rates
    elements, and of all Extended Supported Rates elements, in frame order. *)
Theorem scan_elts_last_element_wins (l : list Dot11Elt) (e : ies) :
  scan_elts init_ies l = Ok e ->
  rsn_ie e = last (infos_of 48 l) /\
  ie_channel e = last (infos_of 3 l) ≫= (fun x => byte_val <$> head x) /\
  supported_rates e = byte_val <$> concat (infos_of 1 l) /\
  extended_rates e = byte_val <$> concat (infos_of 50 l).
Proof.
  intros H. destruct (scan_elts_reads_from _ _ _ H) as (Hr & Hc & Hs & Hx).
  simpl in *. rewrite Hr, Hc, Hs, Hx. repeat split; by repeat case_match.
Qed.

Lemma scan_elts_last_element_wins_witness :
  exists e,
    scan_elts init_ies
      [ {| ID := 3; info := Some (bytes_of [1]) |};
        {| ID := 48; info := Some (bytes_of [1; 0]) |};
        {| ID := 1; info := Some (bytes_of [2; 4]) |};
        {| ID := 3; info := Some (bytes_of [6; 9]) |};
        {| ID := 48; info := Some [] |};
        {| ID := 1; info := Some (bytes_of [11]) |} ] = Ok e /\
    rsn_ie e = Some [] /\ ie_channel e = Some 6 /\ supported_rates e = [2; 4; 11].
Proof.
  eexists. split; [reflexivity|].
  destruct (scan_elts_last_element_wins
    [ {| ID := 3; info := Some (bytes_of [1]) |};
      {| ID := 48; info := Some (bytes_of [1; 0]) |};
      {| ID := 1; info := Some (bytes_of [2; 4]) |};
      {| ID := 3; info := Some (bytes_of [6; 9]) |};
      {| ID := 48; info := Some [] |};
      {| ID := 1; info := Some (bytes_of [11]) |} ] _ eq_refl)
    as (Hr & Hc & Hs & _).
  split; [exact Hr|]. split; [exact Hc | exact Hs].
Defined.

(** ** The maximum bit rate and the average signal *)

Lemma py_max_spec (xs : list Q) (x : Q) :
  In (py_max x xs) (x :: xs) /\ forall y, In y (x :: xs) -> (y <= py_max x xs)%Q.
Proof.
  unfold py_max. revert x. induction xs as [|z xs IH]; intros x; simpl.
  - split; [by left|]. intros y [Hy|[]]. subst y. apply Qle_refl.
  - destruct (Qle_bool z x) eqn:E.
    + destruct (IH x) as [Hin Hmax]. split.
      * simpl in Hin. destruct Hin as [Hin|Hin]; [by left | by right; right].
      * intros y [Hy|[Hy|Hy]].
        -- apply Hmax. by left.
        -- subst y. apply Qle_bool_iff in E. eapply Qle_trans; [exact E|].
           apply Hmax. by left.
        -- apply Hmax. by right.
    + destruct (IH z) as [Hin Hmax]. split.
      * by right.
      * intros y [Hy|[Hy|Hy]].
        -- subst y. assert (Hlt : (x < z)%Q).
           { apply Qnot_le_lt. intros Hle. apply Qle_bool_iff in Hle. congruence. }
           eapply Qle_trans; [apply Qlt_le_weak; exact Hlt|]. apply Hmax. by left.
        -- apply Hmax. by left.
        -- apply Hmax. by right.
Qed.

(** X7. The maximum bit rate is "N/A" exactly when the beacon lists no rate;
    otherwise it is half of one of the listed rate bytes, and no listed rate
    byte has a larger half. *)
Theorem max_bit_rate_is_largest_half (all_rates : list Z) :
  match max_bit_rate all_rates with
  | MbStr s => s = "N/A" /\ all_rates = []
  | MbFloat q =>
      (exists r, r ∈ all_rates /\ q = (inject_Z r * (1 # 2))%Q) /\
      (forall r, r ∈ all_rates -> (inject_Z r * (1 # 2) <= q)%Q)
  end.
Proof.
  unfold max_bit_rate. destruct all_rates as [|r0 rs]; [done|].
  set (f := fun rate : Z => (inject_Z rate * (1 # 2))%Q).
  cbn [map]. destruct (py_max_spec (map f rs) (f r0)) as [Hin Hmax]. split.
  - change (f r0 :: map f rs) with (map f (r0 :: rs)) in Hin.
    apply in_map_iff in Hin. destruct Hin as (r & Hr & Hin).
    exists r. split; [by apply list_elem_of_In | by rewrite <- Hr].
  - intros r Hr. apply (Hmax (f r)).
    change (f r0 :: map f rs) with (map f (r0 :: rs)).
    apply in_map. by apply list_elem_of_In.
Qed.

Lemma sum_bounds (l : list Z) (lo hi : Z) :
  (forall x, x ∈ l -> lo <= x <= hi) ->
  lo * Z.of_nat (length l) <= fold_right Z.add 0 l <= hi * Z.of_nat (length l).
Proof.
  induction l as [|x l IH]; intros H; simpl; [lia|].
  assert (Hx : lo <= x <= hi) by (apply H; left).
  assert (Hl : forall y, y ∈ l -> lo <= y <= hi) by (intros y Hy; apply H; by right).
  specialize (IH Hl). lia.
Qed.

(** X8. The average shown in the tables is absent exactly for a record with no
    sample, and lies between any two bounds of the samples. *)
Theorem avg_pwr_within_samples (samples : list Z) (lo hi : Z) :
  (avg_pwr samples = None <-> samples = []) /\
  (samples <> [] ->
   (forall x, x ∈ samples -> lo <= x <= hi) ->
   exists q, avg_pwr samples = Some q /\ (inject_Z lo <= q)%Q /\ (q <= inject_Z hi)%Q).
Proof.
  split.
  - destruct samples; simpl; split; intros H; done.
  - intros Hne Hb. destruct samples as [|x l]; [done|].
    eexists. split; [reflexivity|].
    pose proof (sum_bounds (x :: l) lo hi Hb) as Hs.
    set (n := length (x :: l)) in *. set (t := fold_right Z.add 0 (x :: l)) in *.
    assert (Hn : Z.pos (Pos.of_nat n) = Z.of_nat n).
    { rewrite <- positive_nat_Z. rewrite Nat2Pos.id; [done|]. unfold n. simpl. lia. }
    unfold Qle. simpl. rewrite Hn. lia.
Qed.

Lemma avg_pwr_within_samples_witness :
  exists q, avg_pwr [-45; -46; -60] = Some q /\
            (inject_Z (-60) <= q)%Q /\ (q <= inject_Z (-45))%Q.
Proof.
  apply (proj2 (avg_pwr_within_samples [-45; -46; -60] (-60) (-45))).
  - discriminate.
  - intros x Hx. repeat (apply elem_of_cons in Hx; destruct Hx as [->|Hx]; [lia|]).
    by apply elem_of_nil in Hx.
Defined.

(** ** The whitelist, entry by entry *)

Example py_strip_line : py_strip (String "009" " Net,A " ++ String "010" "") = "Net,A".
Proof. reflexivity. Qed.

Lemma py_split_no_sep sep s : contains sep s = false -> py_split sep s = [s].
Proof.
  induction s as [|c s IH]; simpl; [done|].
  intros H. apply orb_false_iff in H. destruct H as [Hc Hs].
  rewrite Hc. by rewrite (IH Hs).
Qed.

Lemma py_split_app sep x y :
  contains sep x = false ->
  py_split sep (x ++ String sep y)%string = x :: py_split sep y.
Proof.
  induction x as [|c x IH]; simpl.
  - intros _. by rewrite Ascii.eqb_refl.
  - intros H. apply orb_false_iff in H. destruct H as [Hc Hx].
    rewrite Hc. by rewrite (IH Hx).
Qed.

Lemma py_split_parts sep s p : p ∈ py_split sep s -> contains sep p = false.
Proof.
  revert p. induction s as [|c s IH]; intros p; simpl.
  - intros H. apply list_elem_of_singleton in H. by subst.
  - destruct (Ascii.eqb c sep) eqn:Hc.
    + intros H. apply elem_of_cons in H. destruct H as [->|H]; [done | by apply IH].
    + destruct (py_split sep s) as [|w ws] eqn:E.
      * intros H. apply list_elem_of_singleton in H. subst. simpl. by rewrite Hc.
      * intros H. apply elem_of_cons in H. destruct H as [->|H].
        -- simpl. rewrite Hc. apply IH. left.
        -- apply IH. by right.
Qed.

Lemma whitelist_check_true_iff wl ssid b :
  whitelist_check wl ssid b = true <->
  contains "," ssid = false /\ contains "," b = false /\
  (ssid ++ String "," b)%string ∈ wl.
Proof.
  induction wl as [|entry wl IH]; simpl.
  - split; [done|]. intros (_ & _ & H). by apply elem_of_nil in H.
  - assert (Hskip : py_split "," entry <> [ssid; b] ->
              (whitelist_check wl ssid b = true <->
               contains "," ssid = false /\ contains "," b = false /\
               (ssid ++ String "," b)%string ∈ entry :: wl)).
    { intros Hne. rewrite IH. split; intros (H1 & H2 & H3); (split; [done|]); (split; [done|]).
      - by right.
      - apply elem_of_cons in H3. destruct H3 as [H3|H3]; [|done].
        exfalso. apply Hne. rewrite <- H3, (py_split_app _ _ _ H1).
        by rewrite (py_split_no_sep _ _ H2). }
    destruct (py_split "," entry) as [|x [|y [|z l]]] eqn:Hsp;
      try (apply Hskip; discriminate).
    destruct (bool_decide (ssid = x) && bool_decide (b = y)) eqn:Hm.
    + apply andb_true_iff in Hm. destruct Hm as [Hx Hy].
      apply bool_decide_eq_true in Hx, Hy. subst x y.
      split; [intros _|done].
      split; [apply (py_split_parts "," entry); rewrite Hsp; left|].
      split; [apply (py_split_parts "," entry); rewrite Hsp; right; left|].
      apply py_split_two in Hsp. subst entry. left.
    + apply Hskip. intros [= -> ->].
      by rewrite !bool_decide_eq_true_2 in Hm by done.
Qed.

(** X9. A pair passes the whitelist check exactly when neither the name nor the
    BSSID has a comma and the whitelist holds the very string
    [ESSID,BSSID]: a network whose name has a comma cannot be whitelisted. *)
Theorem whitelisted_iff_exact_entry (wl : list string) (ssid b : string) :
  (whitelist_check wl ssid b = true <->
   contains "," ssid = false /\ contains "," b = false /\
   (ssid ++ String "," b)%string ∈ wl) /\
  (contains "," ssid = true -> whitelist_check wl ssid b = false).
Proof.
  split; [apply whitelist_check_true_iff|].
  intros Hc. destruct (whitelist_check wl ssid b) eqn:E; [|done].
  apply whitelist_check_true_iff in E. destruct E as (E & _). congruence.
Qed.

Lemma whitelisted_iff_exact_entry_witness :
  whitelist_check ["Cafe,Net,A"; "Cafe"; "Net,A"] "Cafe,Net" "A" = false.
Proof.
  exact (proj2 (whitelisted_iff_exact_entry ["Cafe,Net,A"; "Cafe"; "Net,A"] "Cafe,Net" "A")
               eq_refl).
Defined.

(** X10. The whitelist is a set and the loop visits it in no fixed order: the
    outcome of the check depends on the entries only, not on their order or
    on repetitions. *)
Theorem whitelist_check_order_independent (wl wl' : list string) (ssid b : string) :
  (forall entry, entry ∈ wl <-> entry ∈ wl') ->
  whitelist_check wl ssid b = whitelist_check wl' ssid b.
Proof.
  intros Hsame.
  destruct (whitelist_check wl ssid b) eqn:E, (whitelist_check wl' ssid b) eqn:E';
    try done.
  - apply whitelist_check_true_iff in E. destruct E as (H1 & H2 & H3).
    apply Hsame in H3.
    assert (whitelist_check wl' ssid b = true) by (by apply whitelist_check_true_iff).
    congruence.
  - apply whitelist_check_true_iff in E'. destruct E' as (H1 & H2 & H3).
    apply Hsame in H3.
    assert (whitelist_check wl ssid b = true) by (by apply whitelist_check_true_iff).
    congruence.
Qed.

Lemma whitelist_check_order_independent_witness :
  whitelist_check ["Net,A"; "bad"; "Cafe,C"] "Cafe" "C" =
  whitelist_check ["Cafe,C"; "Net,A"; "bad"; "Net,A"] "Cafe" "C".
Proof.
  apply whitelist_check_order_independent. intros entry.
  rewrite !elem_of_cons, !elem_of_nil. tauto.
Defined.

(** X11. A whitelist given on the command line, not as a file, is the option's
    text split at its commas: none of its entries has a comma, every one of
    them is skipped by the check, and nothing is whitelisted. The same holds
    when the option is absent or empty. *)
Theorem argument_whitelist_matches_nothing (arg : option string) (ssid b : string) :
  whitelist_check (elements (main_whitelist arg None)) ssid b = false.
Proof.
  destruct (whitelist_check _ ssid b) eqn:E; [|done].
  apply whitelist_check_true_iff in E. destruct E as (Hs & Hb & Hin).
  apply elem_of_elements in Hin. exfalso. revert Hin. unfold main_whitelist.
  destruct arg as [w|]; [|by intros Hx; apply elem_of_empty in Hx].
  case_bool_decide as Hw; [by intros Hx; apply elem_of_empty in Hx|].
  rewrite elem_of_list_to_set. intros Hin.
  apply py_split_parts in Hin.
  assert (Hc : contains "," (ssid ++ String "," b)%string = true).
  { clear. induction ssid as [|c s IH]; simpl; [done|]. rewrite IH. apply orb_true_r. }
  congruence.
Qed.

(** X12. With a whitelist file, a pair is whitelisted exactly when neither part
    has a comma and some line of the file, stripped of the white space
    around it, is the string [ESSID,BSSID]. *)
Theorem file_whitelist_matches_stripped_lines (f : list string) (ssid b : string) :
  whitelist_check (elements (load_whitelist (Some f))) ssid b = true <->
  contains "," ssid = false /\ contains "," b = false /\
  exists line, line ∈ f /\ py_strip line = (ssid ++ String "," b)%string.
Proof.
  rewrite whitelist_check_true_iff. unfold load_whitelist.
  rewrite elem_of_elements, elem_of_list_to_set, list_elem_of_omap.
  split; intros (H1 & H2 & line & Hin & Hl); (split; [done|]); (split; [done|]);
    exists line; (split; [done|]).
  - case_bool_decide; [done|]. by injection Hl.
  - rewrite Hl. rewrite bool_decide_eq_false_2; [done|]. by destruct ssid.
Qed.

(** ** The registry over a run *)

Lemma ap_get_None_keys d k : ap_get d k = None <-> k ∉ map fst d.
Proof.
  induction d as [|[k0 r0] d IH]; simpl.
  - split; [intros _; apply not_elem_of_nil | done].
  - case_bool_decide as Hk.
    + subst k0. split; [done|]. intros H. exfalso. apply H. left.
    + rewrite IH, not_elem_of_cons. split; [by split; auto | by intros [_ ?]].
Qed.

Lemma ap_set_nodup d k r : NoDup (map fst d) -> NoDup (map fst (ap_set d k r)).
Proof.
  intros Hn. rewrite ap_set_keys. destruct (ap_get d k) eqn:Hg; [done|].
  apply NoDup_app. split; [done|]. split; [|apply NoDup_singleton].
  intros x Hx Hx'. apply list_elem_of_singleton in Hx'. subst x.
  by apply ap_get_None_keys in Hg.
Qed.

Lemma copy_of_refl r ty : copy_of (mk_alert r ty) r.
Proof. unfold copy_of. simpl. repeat split; lia. Qed.

Lemma heap_nodup_snoc h xs : heap_nodup h -> NoDup xs -> heap_nodup (h ++ [xs]).
Proof.
  intros Hh Hx l ys Hl. apply lookup_app_Some in Hl.
  destruct Hl as [Hl|[_ Hl]]; [by eapply Hh|].
  apply list_lookup_singleton_Some in Hl. destruct Hl as [_ <-]. done.
Qed.

Lemma heap_nodup_append_at h l x :
  heap_nodup h -> x ∉ deref h l -> heap_nodup (append_at h l x).
Proof.
  intros Hh Hx l' ys Hl. unfold append_at in Hl.
  apply list_lookup_insert_Some in Hl.
  destruct Hl as [(Hll & Hys & Hlt)|[_ Hl]]; [|by eapply Hh].
  subst l' ys. apply NoDup_app. split; [|split; [|apply NoDup_singleton]].
  - unfold deref. destruct (h !! l) as [xs|] eqn:E; [by eapply Hh | apply NoDup_nil_2].
  - intros y Hy Hy'. apply list_elem_of_singleton in Hy'. by subst.
Qed.

Lemma upsert_heap_nodup b ssid sig ch m en ci au pm h d :
  heap_nodup h -> heap_nodup (upsert b ssid sig ch m en ci au pm h d).1.
Proof.
  intros Hh. unfold upsert. destruct (ap_get d b) as [r|]; simpl.
  - assert (H1 : heap_nodup
        (match sig with
         | Some s => if bool_decide (s ∈ deref h (pwr r)) then h
                     else append_at h (pwr r) s
         | None => h
         end)).
    { destruct sig as [s|]; [|done]. case_bool_decide; [done|].
      by apply heap_nodup_append_at. }
    destruct ch as [c|]; [|done]. case_bool_decide; [done|].
    by apply heap_nodup_append_at.
  - apply heap_nodup_snoc; [apply heap_nodup_snoc; [done|]|].
    + destruct sig; [apply NoDup_singleton | apply NoDup_nil_2].
    + destruct ch; [apply NoDup_singleton | apply NoDup_nil_2].
Qed.

Lemma upsert_nodup_keys b ssid sig ch m en ci au pm h d :
  NoDup (map fst d) -> NoDup (map fst (upsert b ssid sig ch m en ci au pm h d).2).
Proof.
  intros Hn. unfold upsert. destruct (ap_get d b); simpl; by apply ap_set_nodup.
Qed.

(** The record under the beacon's BSSID after lines 150-169. *)
Lemma upsert_record b ssid sig ch m en ci au pm h d :
  ap_get (upsert b ssid sig ch m en ci au pm h d).2 b =
  Some (match ap_get d b with
        | Some r => set_beacons r (beacons r + 1)
        | None => {| essid := ssid; bssid := b; pwr := length h; beacons := 1; data := 0;
                     channel := S (length h); mb := m; enc := en; cipher := ci;
                     auth := au; pmf := pm |}
        end).
Proof.
  unfold upsert. destruct (ap_get d b); simpl; rewrite ap_get_set_eq; [done|].
  rewrite length_app. simpl. by rewrite Nat.add_1_r.
Qed.

Lemma upsert_locs_apart b ssid sig ch m en ci au pm h d :
  locs_ok h d -> locs_apart d -> locs_apart (upsert b ssid sig ch m en ci au pm h d).2.
Proof.
  intros Hl Ha k1 k2 r1 r2 Hne H1 H2.
  destruct (decide (b = k1)) as [->|Hb1]; [|destruct (decide (b = k2)) as [->|Hb2]].
  - rewrite upsert_record in H1. rewrite upsert_get_ne in H2 by done.
    destruct (Hl _ _ H2) as (Hp2 & Hc2 & _).
    destruct (ap_get d k1) as [r|] eqn:Hg; injection H1 as <-; simpl.
    + by apply (Ha k1 k2).
    + repeat split; lia.
  - rewrite upsert_record in H2. rewrite upsert_get_ne in H1 by done.
    destruct (Hl _ _ H1) as (Hp1 & Hc1 & _).
    destruct (ap_get d k2) as [r|] eqn:Hg; injection H2 as <-; simpl.
    + by apply (Ha k1 k2).
    + repeat split; lia.
  - rewrite upsert_get_ne in H1, H2 by done. by apply (Ha k1 k2).
Qed.

Lemma upsert_counters_ok b ssid sig ch m en ci au pm h d :
  counters_ok d -> counters_ok (upsert b ssid sig ch m en ci au pm h d).2.
Proof.
  intros Hc k r Hr. destruct (decide (b = k)) as [->|Hne].
  - rewrite upsert_record in Hr.
    destruct (ap_get d k) as [r0|] eqn:Hg; injection Hr as <-; simpl; [|lia].
    destruct (Hc _ _ Hg). lia.
  - rewrite upsert_get_ne in Hr by done. by eapply Hc.
Qed.

Lemma copy_of_set_beacons a r n : copy_of a r -> beacons r <= n -> copy_of a (set_beacons r n).
Proof. unfold copy_of. simpl. intros H Hn. repeat split; try tauto; lia. Qed.

Lemma copy_of_set_data a r n : copy_of a r -> data r <= n -> copy_of a (set_data r n).
Proof. unfold copy_of. simpl. intros H Hn. repeat split; try tauto; lia. Qed.

Lemma upsert_alerts_follow b ssid sig ch m en ci au pm h d al :
  alerts_follow d al -> alerts_follow (upsert b ssid sig ch m en ci au pm h d).2 al.
Proof.
  intros Hf a Ha. destruct (Hf a Ha) as [(r & Hr & Hc) Hty]. split; [|done].
  destruct (decide (b = alert_bssid a)) as [Hb|Hne].
  - rewrite <- Hb in *. rewrite upsert_record, Hr. eexists. split; [reflexivity|].
    apply copy_of_set_beacons; [done | lia].
  - rewrite upsert_get_ne by done. eauto.
Qed.

Lemma new_alerts_follow d wl ssid b al :
  keys_ok d -> alerts_follow d al -> alerts_follow d (al ++ new_alerts d wl ssid b al).
Proof.
  intros Hk Hf a Ha. apply elem_of_app in Ha. destruct Ha as [Ha|Ha]; [by apply Hf|].
  destruct (new_alerts_cases d wl ssid b al) as [Hn|(r & ty & Hn & Hg & _ & _)];
    rewrite Hn in Ha; [by apply elem_of_nil in Ha|].
  apply list_elem_of_singleton in Ha. subst a. split.
  - exists r. unfold alert_bssid. simpl. rewrite (Hk _ _ Hg).
    split; [done | apply copy_of_refl].
  - revert Hn. unfold new_alerts.
    destruct (whitelist_check wl ssid b); [done|].
    destruct (has_alert al b); [done|]. rewrite Hg.
    intros [= <-]. simpl. destruct (_ && _); [by left | by right].
Qed.

Lemma init_state_inv : reg_inv init_state.
Proof.
  split; [apply init_state_wf|]. simpl. split; [apply NoDup_nil_2|].
  split; [intros k1 k2 r1 r2 _ H; discriminate|].
  split; [intros l xs H; discriminate|].
  split; [intros k r H; discriminate|].
  intros a Ha. by apply elem_of_nil in Ha.
Qed.

Lemma packet_handler_inv pkt v wl la st st' :
  reg_inv st -> packet_handler pkt v wl la st = Ok st' -> reg_inv st'.
Proof.
  intros (Hwf & Hn & Ha & Hh & Hc & Hf) Hstep.
  split; [by eapply packet_handler_wf|].
  destruct Hwf as (Hk & Hl & _). destruct pkt as [bc|k|].
  - destruct (packet_handler_beacon_inv _ _ _ _ _ _ Hstep) as (e & c & He).
    destruct (security_ok (rsn_ie e)) as [sec Hsec].
    rewrite (packet_handler_beacon bc v wl la st e c sec He Hsec) in Hstep
      by (intros r; apply Hk).
    injection Hstep as <-. unfold beacon_upsert. simpl.
    destruct sec as [[[en ci] au] pm].
    split; [by apply upsert_nodup_keys|]. split; [by apply upsert_locs_apart|].
    split; [by apply upsert_heap_nodup|]. split; [by apply upsert_counters_ok|].
    apply new_alerts_follow; [by apply upsert_keys_ok | by apply upsert_alerts_follow].
  - simpl in Hstep. destruct (ap_get (ap_data st) k) as [r|] eqn:Hg.
    2:{ by injection Hstep as <-. }
    injection Hstep as <-. simpl.
    split; [by apply ap_set_nodup|]. split; [|split; [done|split]].
    + intros k1 k2 r1 r2 Hne H1 H2.
      destruct (decide (k = k1)) as [->|Hb1]; [|destruct (decide (k = k2)) as [->|Hb2]].
      * rewrite ap_get_set_eq in H1. rewrite ap_get_set_ne in H2 by done.
        injection H1 as <-. simpl. by apply (Ha k1 k2).
      * rewrite ap_get_set_eq in H2. rewrite ap_get_set_ne in H1 by done.
        injection H2 as <-. simpl. by apply (Ha k1 k2).
      * rewrite ap_get_set_ne in H1, H2 by done. by apply (Ha k1 k2).
    + intros k' r' Hr. destruct (decide (k = k')) as [->|Hne].
      * rewrite ap_get_set_eq in Hr. injection Hr as <-. simpl.
        destruct (Hc _ _ Hg). lia.
      * rewrite ap_get_set_ne in Hr by done. by eapply Hc.
    + intros a Hin. destruct (Hf a Hin) as [(r0 & Hr0 & Hc0) Hty]. split; [|done].
      destruct (decide (k = alert_bssid a)) as [Hb|Hne].
      * rewrite <- Hb in *. rewrite ap_get_set_eq. eexists. split; [reflexivity|].
        assert (r0 = r) by congruence. subst r0.
        apply copy_of_set_data; [done | lia].
      * rewrite ap_get_set_ne by done. eauto.
  - by injection Hstep as <-.
Qed.

Lemma run_inv cs : reg_inv (run cs init_state).
Proof.
  apply run_invariant; [apply init_state_inv|].
  intros c s s' Hs Hstep. eapply packet_handler_inv; eauto.
Qed.

Lemma packet_handler_keys_prefix pkt v wl la st st' :
  packet_handler pkt v wl la st = Ok st' ->
  map fst (ap_data st) `prefix_of` map fst (ap_data st').
Proof.
  intros Hstep.
  assert (Hset : forall d k r, map fst d `prefix_of` map fst (ap_set d k r)).
  { intros d k r. rewrite ap_set_keys. destruct (ap_get d k); [done|]. by apply prefix_app_r. }
  destruct pkt as [bc|k|].
  - revert Hstep. unfold packet_handler.
    destruct (read_beacon bc) as [[e c]|]; [|discriminate]. simpl.
    destruct (security (rsn_ie e)) as [[[[en ci] au] pm]|]; [|discriminate]. simpl.
    destruct (upsert _ _ _ _ _ en ci au pm (heap st) (ap_data st)) as [h d] eqn:Hu.
    assert (Hd : map fst (ap_data st) `prefix_of` map fst d).
    { replace d with (h, d).2 by done. rewrite <- Hu. unfold upsert.
      destruct (ap_get (ap_data st) (addr2 bc)); simpl; apply Hset. }
    destruct (negb _); [|by intros [= <-]].
    destruct (if negb _ then _ else _) as [al1|]; simpl; [|discriminate].
    destruct (negb _); simpl; [|by intros [= <-]].
    destruct (ap_index d (addr2 bc)); simpl; [by intros [= <-] | discriminate].
  - simpl in Hstep. destruct (ap_get (ap_data st) k); injection Hstep as <-; [|done].
    simpl. apply Hset.
  - by injection Hstep as <-.
Qed.

Lemma run_keys_prefix cs st : map fst (ap_data st) `prefix_of` map fst (ap_data (run cs st)).
Proof.
  revert st. induction cs as [|c cs IH]; intros st; simpl; [done|].
  destruct (packet_handler _ _ _ _ st) as [s'|x] eqn:E; [|done].
  etrans; [|apply IH]. by eapply packet_handler_keys_prefix.
Qed.

(** X13. Over any run the registry has one record per BSSID, stored under the
    BSSID it carries, with at least one beacon counted; a record is never
    removed and never changes place: the BSSIDs of a run are the first
    BSSIDs of every longer run. *)
Theorem one_record_per_bssid_never_removed (cs : list call) :
  let st := run cs init_state in
  NoDup (map fst (ap_data st)) /\
  (forall k r, ap_get (ap_data st) k = Some r ->
     bssid r = k /\ (k, r) ∈ ap_data st /\ 1 <= beacons r /\ 0 <= data r) /\
  (forall cs', map fst (ap_data st) `prefix_of`
               map fst (ap_data (run (cs ++ cs') init_state))).
Proof.
  intros st. destruct (run_inv cs) as ((Hk & _) & Hn & _ & _ & Hc & _).
  fold st in Hk, Hn, Hc. split; [exact Hn|]. split.
  - intros k r Hg. destruct (Hc _ _ Hg).
    split; [by apply Hk|]. split; [by apply ap_get_elem_of|]. done.
  - intros cs'. subst st. clear Hk Hn Hc. generalize init_state.
    induction cs as [|c cs IH]; intros s0; simpl; [apply run_keys_prefix|].
    destruct (packet_handler _ _ _ _ s0); [apply IH | done].
Qed.

Lemma one_record_per_bssid_never_removed_witness :
  exists r, ap_get (ap_data (sniff [mk_beacon "A" "Net" None 1; DataFrame "A";
                                    mk_beacon "A" "Net" None 1] false [] false init_state))
                   "A" = Some r /\ bssid r = "A" /\ 1 <= beacons r.
Proof.
  eexists. split; [reflexivity|].
  destruct (proj1 (proj2 (one_record_per_bssid_never_removed
      (map (fun p => {| c_pkt := p; c_verbose := false; c_whitelist := [];
                        c_live_alerts_only := false |})
           [mk_beacon "A" "Net" None 1; DataFrame "A"; mk_beacon "A" "Net" None 1])))
    "A" _ eq_refl) as (Hb & _ & Hc & _).
  split; [exact Hb | exact Hc].
Defined.

(** X14. Over any run no record holds a signal value twice or a channel twice. *)
Theorem samples_and_channels_without_repetition (cs : list call) (k : string)
    (r : ap_record) :
  let st := run cs init_state in
  ap_get (ap_data st) k = Some r ->
  NoDup (deref (heap st) (pwr r)) /\ NoDup (deref (heap st) (channel r)).
Proof.
  intros st _. destruct (run_inv cs) as (_ & _ & _ & Hh & _). fold st in Hh.
  assert (Hd : forall l, NoDup (deref (heap st) l)).
  { intros l. unfold deref. destruct (heap st !! l) eqn:E; [by eapply Hh | apply NoDup_nil_2]. }
  split; apply Hd.
Qed.

Lemma samples_and_channels_without_repetition_witness :
  exists st r,
    st = sniff [mk_beacon "A" "Net" (Some (-45)) 1; mk_beacon "A" "Net" (Some (-50)) 1;
                mk_beacon "A" "Net" (Some (-45)) 6] false [] false init_state /\
    ap_get (ap_data st) "A" = Some r /\
    deref (heap st) (pwr r) = [-45; -50] /\
    NoDup (deref (heap st) (pwr r)) /\ NoDup (deref (heap st) (channel r)).
Proof.
  eexists _, _. split; [reflexivity|]. split; [reflexivity|]. split; [reflexivity|].
  exact (samples_and_channels_without_repetition
    (map (fun p => {| c_pkt := p; c_verbose := false; c_whitelist := [];
                      c_live_alerts_only := false |})
         [mk_beacon "A" "Net" (Some (-45)) 1; mk_beacon "A" "Net" (Some (-50)) 1;
          mk_beacon "A" "Net" (Some (-45)) 6]) "A" _ eq_refl).
Defined.

Lemma deref_snoc h xs l : (l < length h)%nat -> deref (h ++ [xs]) l = deref h l.
Proof. intros Hl. unfold deref. by rewrite lookup_app_l. Qed.

(** Lines 150-169 leave alone the lists of the records of other BSSIDs. *)
Lemma upsert_other_lists b ssid sig ch m en ci au pm h d k r :
  locs_ok h d -> locs_apart d -> b <> k -> ap_get d k = Some r ->
  deref (upsert b ssid sig ch m en ci au pm h d).1 (pwr r) = deref h (pwr r) /\
  deref (upsert b ssid sig ch m en ci au pm h d).1 (channel r) = deref h (channel r).
Proof.
  intros Hl Ha Hne Hg. destruct (Hl _ _ Hg) as (Hp & Hc & _).
  unfold upsert. destruct (ap_get d b) as [rb|] eqn:Hb; simpl.
  - destruct (Ha b k rb r Hne Hb Hg) as (H1 & H2 & H3 & H4).
    assert (Hx : forall l, l <> pwr rb -> l <> channel rb ->
              deref (match ch with
                     | Some c =>
                         if bool_decide (c ∈ deref
                              (match sig with
                               | Some s => if bool_decide (s ∈ deref h (pwr rb)) then h
                                           else append_at h (pwr rb) s
                               | None => h
                               end) (channel rb))
                         then match sig with
                              | Some s => if bool_decide (s ∈ deref h (pwr rb)) then h
                                          else append_at h (pwr rb) s
                              | None => h
                              end
                         else append_at
                                (match sig with
                                 | Some s => if bool_decide (s ∈ deref h (pwr rb)) then h
                                             else append_at h (pwr rb) s
                                 | None => h
                                 end) (channel rb) c
                     | None =>
                         match sig with
                         | Some s => if bool_decide (s ∈ deref h (pwr rb)) then h
                                     else append_at h (pwr rb) s
                         | None => h
                         end
                     end) l = deref h l).
    { intros l Hlp Hlc.
      destruct sig as [s|], ch as [c|]; repeat case_bool_decide;
        rewrite ?deref_append_at_ne by done; done. }
    split; apply Hx; congruence.
  - split; rewrite !deref_snoc; rewrite ?length_app; simpl; try lia; done.
Qed.

(** X15. Over any run, a beacon of one BSSID changes nothing for the others:
    their records, their signal samples and their channels stay as they
    were. *)
Theorem beacon_leaves_other_records_alone (cs : list call) (bc : beacon) (v la : bool)
    (wl : list string) (st' : state) (k : string) (r : ap_record) :
  let st := run cs init_state in
  packet_handler (Beacon bc) v wl la st = Ok st' ->
  k <> addr2 bc ->
  ap_get (ap_data st) k = Some r ->
  ap_get (ap_data st') k = Some r /\
  deref (heap st') (pwr r) = deref (heap st) (pwr r) /\
  deref (heap st') (channel r) = deref (heap st) (channel r).
Proof.
  intros st Hstep Hne Hg.
  destruct (run_inv cs) as ((Hk & Hl & _) & _ & Ha & _). fold st in Hk, Hl, Ha.
  destruct (packet_handler_beacon_inv _ _ _ _ _ _ Hstep) as (e & c & He).
  destruct (security_ok (rsn_ie e)) as [sec Hsec].
  rewrite (packet_handler_beacon bc v wl la st e c sec He Hsec) in Hstep
    by (intros r0; apply Hk).
  injection Hstep as <-. unfold beacon_upsert. simpl.
  destruct sec as [[[en ci] au] pm].
  split; [by rewrite upsert_get_ne by done|].
  apply (upsert_other_lists _ _ _ _ _ _ _ _ _ _ _ k r); [done | done | congruence | done].
Qed.

Lemma beacon_leaves_other_records_alone_witness :
  exists st' r,
    packet_handler (mk_beacon "B" "Net" (Some (-70)) 11) false [] false
      (run [ {| c_pkt := mk_beacon "A" "Net" (Some (-45)) 1; c_verbose := false;
                c_whitelist := []; c_live_alerts_only := false |} ] init_state) = Ok st' /\
    ap_get (ap_data st') "A" = Some r /\
    deref (heap st') (pwr r) = [-45] /\ deref (heap st') (channel r) = [1].
Proof.
  eexists _, _. split; [reflexivity|].
  destruct (beacon_leaves_other_records_alone
      [ {| c_pkt := mk_beacon "A" "Net" (Some (-45)) 1; c_verbose := false;
           c_whitelist := []; c_live_alerts_only := false |} ]
      (plain_beacon "B" "Net" (Some (-70)) 11)
      false false [] _ "A" _ eq_refl ltac:(discriminate) eq_refl) as (Hg & Hp & Hc).
  split; [exact Hg|]. split; [exact Hp | exact Hc].
Defined.

(** X16. Over any run every alert of the ledger is for a recorded BSSID, is of
    one of the two types, and is a copy of an earlier state of that record:
    it has the record's name, security and bit rate and counters that the
    record has reached or passed, and, the copy being shallow, it shows the
    signal samples and the channels that the record has now. *)
Theorem alerts_follow_their_records (cs : list call) (a : alert) :
  let st := run cs init_state in
  a ∈ alerts st ->
  (alert_type a = "Evil Twin Detected" \/ alert_type a = "Not Whitelisted") /\
  exists r, ap_get (ap_data st) (alert_bssid a) = Some r /\
    copy_of a r /\
    alert_pwr (heap st) a = deref (heap st) (pwr r) /\
    alert_channel (heap st) a = deref (heap st) (channel r).
Proof.
  intros st Ha. destruct (run_inv cs) as (_ & _ & _ & _ & _ & Hf). fold st in Hf.
  destruct (Hf a Ha) as [(r & Hr & Hc) Hty]. split; [exact Hty|].
  exists r. split; [exact Hr|]. split; [exact Hc|].
  destruct Hc as (_ & _ & Hp & Hch & _). unfold alert_pwr, alert_channel.
  by rewrite Hp, Hch.
Qed.

Lemma alerts_follow_their_records_witness :
  let st := sniff [mk_beacon "A" "Net" (Some (-45)) 1; mk_beacon "A" "Net" (Some (-46)) 6]
                  false [] false init_state in
  exists a r, a ∈ alerts st /\ ap_get (ap_data st) "A" = Some r /\
    beacons (alert_data a) = 1 /\ beacons r = 2 /\
    alert_pwr (heap st) a = deref (heap st) (pwr r).
Proof.
  eexists _, _. split; [left|]. split; [reflexivity|].
  split; [reflexivity|]. split; [reflexivity|].
  destruct (alerts_follow_their_records
    (map (fun p => {| c_pkt := p; c_verbose := false; c_whitelist := [];
                      c_live_alerts_only := false |})
         [mk_beacon "A" "Net" (Some (-45)) 1; mk_beacon "A" "Net" (Some (-46)) 6])
    _ ltac:(left)) as (_ & r & Hr & _ & Hp & _).
  injection Hr as <-. exact Hp.
Defined.

(** ** One beacon *)



(** X18. Over any run, what a beacon that the handler reads to the end does
    to the ledger: nothing when the pair of its name and BSSID is
    whitelisted or the BSSID has an entry; otherwise one alert is appended,
    a copy of the record as the beacon leaves it, of type evil twin exactly
    when the name is not "<Hidden>" and the record of another BSSID has that
    name, and of type not whitelisted if not. *)
Theorem beacon_alert_decision (cs : list call) (bc : beacon) (v la : bool)
    (wl : list string) (e : ies) (c : Z) :
  let st := run cs init_state in
  read_beacon bc = Ok (e, c) ->
  exists st' r',
    packet_handler (Beacon bc) v wl la st = Ok st' /\
    ap_get (ap_data st') (addr2 bc) = Some r' /\
    (whitelist_check wl (ssid_of bc) (addr2 bc) = true \/
     has_alert (alerts st) (addr2 bc) = true -> alerts st' = alerts st) /\
    (whitelist_check wl (ssid_of bc) (addr2 bc) = false ->
     has_alert (alerts st) (addr2 bc) = false ->
     exists a, alerts st' = alerts st ++ [a] /\ alert_data a = r' /\
       (alert_type a = "Evil Twin Detected" \/ alert_type a = "Not Whitelisted") /\
       (alert_type a = "Evil Twin Detected" <->
        ssid_of bc <> "<Hidden>" /\
        exists k r, k <> addr2 bc /\ ap_get (ap_data st) k = Some r /\
                    essid r = ssid_of bc)).
Proof.
  intros st He.
  destruct (run_inv cs) as ((Hk & _) & Hn & _). fold st in Hk, Hn.
  destruct (beacon_alerts bc v wl la st e c Hk He)
    as (st' & r' & Hs & _ & Hg & _ & _ & _ & Ha).
  assert (Htw : existsb (twin (ssid_of bc) (addr2 bc)) (ap_data st) = true <->
     exists k r, k <> addr2 bc /\ ap_get (ap_data st) k = Some r /\ essid r = ssid_of bc).
  { rewrite existsb_exists. split.
    - intros ([k r] & Hin & Ht). unfold twin in Ht. simpl in Ht.
      apply andb_true_iff in Ht. destruct Ht as [H1 H2].
      apply bool_decide_eq_true in H1. apply negb_true_iff, bool_decide_eq_false in H2.
      exists k, r. split; [done|]. split; [|done].
      apply list_elem_of_In in Hin. clear -Hin Hn.
      induction (ap_data st) as [|[k0 r0] d IH]; [by apply elem_of_nil in Hin|].
      simpl in *. apply NoDup_cons in Hn. destruct Hn as [Hk0 Hn].
      apply elem_of_cons in Hin. destruct Hin as [[= -> ->]|Hin].
      + by rewrite bool_decide_eq_true_2.
      + rewrite bool_decide_eq_false_2; [by apply IH|].
        intros ->. apply Hk0. apply list_elem_of_fmap. by exists (k, r).
    - intros (k & r & Hne & Hg' & Hes). exists (k, r). split.
      + apply list_elem_of_In. by apply ap_get_elem_of.
      + unfold twin. simpl. rewrite bool_decide_eq_true_2 by done.
        by rewrite bool_decide_eq_false_2. }
  exists st', r'. split; [exact Hs|]. split; [exact Hg|]. split.
  - intros [Hw|Hh]; rewrite Ha.
    + by rewrite Hw, app_nil_r.
    + rewrite Hh. destruct (whitelist_check wl (ssid_of bc) (addr2 bc));
        by rewrite app_nil_r.
  - intros Hw Hh. rewrite Hw, Hh in Ha. eexists. split; [exact Ha|].
    split; [reflexivity|]. simpl. rewrite <- Htw.
    destruct (bool_decide (ssid_of bc = "<Hidden>")) eqn:Eh;
      [apply bool_decide_eq_true in Eh | apply bool_decide_eq_false in Eh]; simpl.
    + split; [by right|]. split; [discriminate | intros [Hne _]; by destruct Hne].
    + destruct (existsb (twin (ssid_of bc) (addr2 bc)) (ap_data st)).
      * split; [by left | done].
      * split; [by right|]. split; [discriminate | intros [_ ?]; discriminate].
Qed.

Lemma beacon_alert_decision_witness :
  exists st' a,
    packet_handler (mk_beacon "B" "<Hidden>" None 1) false [] false
      (run [ {| c_pkt := mk_beacon "A" "" None 1; c_verbose := false;
                c_whitelist := ["<Hidden>,A"]; c_live_alerts_only := false |} ]
           init_state) = Ok st' /\
    alerts st' = [] ++ [a] /\ alert_type a = "Not Whitelisted".
Proof.
  destruct (beacon_alert_decision
      [ {| c_pkt := mk_beacon "A" "" None 1; c_verbose := false;
           c_whitelist := ["<Hidden>,A"]; c_live_alerts_only := false |} ]
      (plain_beacon "B" "<Hidden>" None 1)
      false false [] _ _ eq_refl) as (st' & r' & Hs & _ & _ & Ha).
  destruct (Ha eq_refl eq_refl) as (a & Hal & _ & [Hty|Hty] & Hiff).
  - apply Hiff in Hty. destruct Hty as [Hne _]. by destruct Hne.
  - exists st', a. split; [exact Hs|]. split; [exact Hal | exact Hty].
Defined.

(** X19. A beacon with no name, or with the name "<Hidden>" itself, is handled
    as "<Hidden>" and is never alerted as an evil twin, whatever the names
    of the other records. *)
Theorem hidden_name_is_never_an_evil_twin (cs : list call) (bc : beacon) (v la : bool)
    (wl : list string) (st' : state) (a : alert) :
  let st := run cs init_state in
  ssid_text bc = "" \/ ssid_text bc = "<Hidden>" ->
  packet_handler (Beacon bc) v wl la st = Ok st' ->
  a ∈ alerts st' -> a ∉ alerts st ->
  ssid_of bc = "<Hidden>" /\ alert_bssid a = addr2 bc /\ alert_type a = "Not Whitelisted".
Proof.
  intros st Hname Hstep Ha Hna.
  assert (Hh : ssid_of bc = "<Hidden>")
    by (unfold ssid_of; destruct Hname as [-> | ->]; reflexivity).
  split; [exact Hh|].
  destruct (run_inv cs) as ((Hk & _) & _). fold st in Hk.
  destruct (packet_handler_beacon_inv _ _ _ _ _ _ Hstep) as (e & c & He).
  destruct (beacon_alerts bc v wl la st e c Hk He)
    as (st1 & r' & Hs & _ & Hg & Hb & _ & _ & Hal).
  rewrite Hs in Hstep. injection Hstep as ->.
  rewrite Hal in Ha. apply elem_of_app in Ha. destruct Ha as [Ha|Ha]; [done|].
  destruct (whitelist_check wl (ssid_of bc) (addr2 bc)); [by apply elem_of_nil in Ha|].
  destruct (has_alert (alerts st) (addr2 bc)); [by apply elem_of_nil in Ha|].
  apply list_elem_of_singleton in Ha. subst a. unfold alert_bssid. simpl.
  split; [exact Hb|]. by rewrite Hh.
Qed.

Lemma hidden_name_is_never_an_evil_twin_witness :
  exists a,
    a ∈ alerts (sniff [mk_beacon "A" "<Hidden>" None 1; mk_beacon "B" "<Hidden>" None 1]
                      false ["<Hidden>,A"] false init_state) /\
    alert_bssid a = "B" /\ alert_type a = "Not Whitelisted".
Proof.
  eexists. split; [left|].
  refine (proj2 (hidden_name_is_never_an_evil_twin
      [ {| c_pkt := mk_beacon "A" "<Hidden>" None 1; c_verbose := false;
           c_whitelist := ["<Hidden>,A"]; c_live_alerts_only := false |} ]
      (plain_beacon "B" "<Hidden>" (None) 1)
      false false ["<Hidden>,A"] _ _ (or_intror eq_refl) eq_refl _ _)).
  - left.
  - apply not_elem_of_nil.
Defined.

(** ** Whole runs *)

Lemma sniff_cons p pkts v wl la st :
  sniff (p :: pkts) v wl la st =
  match packet_handler p v wl la st with
  | Ok st' => sniff pkts v wl la st'
  | Raise _ => st
  end.
Proof. reflexivity. Qed.

(** The registry and the heap after a beacon that was handled. *)
Lemma beacon_step bc v wl la st st' :
  keys_ok (ap_data st) ->
  packet_handler (Beacon bc) v wl la st = Ok st' ->
  exists e c sec,
    read_beacon bc = Ok (e, c) /\ security (rsn_ie e) = Ok sec /\
    heap st' = (beacon_upsert bc e c sec st).1 /\
    ap_data st' = (beacon_upsert bc e c sec st).2.
Proof.
  intros Hk Hstep.
  destruct (packet_handler_beacon_inv _ _ _ _ _ _ Hstep) as (e & c & He).
  destruct (security_ok (rsn_ie e)) as [sec Hsec].
  rewrite (packet_handler_beacon bc v wl la st e c sec He Hsec) in Hstep
    by (intros r; apply Hk).
  injection Hstep as <-. by exists e, c, sec.
Qed.

Lemma set_counters_id r : set_data (set_beacons r (beacons r + 0)) (data r + 0) = r.
Proof. destruct r. unfold set_data, set_beacons. simpl. f_equal; lia. Qed.

(** The record of a recorded BSSID at the end of a run of readable packets. *)
Lemma sniff_known_record pkts v wl la st b r0 :
  reg_inv st -> Forall readable pkts ->
  ap_get (ap_data st) b = Some r0 ->
  ap_get (ap_data (sniff pkts v wl la st)) b =
  Some (set_data (set_beacons r0 (beacons r0 + Z.of_nat (length (beacons_of b pkts))))
                 (data r0 + data_frames_counted b true pkts)).
Proof.
  intros Hinv Hall. revert st r0 Hinv.
  induction Hall as [|p pkts Hp Hall IH]; intros st r0 Hinv Hg.
  - simpl. unfold sniff. simpl. by rewrite set_counters_id.
  - rewrite sniff_cons.
    destruct (readable_handled p v wl la st (proj1 (proj1 Hinv)) Hp) as [st1 Hstep]. rewrite Hstep.
    pose proof (packet_handler_inv _ _ _ _ _ _ Hinv Hstep) as Hinv1.
    destruct Hinv as ((Hk & _) & _).
    destruct p as [bc|k|].
    + destruct (beacon_step bc v wl la st st1 Hk Hstep) as (e & c & sec & _ & _ & _ & Hd).
      destruct sec as [[[en ci] au] pm]. unfold beacon_upsert in Hd.
      simpl. destruct (decide (addr2 bc = b)) as [Hb|Hb].
      * rewrite (bool_decide_eq_true_2 _ Hb). subst b.
        assert (Hg1 : ap_get (ap_data st1) (addr2 bc)
                      = Some (set_beacons r0 (beacons r0 + 1)))
          by (by rewrite Hd, upsert_record, Hg).
        rewrite (IH st1 _ Hinv1 Hg1). apply (f_equal Some).
        destruct r0. unfold set_data, set_beacons. simpl. f_equal; lia.
      * rewrite (bool_decide_eq_false_2 _ Hb).
        assert (Hg1 : ap_get (ap_data st1) b = Some r0)
          by (by rewrite Hd, upsert_get_ne).
        by rewrite (IH st1 _ Hinv1 Hg1).
    + simpl in Hstep. simpl. destruct (decide (k = b)) as [Hb|Hb].
      * rewrite (bool_decide_eq_true_2 _ Hb). subst k. rewrite Hg in Hstep.
        injection Hstep as <-.
        assert (Hg1 : ap_get (ap_set (ap_data st) b (set_data r0 (data r0 + 1))) b
                      = Some (set_data r0 (data r0 + 1))) by apply ap_get_set_eq.
        rewrite (IH _ _ Hinv1 Hg1). apply (f_equal Some).
        destruct r0. unfold set_data, set_beacons. simpl. f_equal; lia.
      * rewrite (bool_decide_eq_false_2 _ Hb).
        assert (Hg1 : ap_get (ap_data st1) b = Some r0).
        { destruct (ap_get (ap_data st) k); injection Hstep as <-; [|done].
          simpl. by rewrite ap_get_set_ne. }
        rewrite (IH st1 _ Hinv1 Hg1). apply (f_equal Some).
        destruct r0. unfold set_data, set_beacons. simpl. f_equal; lia.
    + simpl in Hstep. injection Hstep as <-. simpl. by apply IH.
Qed.

(** The record of a BSSID that is not recorded yet, at the end of a run of
    readable packets: it is made by the first beacon of the BSSID. *)
Lemma sniff_new_record pkts v wl la st b :
  reg_inv st -> Forall readable pkts ->
  ap_get (ap_data st) b = None ->
  match beacons_of b pkts with
  | [] => ap_get (ap_data (sniff pkts v wl la st)) b = None
  | bc0 :: _ =>
      exists r e c,
        ap_get (ap_data (sniff pkts v wl la st)) b = Some r /\
        beacons r = Z.of_nat (length (beacons_of b pkts)) /\
        data r = data_frames_counted b false pkts /\
        essid r = ssid_of bc0 /\ bssid r = b /\
        read_beacon bc0 = Ok (e, c) /\
        security (rsn_ie e) = Ok (enc r, cipher r, auth r, pmf r) /\
        mb r = max_bit_rate (supported_rates e ++ extended_rates e)
  end.
Proof.
  intros Hinv Hall. revert st Hinv.
  induction Hall as [|p pkts Hp Hall IH]; intros st Hinv Hg; [done|].
  rewrite sniff_cons.
  destruct (readable_handled p v wl la st (proj1 (proj1 Hinv)) Hp) as [st1 Hstep]. rewrite Hstep.
  pose proof (packet_handler_inv _ _ _ _ _ _ Hinv Hstep) as Hinv1.
  destruct Hinv as ((Hk & _) & _).
  destruct p as [bc|k|].
  - destruct (beacon_step bc v wl la st st1 Hk Hstep) as (e & c & sec & He & Hsec & _ & Hd).
    destruct sec as [[[en ci] au] pm]. unfold beacon_upsert in Hd.
    simpl. destruct (decide (addr2 bc = b)) as [Hb|Hb].
    + rewrite (bool_decide_eq_true_2 _ Hb). subst b.
      assert (Hg1 : ap_get (ap_data st1) (addr2 bc) =
                Some {| essid := ssid_of bc; bssid := addr2 bc; pwr := length (heap st);
                        beacons := 1; data := 0; channel := S (length (heap st));
                        mb := max_bit_rate (supported_rates e ++ extended_rates e);
                        enc := en; cipher := ci; auth := au; pmf := pm |})
        by (by rewrite Hd, upsert_record, Hg).
      rewrite (sniff_known_record pkts v wl la st1 _ _ Hinv1 Hall Hg1).
      eexists _, e, c. split; [reflexivity|]. simpl.
      repeat split; try done. lia.
    + rewrite (bool_decide_eq_false_2 _ Hb).
      assert (Hg1 : ap_get (ap_data st1) b = None) by (by rewrite Hd, upsert_get_ne).
      specialize (IH st1 Hinv1 Hg1). by destruct (beacons_of b pkts).
  - simpl in Hstep. simpl.
    assert (Hg1 : ap_get (ap_data st1) b = None).
    { destruct (ap_get (ap_data st) k) eqn:Hgk; injection Hstep as <-; [|done].
      simpl. rewrite ap_get_set_ne; [done|]. congruence. }
    specialize (IH st1 Hinv1 Hg1). by destruct (beacons_of b pkts).
  - simpl in Hstep. injection Hstep as <-. simpl. by apply IH.
Qed.

(** X20. At the end of a run of readable packets, a BSSID has a record exactly
    when one of the packets was a beacon of it; the record counts all these
    beacons, and the data frames addressed to the BSSID that came after the
    first of them: data frames seen before it are not counted. *)
Theorem record_counts_beacons_and_later_data_frames (pkts : list packet) (v la : bool)
    (wl : list string) (b : string) :
  Forall readable pkts ->
  let st := sniff pkts v wl la init_state in
  match beacons_of b pkts with
  | [] => ap_get (ap_data st) b = None
  | _ :: _ =>
      exists r, ap_get (ap_data st) b = Some r /\
        beacons r = Z.of_nat (length (beacons_of b pkts)) /\
        data r = data_frames_counted b false pkts
  end.
Proof.
  intros Hall st.
  pose proof (sniff_new_record pkts v wl la init_state b init_state_inv Hall eq_refl) as H.
  fold st in H. destruct (beacons_of b pkts) as [|bc0 l]; [exact H|].
  destruct H as (r & e & c & Hg & Hb & Hd & _). by exists r.
Qed.

Lemma record_counts_beacons_and_later_data_frames_witness :
  exists r,
    ap_get (ap_data (sniff [DataFrame "A"; mk_beacon "A" "Net" None 1; DataFrame "A";
                            DataFrame "B"; mk_beacon "A" "Net" None 1; DataFrame "A"]
                           false [] false init_state)) "A" = Some r /\
    beacons r = 2 /\ data r = 2.
Proof.
  assert (Hall : Forall readable
            [DataFrame "A"; mk_beacon "A" "Net" None 1; DataFrame "A";
             DataFrame "B"; mk_beacon "A" "Net" None 1; DataFrame "A"]).
  { repeat first [apply Forall_nil_2 | apply Forall_cons_2];
      first [exact I | apply readable_mk_beacon | apply readable_rsn_beacon]. }
  exact (record_counts_beacons_and_later_data_frames
    [DataFrame "A"; mk_beacon "A" "Net" None 1; DataFrame "A";
     DataFrame "B"; mk_beacon "A" "Net" None 1; DataFrame "A"] false false [] "A" Hall).
Defined.

(** X21. Over a run of readable packets the first beacon of a BSSID decides the
    name, the security and the bit rate of its record: later beacons of the
    BSSID, whatever they advertise, change none of them. *)
Theorem first_beacon_decides_name_and_security (pkts : list packet) (v la : bool)
    (wl : list string) (b : string) (bc0 : beacon) :
  Forall readable pkts ->
  head (beacons_of b pkts) = Some bc0 ->
  exists r e c,
    ap_get (ap_data (sniff pkts v wl la init_state)) b = Some r /\
    essid r = ssid_of bc0 /\
    read_beacon bc0 = Ok (e, c) /\
    security (rsn_ie e) = Ok (enc r, cipher r, auth r, pmf r) /\
    mb r = max_bit_rate (supported_rates e ++ extended_rates e).
Proof.
  intros Hall Hhd.
  pose proof (sniff_new_record pkts v wl la init_state b init_state_inv Hall eq_refl) as H.
  destruct (beacons_of b pkts) as [|bc l]; [discriminate|].
  injection Hhd as ->.
  destruct H as (r & e & c & Hg & _ & _ & He & _ & Hs & Hsec & Hmb). by exists r, e, c.
Qed.

Lemma first_beacon_decides_name_and_security_witness :
  exists r,
    ap_get (ap_data (sniff [Beacon (rsn_beacon "A" "Net" []);
                            Beacon (rsn_beacon "A" "Cafe" [2; 0])]
                           false [] false init_state)) "A" = Some r /\
    essid r = "Net" /\ enc r = VStr "OPN".
Proof.
  assert (Hall : Forall readable [Beacon (rsn_beacon "A" "Net" []);
                                  Beacon (rsn_beacon "A" "Cafe" [2; 0])]).
  { repeat first [apply Forall_nil_2 | apply Forall_cons_2];
      first [exact I | apply readable_mk_beacon | apply readable_rsn_beacon]. }
  destruct (first_beacon_decides_name_and_security
              [Beacon (rsn_beacon "A" "Net" []); Beacon (rsn_beacon "A" "Cafe" [2; 0])]
              false false [] "A" _ Hall eq_refl) as (r & e & c & Hg & He & Hscan & Hsec & _).
  exists r. split; [exact Hg|]. split; [exact He|].
  injection Hscan as <-. simpl in Hsec. by injection Hsec.
Defined.

Lemma elem_of_add_once x sig l : x ∈ add_once sig l <-> x ∈ l \/ sig = Some x.
Proof.
  unfold add_once. destruct sig as [s|].
  - case_bool_decide as Hs.
    + split; [by left|]. intros [Hx|[= <-]]; done.
    + rewrite elem_of_app, list_elem_of_singleton. split.
      * intros [Hx| ->]; [by left | by right].
      * intros [Hx|[= <-]]; [by left | by right].
  - split; [by left|]. by intros [Hx|?].
Qed.

(** The two lists of a recorded BSSID at the end of a run of readable
    packets: what they held, and what the beacons of the BSSID reported. *)
Lemma sniff_known_lists pkts v wl la st b r0 :
  reg_inv st -> Forall readable pkts ->
  ap_get (ap_data st) b = Some r0 ->
  (forall x, x ∈ deref (heap (sniff pkts v wl la st)) (pwr r0) <->
     x ∈ deref (heap st) (pwr r0) \/
     exists bc, bc ∈ beacons_of b pkts /\ dBm_AntSignal bc = Some x) /\
  (forall c, c ∈ deref (heap (sniff pkts v wl la st)) (channel r0) <->
     c ∈ deref (heap st) (channel r0) \/
     exists bc e, bc ∈ beacons_of b pkts /\ read_beacon bc = Ok (e, c)).
Proof.
  intros Hinv Hall. revert st r0 Hinv.
  induction Hall as [|p pkts Hp Hall IH]; intros st r0 Hinv Hg.
  - unfold sniff. simpl. split; intros x; (split; [by left|]).
    + intros [Hx|(bc & Hbc & _)]; [done | by apply elem_of_nil in Hbc].
    + intros [Hx|(bc & e & Hbc & _)]; [done | by apply elem_of_nil in Hbc].
  - rewrite sniff_cons.
    destruct (readable_handled p v wl la st (proj1 (proj1 Hinv)) Hp) as [st1 Hstep]. rewrite Hstep.
    pose proof (packet_handler_inv _ _ _ _ _ _ Hinv Hstep) as Hinv1.
    destruct Hinv as ((Hk & Hl & _) & _ & Ha & _).
    destruct p as [bc|k|].
    + destruct (beacon_step bc v wl la st st1 Hk Hstep) as (e & c & sec & He & _ & Hh & Hd).
      destruct sec as [[[en ci] au] pm]. unfold beacon_upsert in Hh, Hd.
      simpl. destruct (decide (addr2 bc = b)) as [Hb|Hb].
      * rewrite (bool_decide_eq_true_2 _ Hb). subst b.
        destruct (Hl _ _ Hg) as (Hp0 & Hc0 & Hne0).
        destruct (upsert_known (addr2 bc) (ssid_of bc) (dBm_AntSignal bc) (Some c)
                    (max_bit_rate (supported_rates e ++ extended_rates e)) en ci au pm
                    (heap st) (ap_data st) r0 Hg Hp0 Hc0 Hne0) as (Hg1 & Hpw & Hch).
        rewrite <- Hh in Hpw, Hch. rewrite <- Hd in Hg1.
        destruct (IH st1 _ Hinv1 Hg1) as [IHp IHc]. simpl in IHp, IHc.
        split; intros x.
        -- rewrite IHp, Hpw, elem_of_add_once. split.
           ++ intros [[Hx|Hx]|(bc' & Hin & Hx)]; [by left | | ].
              ** right. exists bc. split; [left | done].
              ** right. exists bc'. split; [by right | done].
           ++ intros [Hx|(bc' & Hin & Hx)]; [by left; left|].
              apply elem_of_cons in Hin. destruct Hin as [->|Hin].
              ** by left; right.
              ** right. by exists bc'.
        -- rewrite IHc, Hch, elem_of_add_once. split.
           ++ intros [[Hx|Hx]|(bc' & e' & Hin & Hx)]; [by left | | ].
              ** right. exists bc, e. split; [left | congruence].
              ** right. exists bc', e'. split; [by right | done].
           ++ intros [Hx|(bc' & e' & Hin & Hx)]; [by left; left|].
              apply elem_of_cons in Hin. destruct Hin as [->|Hin].
              ** left; right. congruence.
              ** right. by exists bc', e'.
      * rewrite (bool_decide_eq_false_2 _ Hb).
        assert (Hg1 : ap_get (ap_data st1) b = Some r0) by (by rewrite Hd, upsert_get_ne).
        destruct (upsert_other_lists (addr2 bc) (ssid_of bc) (dBm_AntSignal bc)
                    (Some c) (max_bit_rate (supported_rates e ++ extended_rates e))
                    en ci au pm (heap st) (ap_data st) b r0 Hl Ha Hb Hg) as (Hpw & Hch).
        rewrite <- Hh in Hpw, Hch.
        destruct (IH st1 _ Hinv1 Hg1) as [IHp IHc].
        split; intros x; [rewrite IHp, Hpw | rewrite IHc, Hch]; done.
    + simpl in Hstep. simpl.
      assert (Hh : heap st1 = heap st)
        by (destruct (ap_get (ap_data st) k); by injection Hstep as <-).
      assert (Hg1 : exists r1, ap_get (ap_data st1) b = Some r1 /\
                pwr r1 = pwr r0 /\ channel r1 = channel r0).
      { destruct (ap_get (ap_data st) k) as [rk|] eqn:Hgk; injection Hstep as <-; [|eauto].
        simpl. destruct (decide (k = b)) as [->|Hne].
        - rewrite ap_get_set_eq. eexists. split; [reflexivity|].
          assert (rk = r0) by congruence. by subst.
        - rewrite ap_get_set_ne by done. eauto. }
      destruct Hg1 as (r1 & Hg1 & Hp1 & Hc1).
      destruct (IH st1 _ Hinv1 Hg1) as [IHp IHc].
      rewrite Hp1, Hc1, Hh in *. by split.
    + simpl in Hstep. injection Hstep as <-. simpl. by apply IH.
Qed.

(** X22. At the end of a run of readable packets, the signal samples of a record
    are the signal values that the beacons of its BSSID reported, and its
    channels are the channels that the handler read off these beacons: no
    other value, and none missing. *)
Theorem samples_are_the_values_reported (pkts : list packet) (v la : bool)
    (wl : list string) (b : string) (r : ap_record) :
  Forall readable pkts ->
  let st := sniff pkts v wl la init_state in
  ap_get (ap_data st) b = Some r ->
  (forall x, x ∈ deref (heap st) (pwr r) <->
     exists bc, bc ∈ beacons_of b pkts /\ dBm_AntSignal bc = Some x) /\
  (forall c, c ∈ deref (heap st) (channel r) <->
     exists bc e, bc ∈ beacons_of b pkts /\ read_beacon bc = Ok (e, c)).
Proof.
  intros Hall st. subst st.
  assert (Hgen : forall st0, reg_inv st0 -> ap_get (ap_data st0) b = None ->
            ap_get (ap_data (sniff pkts v wl la st0)) b = Some r ->
            (forall x, x ∈ deref (heap (sniff pkts v wl la st0)) (pwr r) <->
               exists bc, bc ∈ beacons_of b pkts /\ dBm_AntSignal bc = Some x) /\
            (forall c, c ∈ deref (heap (sniff pkts v wl la st0)) (channel r) <->
               exists bc e, bc ∈ beacons_of b pkts /\ read_beacon bc = Ok (e, c))).
  2:{ apply Hgen; [apply init_state_inv | reflexivity]. }
  induction Hall as [|p pkts Hp Hall IH]; intros st Hinv Hnone.
  { unfold sniff. simpl. congruence. }
  rewrite sniff_cons.
  destruct (readable_handled p v wl la st (proj1 (proj1 Hinv)) Hp) as [st1 Hstep]. rewrite Hstep.
  pose proof (packet_handler_inv _ _ _ _ _ _ Hinv Hstep) as Hinv1.
  destruct Hinv as ((Hk & _) & _).
  destruct p as [bc|k|].
  - destruct (beacon_step bc v wl la st st1 Hk Hstep) as (e & c & sec & He & _ & Hh & Hd).
    destruct sec as [[[en ci] au] pm]. unfold beacon_upsert in Hh, Hd.
    simpl. destruct (decide (addr2 bc = b)) as [Hb|Hb].
    + rewrite (bool_decide_eq_true_2 _ Hb). subst b.
      assert (Hg1 : ap_get (ap_data st1) (addr2 bc) =
                Some {| essid := ssid_of bc; bssid := addr2 bc; pwr := length (heap st);
                        beacons := 1; data := 0; channel := S (length (heap st));
                        mb := max_bit_rate (supported_rates e ++ extended_rates e);
                        enc := en; cipher := ci; auth := au; pmf := pm |})
        by (by rewrite Hd, upsert_record, Hnone).
      rewrite (sniff_known_record pkts v wl la st1 _ _ Hinv1 Hall Hg1).
      intros [= <-]. simpl.
      destruct (sniff_known_lists pkts v wl la st1 _ _ Hinv1 Hall Hg1) as [Lp Lc].
      simpl in Lp, Lc.
      assert (Hp1 : deref (heap st1) (length (heap st)) =
                    match dBm_AntSignal bc with Some s => [s] | None => [] end).
      { rewrite Hh. unfold upsert. rewrite Hnone. simpl. unfold deref.
        rewrite lookup_app_l by (rewrite length_app; simpl; lia).
        by rewrite list_lookup_middle. }
      assert (Hc1 : deref (heap st1) (S (length (heap st))) = [c]).
      { rewrite Hh. unfold upsert. rewrite Hnone. simpl. unfold deref.
        rewrite lookup_app_r by (rewrite length_app; simpl; lia).
        rewrite length_app. simpl.
        by replace (S (length (heap st)) - (length (heap st) + 1))%nat with 0%nat by lia. }
      split; intros x.
      * rewrite Lp, Hp1. split.
        -- intros [Hx|(bc' & Hin & Hx)].
           ++ exists bc. split; [left|]. destruct (dBm_AntSignal bc) as [s|].
              ** apply list_elem_of_singleton in Hx. by subst.
              ** by apply elem_of_nil in Hx.
           ++ exists bc'. split; [by right | done].
        -- intros (bc' & Hin & Hx). apply elem_of_cons in Hin. destruct Hin as [->|Hin].
           ++ left. rewrite Hx. left.
           ++ right. by exists bc'.
      * rewrite Lc, Hc1. split.
        -- intros [Hx|(bc' & e' & Hin & Hx)].
           ++ exists bc, e. split; [left|].
              apply list_elem_of_singleton in Hx. by subst.
           ++ exists bc', e'. split; [by right | done].
        -- intros (bc' & e' & Hin & Hx). apply elem_of_cons in Hin.
           destruct Hin as [->|Hin].
           ++ left. apply list_elem_of_singleton. congruence.
           ++ right. by exists bc', e'.
    + rewrite (bool_decide_eq_false_2 _ Hb).
      assert (Hg1 : ap_get (ap_data st1) b = None) by (by rewrite Hd, upsert_get_ne).
      by apply IH.
  - simpl in Hstep. simpl.
    assert (Hg1 : ap_get (ap_data st1) b = None).
    { destruct (ap_get (ap_data st) k) eqn:Hgk; injection Hstep as <-; [|done].
      simpl. rewrite ap_get_set_ne; [done|]. congruence. }
    by apply IH.
  - simpl in Hstep. injection Hstep as <-. simpl. by apply IH.
Qed.

Lemma samples_are_the_values_reported_witness :
  exists st r,
    st = sniff [mk_beacon "A" "Net" (Some (-45)) 1; mk_beacon "B" "Net" (Some (-80)) 3;
                mk_beacon "A" "Net" None 6; mk_beacon "A" "Net" (Some (-45)) 1]
               false [] false init_state /\
    ap_get (ap_data st) "A" = Some r /\
    deref (heap st) (pwr r) = [-45] /\ deref (heap st) (channel r) = [1; 6] /\
    (forall x, x ∈ deref (heap st) (pwr r) <->
       exists bc, bc ∈ beacons_of "A" [mk_beacon "A" "Net" (Some (-45)) 1;
                                       mk_beacon "B" "Net" (Some (-80)) 3;
                                       mk_beacon "A" "Net" None 6;
                                       mk_beacon "A" "Net" (Some (-45)) 1]
                  /\ dBm_AntSignal bc = Some x).
Proof.
  assert (Hall : Forall readable
            [mk_beacon "A" "Net" (Some (-45)) 1; mk_beacon "B" "Net" (Some (-80)) 3;
             mk_beacon "A" "Net" None 6; mk_beacon "A" "Net" (Some (-45)) 1]).
  { repeat first [apply Forall_nil_2 | apply Forall_cons_2];
      first [exact I | apply readable_mk_beacon | apply readable_rsn_beacon]. }
  eexists _, _. split; [reflexivity|]. split; [reflexivity|].
  split; [reflexivity|]. split; [reflexivity|].
  exact (proj1 (samples_are_the_values_reported _ false false [] "A" _ Hall eq_refl)).
Defined.

Lemma has_alert_prefix al al' b :
  al `prefix_of` al' -> has_alert al b = true -> has_alert al' b = true.
Proof. intros [tl ->] H. rewrite has_alert_app, H. reflexivity. Qed.

Lemma sniff_alerts_prefix pkts v wl la st :
  alerts st `prefix_of` alerts (sniff pkts v wl la st).
Proof. unfold sniff. apply run_alerts_prefix. Qed.

(** A beacon that is handled and not whitelisted leaves its BSSID with an
    entry in the ledger. *)
Lemma beacon_leaves_alert bc v wl la st st' :
  keys_ok (ap_data st) ->
  packet_handler (Beacon bc) v wl la st = Ok st' ->
  whitelist_check wl (ssid_of bc) (addr2 bc) = false ->
  has_alert (alerts st') (addr2 bc) = true.
Proof.
  intros Hk Hstep Hwl.
  destruct (packet_handler_beacon_inv _ _ _ _ _ _ Hstep) as (e & c & He).
  destruct (beacon_alerts bc v wl la st e c Hk He)
    as (st1 & r' & Hs & _ & _ & Hb & _ & _ & Ha).
  rewrite Hs in Hstep. injection Hstep as ->. rewrite Ha, Hwl, has_alert_app.
  destruct (has_alert (alerts st) (addr2 bc)); [done|]. simpl.
  rewrite Hb. by rewrite bool_decide_eq_true_2.
Qed.

(** An entry of the ledger after a handled packet was there before, or is
    for the BSSID of this packet, a beacon that is not whitelisted. *)
Lemma new_alert_origin p v wl la st st' a :
  keys_ok (ap_data st) ->
  packet_handler p v wl la st = Ok st' ->
  a ∈ alerts st' ->
  a ∈ alerts st \/
  exists bc, p = Beacon bc /\ addr2 bc = alert_bssid a /\
    whitelist_check wl (ssid_of bc) (addr2 bc) = false.
Proof.
  intros Hk Hstep Ha. destruct p as [bc|k|].
  - destruct (packet_handler_beacon_inv _ _ _ _ _ _ Hstep) as (e & c & He).
    destruct (beacon_alerts bc v wl la st e c Hk He)
      as (st1 & r' & Hs & _ & _ & Hb & _ & _ & Hal).
    rewrite Hs in Hstep. injection Hstep as ->.
    rewrite Hal in Ha. apply elem_of_app in Ha. destruct Ha as [Ha|Ha]; [by left|].
    right. exists bc. split; [done|].
    destruct (whitelist_check wl (ssid_of bc) (addr2 bc)); [by apply elem_of_nil in Ha|].
    destruct (has_alert (alerts st) (addr2 bc)); [by apply elem_of_nil in Ha|].
    apply list_elem_of_singleton in Ha. subst a. unfold alert_bssid. simpl. by split.
  - simpl in Hstep. left.
    destruct (ap_get (ap_data st) k); by injection Hstep as <-.
  - simpl in Hstep. injection Hstep as <-. by left.
Qed.

(** X23. With one whitelist for the whole run, as [main] has it, and readable
    packets: the BSSID of every beacon that was not whitelisted under the
    name it advertised has an alert at the end of the run, and every alert
    is for the BSSID of such a beacon. *)
Theorem alerted_exactly_the_unlisted (pkts : list packet) (v la : bool)
    (wl : list string) :
  Forall readable pkts ->
  let st := sniff pkts v wl la init_state in
  (forall bc, Beacon bc ∈ pkts ->
     whitelist_check wl (ssid_of bc) (addr2 bc) = false ->
     has_alert (alerts st) (addr2 bc) = true) /\
  (forall a, a ∈ alerts st ->
     exists bc, Beacon bc ∈ pkts /\ addr2 bc = alert_bssid a /\
       whitelist_check wl (ssid_of bc) (addr2 bc) = false).
Proof.
  intros Hall st. subst st.
  assert (Hgen : forall st0, reg_inv st0 ->
    (forall bc, Beacon bc ∈ pkts ->
       whitelist_check wl (ssid_of bc) (addr2 bc) = false ->
       has_alert (alerts (sniff pkts v wl la st0)) (addr2 bc) = true) /\
    (forall a, a ∈ alerts (sniff pkts v wl la st0) ->
       a ∈ alerts st0 \/
       exists bc, Beacon bc ∈ pkts /\ addr2 bc = alert_bssid a /\
         whitelist_check wl (ssid_of bc) (addr2 bc) = false)).
  2:{ destruct (Hgen init_state init_state_inv) as [H1 H2]. split; [exact H1|].
      intros a Ha. destruct (H2 a Ha) as [Hin|Hbc]; [|exact Hbc].
      by apply elem_of_nil in Hin. }
  induction Hall as [|p pkts Hp Hall IH]; intros st Hinv.
  { split; [intros bc Hin; by apply elem_of_nil in Hin|]. unfold sniff. simpl. by left. }
  rewrite sniff_cons.
  destruct (readable_handled p v wl la st (proj1 (proj1 Hinv)) Hp) as [st1 Hstep]. rewrite Hstep.
  pose proof (packet_handler_inv _ _ _ _ _ _ Hinv Hstep) as Hinv1.
  destruct Hinv as ((Hk & _) & _).
  destruct (IH st1 Hinv1) as [IH1 IH2]. split.
  - intros bc Hin Hwl. apply elem_of_cons in Hin. destruct Hin as [<-|Hin].
    + apply (has_alert_prefix (alerts st1)); [apply sniff_alerts_prefix|].
      by eapply beacon_leaves_alert.
    + by apply IH1.
  - intros a Ha. destruct (IH2 a Ha) as [Ha1|(bc & Hin & Hb & Hwl)].
    + destruct (new_alert_origin p v wl la st st1 a Hk Hstep Ha1)
        as [Ha0|(bc & -> & Hb & Hwl)]; [by left|].
      right. exists bc. split; [left | done].
    + right. exists bc. split; [by right | done].
Qed.

Lemma alerted_exactly_the_unlisted_witness :
  let st := sniff [mk_beacon "A" "Net" None 1; mk_beacon "B" "Cafe" None 6]
                  false ["Net,A"] false init_state in
  has_alert (alerts st) "B" = true /\ map alert_bssid (alerts st) = ["B"].
Proof.
  assert (Hall : Forall readable [mk_beacon "A" "Net" None 1; mk_beacon "B" "Cafe" None 6]).
  { repeat first [apply Forall_nil_2 | apply Forall_cons_2];
      first [exact I | apply readable_mk_beacon | apply readable_rsn_beacon]. }
  split; [|reflexivity].
  refine (proj1 (alerted_exactly_the_unlisted _ false false ["Net,A"] Hall)
            (plain_beacon "B" "Cafe" (None) 6) _ eq_refl).
  right. left.
Defined.

(** ** The values a record can hold *)

Lemma parse_rsn_shape s :
  parse_rsn s = Ok ∅ \/
  exists pc ak p r, parse_rsn s = Ok (rsn_dict "WPA2" (cipher_name pc) (akm_name ak) p r).
Proof.
  unfold parse_rsn. rewrite parse_rsn_try_steps. unfold parse_rsn_steps.
  destruct (u16_at s 0) as [ver|]; [|by left].
  destruct (negb (ver =? 1)); [by left|].
  destruct (u16_at s 6) as [P|]; [|by left].
  destruct (u16_at s (8 + 4 * P)) as [A|]; [|by left].
  destruct (byte_at s 11) as [pc|]; [|by left].
  destruct (byte_at s (8 + 4 * P + 5)) as [ak|]; [|by left].
  right. simpl. rewrite cipher_map_get, akm_map_get. by eexists _, _, _, _.
Qed.

(** X4. The security that the handler computes for a beacon is OPN with empty
    cipher and authentication and PMF "No" when the beacon has no RSN
    element or an empty one, and otherwise WPA2 with one of the five cipher
    names, one of the three authentication names and one of the three PMF
    values: no other combination reaches a record. *)
Theorem security_is_opn_or_wpa2 (rsn : option (list Byte.byte)) :
  exists en ci au pm,
    security rsn = Ok (VStr en, VStr ci, VStr au, pm) /\
    ((en = "OPN" /\ ci = "" /\ au = "" /\ pm = "No" /\ (rsn = None \/ rsn = Some [])) \/
     (en = "WPA2" /\
      ci ∈ ["WEP-40"; "TKIP"; "CCMP"; "WEP-104"; "Unknown"] /\
      au ∈ ["802.1X"; "PSK"; "Unknown"] /\
      pm ∈ ["No"; "Capable"; "Required"] /\
      exists s, rsn = Some s /\ s <> [])).
Proof.
  destruct rsn as [[|b bs]|].
  - eexists _, _, _, _. split; [reflexivity|]. left. repeat split. by right.
  - assert (Hne : b :: bs ≠ []) by done.
    destruct (parse_rsn_shape (b :: bs)) as [Hf|(pc & ak & p & r & Hd)].
    + rewrite (security_of_failed_decode _ Hne Hf).
      eexists _, _, _, _. split; [reflexivity|]. right.
      split; [done|]. split; [by repeat constructor|]. split; [by repeat constructor|].
      split; [by repeat constructor|]. by exists (b :: bs).
    + rewrite (security_of_rsn_dict _ _ _ _ _ _ Hne Hd).
      eexists _, _, _, _. split; [reflexivity|]. right.
      split; [done|]. split; [|split; [|split]].
      * unfold cipher_name. repeat (destruct (_ =? _); [by repeat constructor|]).
        by repeat constructor.
      * unfold akm_name. repeat (destruct (_ =? _); [by repeat constructor|]).
        by repeat constructor.
      * destruct r; [by repeat constructor|]. destruct p; by repeat constructor.
      * by exists (b :: bs).
  - eexists _, _, _, _. split; [reflexivity|]. left. repeat split. by left.
Qed.

Lemma file_whitelist_matches_stripped_lines_witness :
  whitelist_check
    (elements (load_whitelist (Some [String "010" ""; (" Net,A " ++ String "010" "")%string;
                                     "Cafe"])))
    "Net" "A" = true.
Proof.
  apply (proj2 (file_whitelist_matches_stripped_lines
                  [String "010" ""; (" Net,A " ++ String "010" "")%string; "Cafe"]
                  "Net" "A")).
  split; [reflexivity|]. split; [reflexivity|].
  exists (" Net,A " ++ String "010" "")%string. split; [right; left | reflexivity].
Defined.
